(** * pycroscopy: clustering wrapper and G-mode / Igor translators

  A shallow embedding of
    - [pycroscopy/processing/cluster.py]
    - [pycroscopy/io/translators/gmode_line.py]
    - [pycroscopy/io/translators/gmode_iv.py]
    - [pycroscopy/io/translators/igor_ibw.py]
  together with the properties claimed for them.

  Conventions.  Python integers are [Z].  Python exceptions are values of
  [Py.exn]; a call that may raise returns a [Py.outcome].  Calls into
  numpy, h5py, scipy and scikit-learn are either given their library
  semantics on the fragment that the code uses (slices, [np.min],
  [np.round], [np.tile], ...) or, when they compute on floating point data
  (the clustering fit, [linkage], the dtype transforms), taken as
  parameters of the model. *)

From Stdlib Require Import ZArith String Ascii DecimalString Bool Lia QArith Qround.
From Stdlib Require Import Permutation List.
Import ListNotations.
Open Scope Z_scope.

(* ===================================================================== *)
(** ** The Python fragment used by the sources *)
(* ===================================================================== *)

Module Py.

(** Exceptions raised by the modelled code and by the library calls. *)
Inductive exn : Type :=
| TypeError (msg : string)
| ValueError (msg : string)
| KeyError (key : string)
| IndexError (msg : string)
| IOError (path : string)
| OverflowError (msg : string)
| ZeroDivisionError.

Inductive outcome (A : Type) : Type :=
| Ok (a : A)
| Raise (e : exn).
Arguments Ok {A} a.
Arguments Raise {A} e.

Definition bind {A B : Type} (m : outcome A) (k : A -> outcome B) : outcome B :=
  match m with
  | Ok a => k a
  | Raise e => Raise e
  end.

(** [range(a, b)] *)
Definition range (a b : Z) : list Z :=
  map (fun i => a + Z.of_nat i) (seq 0 (Z.to_nat (b - a))).

(** A [slice(start, stop)] object; the step is always [None] in the
    sources. *)
Record slice : Type := mkslice { start : option Z; stop : option Z }.

(** One bound of [slice.indices(len)] for a positive step. *)
Definition adjust_index (len : Z) (dflt : Z) (i : option Z) : Z :=
  match i with
  | None => dflt
  | Some i =>
      if i <? 0 then Z.max (i + len) 0
      else Z.min i len
  end.

(** [slice.indices(len)], without the step. *)
Definition slice_indices (s : slice) (len : Z) : Z * Z :=
  (adjust_index len 0 (start s), adjust_index len len (stop s)).

(** The positions that [x[s]] reads from a sequence of length [len]. *)
Definition slice_positions (s : slice) (len : Z) : list Z :=
  let '(a, b) := slice_indices s len in range a b.

(** [seq[i]] for a non-negative position. *)
Definition getitem {A : Type} (l : list A) (i : Z) : option A :=
  if i <? 0 then None else nth_error l (Z.to_nat i).

(** [seq[s]] *)
Definition getslice {A : Type} (l : list A) (s : slice) : list A :=
  let '(a, b) := slice_indices s (Z.of_nat (length l)) in
  firstn (Z.to_nat (b - a)) (skipn (Z.to_nat a) l).

End Py.

Import Py.

Declare Scope py_scope.
Delimit Scope py_scope with py.
Notation "x <- m ;; k" := (Py.bind m (fun x => k))
(at level 100, m at next level, right associativity) : py_scope.
Notation "m ;;; k" := (Py.bind m (fun _ => k))
(at level 100, right associativity) : py_scope.

(* ===================================================================== *)
(** ** processing/cluster.py : component selection *)
(* ===================================================================== *)

Module ComponentSlice.

(** The values that a caller can pass as [num_comps] / [components]. *)
Inductive components : Type :=
| CNone                       (* None *)
| CInt (n : Z)                (* an int *)
| CIter (l : list Z)          (* list, tuple or array of ints *)
| CDict                       (* a dict: iterable, but excluded *)
| CSlice (s : slice)          (* a slice object *)
| COther.                     (* anything else, e.g. a float *)

(** What [_get_component_slice] hands back for indexing axis 1: a slice
    or a numpy array of unsigned integers. *)
Inductive comp_slice : Type :=
| SliceSel (s : slice)
| ArraySel (a : list Z).

(** [np.uint(x)] on a Python int: 64-bit wrap-around. *)
Definition np_uint (x : Z) : Z := x mod 2 ^ 64.

Definition unsupported_msg : string :=
  "Unsupported component type supplied to clean_and_build.  Allowed types are integer, numpy array, list, tuple, and slice.".

(** [abs(comp_slice.stop - comp_slice.start)]; subtracting [None] is a
    [TypeError]. *)
Definition slice_extent (s : slice) : outcome Z :=
  match start s, stop s with
  | Some a, Some b => Ok (Z.abs (b - a))
  | _, _ => Raise (TypeError "unsupported operand type(s) for -")
  end.

(** [Cluster._get_component_slice]; [shape1] is [self.h5_main.shape[1]]. *)
Definition _get_component_slice (shape1 : Z) (c : components)
  : outcome (comp_slice * Z) :=
  match c with
  | CNone =>
      let num_comps := shape1 in
      Ok (SliceSel (mkslice (Some 0) (Some num_comps)), num_comps)
  | CInt n =>
      let num_comps := Z.min n shape1 in
      Ok (SliceSel (mkslice (Some 0) (Some num_comps)), num_comps)
  | CIter l =>
      if (Z.of_nat (length l) =? 2) then
        match getitem l 0, getitem l 1 with
        | Some a, Some b =>
            let cs := mkslice (Some a) (Some b) in
            (num_comps <- slice_extent cs ;; Ok (SliceSel cs, num_comps))%py
        | _, _ => Raise (IndexError "list index out of range")
        end
      else
        let cs := map np_uint l in
        Ok (ArraySel cs, Z.of_nat (length cs))
  | CSlice s =>
      (num_comps <- slice_extent s ;; Ok (SliceSel s, num_comps))%py
  | CDict | COther => Raise (TypeError unsupported_msg)
  end.

(** Strictly increasing selection lists, as h5py requires for a dataset
    indexed by a list. *)
Fixpoint increasing (l : list Z) : bool :=
  match l with
  | [] => true
  | x :: t =>
      match t with
      | [] => true
      | y :: _ => (x <? y) && increasing t
      end
  end.

(** The columns read by [h5_main[:, comp_slice]] from a dataset with
    [shape1] columns.  A slice follows [slice.indices]; an index array
    must be in range and in increasing order. *)
Definition select_columns (shape1 : Z) (cs : comp_slice) : outcome (list Z) :=
  match cs with
  | SliceSel s => Ok (slice_positions s shape1)
  | ArraySel a =>
      if negb (forallb (fun i => (0 <=? i) && (i <? shape1)) a) then
        Raise (ValueError "Index out of range")
      else if negb (increasing a) then
        Raise (TypeError "Indexing elements must be in increasing order")
      else Ok a
  end.

(** The selection announced for each kind of argument. *)
Definition announced (shape1 : Z) (c : components) : option (list Z) :=
  match c with
  | CNone => Some (range 0 shape1)
  | CInt n => Some (range 0 (Z.min n shape1))
  | CIter [a; b] => Some (range a b)
  | CIter l => Some l
  | _ => None
  end.

(** [c] selects exactly the columns [cols], and [num_comps] counts them. *)
Definition selects (shape1 : Z) (c : components) (cols : list Z) : Prop :=
  exists cs num_comps,
    _get_component_slice shape1 c = Ok (cs, num_comps) /\
    select_columns shape1 cs = Ok cols /\
    num_comps = Z.of_nat (length cols).

(** The arguments on which the announced selection exists in the dataset. *)
Definition in_bounds (shape1 : Z) (c : components) : Prop :=
  match c with
  | CInt n => 0 <= n
  | CIter [a; b] => 0 <= a <= b /\ b <= shape1
  | CIter l =>
      Forall (fun i => 0 <= i < shape1) l /\ increasing l = true /\
      shape1 <= 2 ^ 64
  | _ => True
  end.

End ComponentSlice.

(* ===================================================================== *)
(** ** numpy arrays *)
(* ===================================================================== *)

Module Np.

(** The dtype tag carried by an array. *)
Inductive dtype : Type :=
| IntT (bits : Z)
| UIntT (bits : Z)
| FloatT (bits : Z)
| ComplexT (bits : Z)
| CompoundT (fields : list string).

(** Storing a Python int into an array of dtype [d]: integer dtypes wrap. *)
Definition cast (d : dtype) (x : Z) : Z :=
  match d with
  | UIntT w => x mod 2 ^ w
  | IntT w => (x + 2 ^ (w - 1)) mod 2 ^ w - 2 ^ (w - 1)
  | _ => x
  end.

(** A 1-d integer array, such as the label vector of a fit. *)
Record int_array : Type := mk_int_array { idtype : dtype; ivals : list Z }.

(** A 2-d array: its dtype, the second entry of its shape, and its rows. *)
Record matrix (A : Type) : Type :=
  mk_matrix { mdtype : dtype; ncols : Z; mrows : list (list A) }.
Arguments mk_matrix {A} mdtype ncols mrows.
Arguments mdtype {A} m.
Arguments ncols {A} m.
Arguments mrows {A} m.

Definition nrows {A : Type} (m : matrix A) : Z := Z.of_nat (length (mrows m)).

(** Every row has [ncols] entries. *)
Definition rectangular {A : Type} (m : matrix A) : Prop :=
  Forall (fun r => Z.of_nat (length r) = ncols m) (mrows m).

(** [np.zeros(shape=(n, c))] as a list of rows. *)
Definition zeros {A : Type} (zero : A) (n c : Z) : list (list A) :=
  repeat (repeat zero (Z.to_nat c)) (Z.to_nat n).

(** An index into an axis of length [len]: negative indices count from the
    end, anything outside is an [IndexError]. *)
Definition norm_index (len i : Z) : outcome nat :=
  let j := if i <? 0 then i + len else i in
  if (0 <=? j) && (j <? len) then Ok (Z.to_nat j)
  else Raise (IndexError "index is out of bounds").

(** [a[i]] on the first axis. *)
Definition getrow {A : Type} (rows : list A) (i : Z) : outcome A :=
  (j <- norm_index (Z.of_nat (length rows)) i ;;
   match nth_error rows j with
   | Some r => Ok r
   | None => Raise (IndexError "index is out of bounds")
   end)%py.

(** [a[i] = r] on the first axis. *)
Definition setrow {A : Type} (rows : list A) (i : Z) (r : A) : outcome (list A) :=
  (j <- norm_index (Z.of_nat (length rows)) i ;;
   Ok (firstn j rows ++ r :: skipn (S j) rows))%py.

(** [a[i] = r] where [r] is broadcast against a row of [c] entries: equal
    length, or a single entry that is repeated. *)
Definition assign_row {A : Type} (rows : list (list A)) (c : Z) (i : Z) (r : list A)
  : outcome (list (list A)) :=
  if Z.of_nat (length r) =? c then setrow rows i r
  else
    match r with
    | [x] => setrow rows i (repeat x (Z.to_nat c))
    | _ => Raise (ValueError "could not broadcast input array")
    end.

(** [np.argwhere(labels == v)], as positions counted from [n]. *)
Fixpoint argwhere_from (n : Z) (v : Z) (labels : list Z) : list Z :=
  match labels with
  | [] => []
  | x :: t =>
      if x =? v then n :: argwhere_from (n + 1) v t
      else argwhere_from (n + 1) v t
  end.

Definition argwhere (v : Z) (labels : list Z) : list Z := argwhere_from 0 v labels.

(** [a[idx]] for an index list: every index must exist. *)
Fixpoint take {A : Type} (l : list A) (idx : list Z) : outcome (list A) :=
  match idx with
  | [] => Ok []
  | i :: t =>
      (x <- getrow l i ;; rest <- take l t ;; Ok (x :: rest))%py
  end.

(** [len(np.unique(labels))] *)
Definition num_unique (labels : list Z) : Z :=
  Z.of_nat (length (nodup Z.eq_dec labels)).

End Np.

Import Np.

(** Loops with a body that may raise. *)
Fixpoint foldM {S X : Type} (f : S -> X -> outcome S) (l : list X) (s : S)
  : outcome S :=
  match l with
  | [] => Ok s
  | x :: t => Py.bind (f s x) (foldM f t)
  end.

Fixpoint mapM {X Y : Type} (f : X -> outcome Y) (l : list X) : outcome (list Y) :=
  match l with
  | [] => Ok []
  | x :: t => (y <- f x ;; rest <- mapM f t ;; Ok (y :: rest))%py
  end.

(** [enumerate(l)], counting from [n]. *)
Fixpoint enumerate_from {X : Type} (n : Z) (l : list X) : list (Z * X) :=
  match l with
  | [] => []
  | x :: t => (n, x) :: enumerate_from (n + 1) t
  end.

Definition enumerate {X : Type} (l : list X) : list (Z * X) := enumerate_from 0 l.

(* ===================================================================== *)
(** ** processing/cluster.py : reorder_clusters *)
(* ===================================================================== *)

Module Reorder.

Section ReorderClusters.

Variable A : Type.           (* the entries of the mean response *)
Variable zero : A.

(** [linkage(pdist(mean_response), 'weighted')]: the scipy call, reduced to
    the two columns of the linkage matrix that the code reads (the ids of
    the two clusters merged by each row).  It raises on input that scipy
    rejects. *)
Variable linkage : matrix A -> outcome (list (Z * Z)).

(** The double loop over rows and the first two columns. *)
Definition new_cluster_order (num_clusters : Z) (linkage_pairing : list (Z * Z))
  : list Z :=
  flat_map
    (fun row => filter (fun c => c <? num_clusters) [fst row; snd row])
    linkage_pairing.

(** [new_labels[np.where(labels == new_clust_ind)[0]] = old_clust_ind] *)
Definition relabel (d : dtype) (labels : list Z) (new_clust_ind old_clust_ind : Z)
    (new_labels : list Z) : list Z :=
  map (fun p => if fst p =? new_clust_ind then cast d old_clust_ind else snd p)
      (combine labels new_labels).

(** One iteration of the loop over [enumerate(new_cluster_order)]. *)
Definition reorder_step (labels : int_array) (mean_response : matrix A)
    (st : list Z * list (list A)) (p : Z * Z) : outcome (list Z * list (list A)) :=
  let '(old_clust_ind, new_clust_ind) := p in
  let '(new_labels, new_rows) := st in
  (let new_labels' :=
     relabel (idtype labels) (ivals labels) new_clust_ind old_clust_ind new_labels in
   row <- getrow (mrows mean_response) new_clust_ind ;;
   new_rows' <- setrow new_rows old_clust_ind row ;;
   Ok (new_labels', new_rows'))%py.

Definition reorder_clusters (labels : int_array) (mean_response : matrix A)
  : outcome (int_array * matrix A) :=
  (let num_clusters := nrows mean_response in
   linkage_pairing <- linkage mean_response ;;
   let order := new_cluster_order num_clusters linkage_pairing in
   let new_labels := repeat 0 (length (ivals labels)) in
   let new_mean_response := zeros zero (nrows mean_response) (ncols mean_response) in
   st <- foldM (reorder_step labels mean_response) (enumerate order)
               (new_labels, new_mean_response) ;;
   Ok (mk_int_array (idtype labels) (fst st),
       mk_matrix (mdtype mean_response) (ncols mean_response) (snd st)))%py.

End ReorderClusters.

(** The shape of a scipy linkage matrix over [n] observations: [n - 1]
    rows, and every cluster id below [2n - 2] (the observations [0 .. n-1]
    and the clusters formed by all rows but the last) is merged exactly
    once. *)
Definition is_linkage (n : Z) (linkage_pairing : list (Z * Z)) : Prop :=
  Z.of_nat (length linkage_pairing) = n - 1 /\
  Permutation (flat_map (fun row => [fst row; snd row]) linkage_pairing)
              (range 0 (2 * n - 2)).

(** [labels] takes exactly the values [0 .. k-1]. *)
Definition labels_cover (k : Z) (labels : list Z) : Prop :=
  forall x, In x labels <-> 0 <= x < k.

(** The reordering is a relabeling through [order], the list that sends a
    new cluster index to the old one. *)
Definition relabeling {A : Type} (labels : int_array) (mean_response : matrix A)
    (new_labels : int_array) (new_mean_response : matrix A) : Prop :=
  exists order : list Z,
    Permutation order (range 0 (nrows mean_response)) /\
    (* labels: same dtype, same length, same set of values, remapped *)
    idtype new_labels = idtype labels /\
    length (ivals new_labels) = length (ivals labels) /\
    (forall x, In x (ivals new_labels) <-> In x (ivals labels)) /\
    (forall i old, nth_error (ivals labels) i = Some old ->
       exists new, nth_error (ivals new_labels) i = Some (Z.of_nat new) /\
                   nth_error order new = Some old) /\
    (* mean response: same dtype and shape, rows permuted the same way *)
    mdtype new_mean_response = mdtype mean_response /\
    ncols new_mean_response = ncols mean_response /\
    nrows new_mean_response = nrows mean_response /\
    Permutation (mrows new_mean_response) (mrows mean_response) /\
    (forall new old, nth_error order new = Some old ->
       nth_error (mrows new_mean_response) new
       = nth_error (mrows mean_response) (Z.to_nat old)).

(** The value that the loop leaves in one slot of [new_labels], given the
    old label [lab] of that slot and its current content [c]. *)
Definition relabel1 (d : dtype) (pairs : list (Z * Z)) (lab c : Z) : Z :=
  fold_left (fun c p => if lab =? snd p then cast d (fst p) else c) pairs c.

(** A stand-in for the scipy call, used to run the model: fewer than two
    observations are rejected, as scipy does for an empty condensed distance
    matrix; [n >= 2] observations are merged in a chain. *)
Definition chain_linkage (m : matrix Z) : outcome (list (Z * Z)) :=
  let n := nrows m in
  if n <? 2 then
    Raise (ValueError "The number of observations cannot be determined on an empty distance matrix.")
  else
    Ok ((0, 1) :: map (fun i => (n + i, i + 2)) (range 0 (n - 2))).

End Reorder.

(* ===================================================================== *)
(** ** processing/cluster.py : the Cluster class *)
(* ===================================================================== *)

Module Cluster.

Import ComponentSlice.

(** Keyword arguments, in insertion order. *)
Definition kwargs_t : Type := list (string * Z).

Definition dict_get (key : string) (d : kwargs_t) : option Z :=
  match find (fun kv => String.eqb (fst kv) key) d with
  | Some kv => Some (snd kv)
  | None => None
  end.

Definition dict_remove (key : string) (d : kwargs_t) : kwargs_t :=
  filter (fun kv => negb (String.eqb (fst kv) key)) d.

(** [allowed_methods] of [Cluster.__init__]. *)
Definition allowed_methods : list string :=
  ["AgglomerativeClustering"; "Birch"; "KMeans"; "MiniBatchKMeans";
   "SpectralClustering"]%string.

Definition not_main_msg : string :=
  "Supplied dataset is not a pycroscopy main dataset".

Definition cannot_work_msg (method_name : string) : string :=
  ("Cannot work with " ++ method_name ++ " just yet")%string.

(** A reference to a persisted dataset: one that already lives next to the
    source main dataset, or one written into the new cluster group. *)
Inductive h5ref : Type :=
| SourceRef (name : string)
| GroupRef (name : string).

Definition ref_name (r : h5ref) : string :=
  match r with
  | SourceRef n => n
  | GroupRef n => n
  end.

(** Modelled from the spec: hdf_utils.getH5DsetRefs is not among the
    sources; the committed tree is a mapping from names to persisted
    references, and this is the lookup of the given names in it. *)
Definition getH5DsetRefs (ds_names : list string) (h5_refs : list h5ref) : list h5ref :=
  filter (fun r => existsb (String.eqb (ref_name r)) ds_names) h5_refs.

(** [l[0]] *)
Definition first {X : Type} (l : list X) : outcome X :=
  match l with
  | x :: _ => Ok x
  | [] => Raise (IndexError "list index out of range")
  end.

Section ClusterClass.

Variable src : Type.         (* entries of the main dataset, in its dtype *)
Variable real : Type.        (* entries after the transform to real scalars *)
Variable zero : src.
Variable estimator : Type.   (* an instance of a sklearn.cluster class *)

(** [hdf_utils.checkIfMain] (the main-dataset validator). *)
Variable checkIfMain : matrix src -> bool.

(** [cls.__dict__[method_name].__call__( *args, **kwargs)] *)
Variable instantiate : string -> list Z -> kwargs_t -> outcome estimator.

(** [multiprocessing.cpu_count()] *)
Variable cpu_count : Z.

(** [io_utils.check_dtype(h5_main)]: the transform to real scalars that it
    returns is [data_transform_func]; the other five entries describe the
    dataset and are kept as they come. *)
Variable check_dtype : matrix src -> outcome (bool * bool * Z * Z * Z).
Variable data_transform_func : list (list src) -> list (list real).

(** [np.mean(x, axis=0, keepdims=True)] on real data. *)
Variable np_mean : list (list real) -> list real.

(** [io_utils.transformToTargetType(avg_data, h5_main.dtype)] *)
Variable transformToTargetType : list real -> list src.

(** [estimator.fit(data).labels_] *)
Variable fit : estimator -> list (list real) -> outcome int_array.

(** The attributes of a [Cluster] object. *)
Record cluster : Type := mk_cluster {
  h5_main : matrix src;
  the_estimator : estimator;
  method_name : string;
  num_comps : Z;
  data_slice1 : comp_slice;              (* self.data_slice[1] *)
  dtype_info : bool * bool * Z * Z * Z
}.

(** [Cluster.__init__] *)
Definition __init__ (h5 : matrix src) (method : string) (comps : components)
    (args : list Z) (kwargs : kwargs_t) : outcome cluster :=
  if negb (checkIfMain h5) then Raise (TypeError not_main_msg)
  else if negb (existsb (String.eqb method) allowed_methods) then
    Raise (TypeError (cannot_work_msg method))
  else
    (let n_jobs :=
       match dict_get "n_jobs" kwargs with
       | Some v => v
       | None => Z.max 1 (cpu_count - 2)
       end in
     let kwargs := dict_remove "n_jobs" kwargs ++ [("n_jobs"%string, n_jobs)] in
     est <- instantiate method args kwargs ;;
     sel <- _get_component_slice (ncols h5) comps ;;
     retval <- check_dtype h5 ;;
     Ok (mk_cluster h5 est method (snd sel) (fst sel) retval))%py.

(** [self.h5_main[:, self.data_slice[1]]] *)
Definition sliced_main (self : cluster) : outcome (list (list src)) :=
  (cols <- select_columns (ncols (h5_main self)) (data_slice1 self) ;;
   mapM (fun row => take row cols) (mrows (h5_main self)))%py.

(** [Cluster._fit] *)
Definition _fit (self : cluster) : outcome int_array :=
  (data <- sliced_main self ;;
   fit (the_estimator self) (data_transform_func data))%py.

(** The body of the loop of [_get_mean_response]. *)
Definition mean_response_step (self : cluster) (labels : list Z)
    (mean_resp : list (list src)) (clust_ind : Z) : outcome (list (list src)) :=
  (let targ_pos := argwhere clust_ind labels in
   sliced <- sliced_main self ;;
   data_chunk <- take sliced targ_pos ;;
   let avg_data := np_mean (data_transform_func data_chunk) in
   assign_row mean_resp (num_comps self) clust_ind (transformToTargetType avg_data))%py.

(** [Cluster._get_mean_response] *)
Definition _get_mean_response (self : cluster) (labels : list Z)
  : outcome (matrix src) :=
  let num_clusts := num_unique labels in
  if num_comps self <? 0 then
    Raise (ValueError "negative dimensions are not allowed")
  else
    (let mean_resp := zeros zero num_clusts (num_comps self) in
     rows <- foldM (mean_response_step self labels) (range 0 num_clusts) mean_resp ;;
     Ok (mk_matrix (mdtype (h5_main self)) (num_comps self) rows))%py.

(** What [_write_to_hdf5] leaves in the file: the datasets of the new
    group, the [components_used] attribute ([None] stands for ['all']), the
    data of Mean_Response_Values when that dataset is written, and the two
    references linked to Mean_Response as its spectroscopic ancillary
    datasets. *)
Record cluster_group : Type := mk_cluster_group {
  labels_written : int_array;
  mean_response_written : matrix src;
  children : list string;
  components_used : option (list Z);
  centroid_values : option (list (list Q));
  centroid_spec_links : h5ref * h5ref
}.

Definition base_children : list string :=
  ["Labels"; "Mean_Response"; "Cluster_Indices"; "Cluster_Values";
   "Label_Spectroscopic_Indices"; "Label_Spectroscopic_Values"]%string.

(** [range(s.start, s.stop)[s]] *)
Definition slice_components (s : slice) : outcome (list Z) :=
  match start s, stop s with
  | Some a, Some b => Ok (getslice (range a b) s)
  | _, _ => Raise (TypeError "an integer is required")
  end.

(** [self.h5_main.file[self.h5_main.attrs['Spectroscopic_Values']]]: the
    rows of the spectroscopic values that belong to a main dataset. *)
Variable spectroscopic_values : matrix src -> list (list Q).

(** [h5_spec_vals[sel]]: the selection is applied to the first axis of the
    dataset, its rows.  A slice is cut like a list; an index list must be
    in range and in increasing order, as in [select_columns]. *)
Definition read_rows {X : Type} (rows : list X) (sel : comp_slice)
  : outcome (list X) :=
  match sel with
  | SliceSel s => Ok (getslice rows s)
  | ArraySel a =>
      (pos <- select_columns (Z.of_nat (length rows)) (ArraySel a) ;;
       take rows pos)%py
  end.

(** [Cluster._write_to_hdf5] *)
Definition _write_to_hdf5 (self : cluster) (labels : int_array)
    (mean_response : matrix src) : outcome cluster_group :=
  (let h5_spec_vals := spectroscopic_values (h5_main self) in
   let reduced := negb (num_comps self =? ncols (h5_main self)) in
   pair <- (if reduced then
              match data_slice1 self with
              | ArraySel a =>
                  (centroid_vals_mat <- read_rows h5_spec_vals (ArraySel a) ;;
                   Ok (Some a, Some centroid_vals_mat))
              | SliceSel s =>
                  (centroid_vals_mat <- read_rows h5_spec_vals (SliceSel s) ;;
                   c <- slice_components s ;;
                   Ok (Some c, Some centroid_vals_mat))
              end
            else Ok (None, None)) ;;
   let children :=
     base_children ++
     (if reduced then ["Mean_Response_Indices"; "Mean_Response_Values"]%string
      else []) in
   (* hdf.writeData(cluster_grp) *)
   let h5_clust_refs := map GroupRef children in
   links <- match data_slice1 self with
            | ArraySel _ =>
                (i <- first (getH5DsetRefs ["Mean_Response_Indices"%string] h5_clust_refs) ;;
                 v <- first (getH5DsetRefs ["Mean_Response_Values"%string] h5_clust_refs) ;;
                 Ok (i, v))
            | SliceSel _ =>
                Ok (SourceRef "Spectroscopic_Indices", SourceRef "Spectroscopic_Values")
            end ;;
   Ok (mk_cluster_group labels mean_response children (fst pair) (snd pair)
                        links))%py.

(** [linkage(pdist(mean_response), 'weighted')], see [Reorder]. *)
Variable linkage : matrix src -> outcome (list (Z * Z)).

(** [Cluster.do_cluster] *)
Definition do_cluster (self : cluster) (rearrange_clusters : bool)
  : outcome cluster_group :=
  (labels <- _fit self ;;
   new_mean_response <- _get_mean_response self (ivals labels) ;;
   res <- (if rearrange_clusters then
             Reorder.reorder_clusters src zero linkage labels new_mean_response
           else Ok (labels, new_mean_response)) ;;
   _write_to_hdf5 self (fst res) (snd res))%py.

End ClusterClass.

Arguments h5_main {src estimator} c.
Arguments the_estimator {src estimator} c.
Arguments method_name {src estimator} c.
Arguments num_comps {src estimator} c.
Arguments data_slice1 {src estimator} c.
Arguments dtype_info {src estimator} c.
Arguments mk_cluster {src estimator}.
Arguments children {src} c.
Arguments components_used {src} c.
Arguments centroid_values {src} c.
Arguments centroid_spec_links {src} c.
Arguments labels_written {src} c.
Arguments mean_response_written {src} c.

(** The reduced pair is what Mean_Response is linked to. *)
Definition linked_to_reduced_pair (links : h5ref * h5ref) : Prop :=
  links = (GroupRef "Mean_Response_Indices", GroupRef "Mean_Response_Values").

(** The source's own spectroscopic pair is what Mean_Response is linked to. *)
Definition linked_to_source_pair (links : h5ref * h5ref) : Prop :=
  links = (SourceRef "Spectroscopic_Indices", SourceRef "Spectroscopic_Values").

(** The entries of [row] at the positions [cols]. *)
Definition pick {X : Type} (d : X) (cols : list Z) (row : list X) : list X :=
  map (fun c => nth (Z.to_nat c) row d) cols.

(** The rows of the main dataset that carry label [l], restricted to the
    selected columns. *)
Definition class_chunk {X : Type} (d : X) (cols : list Z) (labels : list Z)
    (rows : list (list X)) (l : Z) : list (list X) :=
  map (pick d cols)
      (map snd (filter (fun p => fst p =? l) (combine labels rows))).

(** How sklearn.cluster answers the constructor call of [__init__]: three
    of the five classes have no [n_jobs] parameter.  Used to run the
    model. *)
Definition sklearn_instantiate (method : string) (args : list Z) (kwargs : kwargs_t)
  : outcome string :=
  if existsb (String.eqb method) ["KMeans"; "SpectralClustering"]%string then Ok method
  else
    match dict_get "n_jobs" kwargs with
    | Some _ =>
        Raise (TypeError "__init__() got an unexpected keyword argument 'n_jobs'")
    | None => Ok method
    end.

(** Stand-ins for the dtype transforms and the mean, used to run the model
    on integer data: the transform embeds the integers in the rationals, the
    mean is exact, and the inverse transform rounds down. *)
Definition int_to_real (chunk : list (list Z)) : list (list Q) :=
  map (map inject_Z) chunk.

Definition column_mean (chunk : list (list Q)) : list Q :=
  match chunk with
  | [] => []
  | r :: _ =>
      map (fun j =>
             Qdiv (fold_right Qplus (inject_Z 0) (map (fun row => nth j row (inject_Z 0)) chunk))
                  (inject_Z (Z.of_nat (length chunk))))
          (seq 0 (length r))
  end.

Definition real_to_int (avg : list Q) : list Z := map Qfloor avg.

(** A 3 x 4 main dataset and the objects built on it by the examples. *)
Definition example_main : matrix Z :=
  mk_matrix (IntT 32) 4 [[1; 2; 3; 4]; [10; 20; 30; 40]; [3; 4; 5; 6]].

Definition example_check_dtype (m : matrix Z) : outcome (bool * bool * Z * Z * Z) :=
  Ok (false, false, ncols m, nrows m, 1).

(** The spectroscopic values of the example: one dimension, so one row of
    4 values. *)
Definition example_spec_vals (m : matrix Z) : list (list Q) :=
  [map inject_Z [0; 1; 2; 3]].

Definition example_init (method : string) (comps : ComponentSlice.components)
  : outcome (cluster Z string) :=
  __init__ Z string (fun _ => true) sklearn_instantiate 4 example_check_dtype
           example_main method comps [] [].

End Cluster.

(* ===================================================================== *)
(** ** io/translators : strings, files and the hierarchical store *)
(* ===================================================================== *)

Module Str.

(** [s.find(sub)] *)
Definition find (s sub : string) : Z :=
  match String.index 0 sub s with
  | Some i => Z.of_nat i
  | None => -1
  end.

Fixpoint rfind_from (i : nat) (s sub : string) : Z :=
  if String.eqb (String.substring i (String.length sub) s) sub then Z.of_nat i
  else
    match i with
    | O => -1
    | S j => rfind_from j s sub
    end.

(** [s.rfind(sub)] *)
Definition rfind (s sub : string) : Z :=
  if (String.length sub <=? String.length s)%nat then
    rfind_from (String.length s - String.length sub) s sub
  else -1.

(** [s.endswith(suffix)] *)
Definition endswith (s suffix : string) : bool :=
  (String.length suffix <=? String.length s)%nat &&
  String.eqb
    (String.substring (String.length s - String.length suffix)
                      (String.length suffix) s)
    suffix.

(** [s.startswith(p)] *)
Definition startswith (s p : string) : bool := String.prefix p s.

Definition lower_ascii (c : ascii) : ascii :=
  let n := nat_of_ascii c in
  if ((65 <=? n) && (n <=? 90))%nat then ascii_of_nat (n + 32) else c.

(** [s.lower()] *)
Fixpoint lower (s : string) : string :=
  match s with
  | EmptyString => EmptyString
  | String c t => String (lower_ascii c) (lower t)
  end.

(** [s[:n]] for [0 <= n] *)
Definition upto (s : string) (n : Z) : string :=
  String.substring 0 (Z.to_nat n) s.

(** [str(n)] *)
Definition of_Z (n : Z) : string := NilZero.string_of_int (Z.to_int n).

(** ['{:03d}'.format(n)] for [0 <= n] *)
Definition format_03d (n : Z) : string :=
  let s := of_Z n in
  match String.length s with
  | 1%nat => ("00" ++ s)%string
  | 2%nat => ("0" ++ s)%string
  | _ => s
  end.

(** [int(c)] on one character. *)
Definition int_of_char (c : ascii) : outcome Z :=
  let n := nat_of_ascii c in
  if ((48 <=? n) && (n <=? 57))%nat then Ok (Z.of_nat (n - 48))
  else Raise (ValueError "invalid literal for int() with base 10").

(** [os.path.join(folder, name)] *)
Definition join (folder name : string) : string := (folder ++ "/" ++ name)%string.

End Str.

(** The values stored in parameter dictionaries and attributes. *)
Inductive pyval : Type :=
| VNum (q : Q)
| VInt (n : Z)
| VStr (s : string)
| VStrs (l : list string)
| VRef (path : string).

(** A [dict] with keys of type [K], in insertion order. *)
Module Dict.

Section WithKey.

Variable K V : Type.
Variable eqb : K -> K -> bool.

Definition get (k : K) (d : list (K * V)) : option V :=
  match find (fun kv => eqb (fst kv) k) d with
  | Some kv => Some (snd kv)
  | None => None
  end.

(** [d[k] = v] *)
Fixpoint set (k : K) (v : V) (d : list (K * V)) : list (K * V) :=
  match d with
  | [] => [(k, v)]
  | (k', v') :: t => if eqb k' k then (k, v) :: t else (k', v') :: set k v t
  end.

Definition remove (k : K) (d : list (K * V)) : list (K * V) :=
  filter (fun kv => negb (eqb (fst kv) k)) d.

Definition keys (d : list (K * V)) : list K := map fst d.

End WithKey.

Arguments get {K V} eqb k d.
Arguments set {K V} eqb k v d.
Arguments remove {K V} eqb k d.
Arguments keys {K V} d.

End Dict.

Definition attrs_t : Type := list (string * pyval).

(** [d[key]] on a dictionary with string keys. *)
Definition lookup {V : Type} (key : string) (d : list (string * V)) : outcome V :=
  match Dict.get String.eqb key d with
  | Some v => Ok v
  | None => Raise (KeyError key)
  end.

(** A parameter that must be a number. *)
Definition as_num (v : pyval) : outcome Q :=
  match v with
  | VNum q => Ok q
  | VInt n => Ok (inject_Z n)
  | _ => Raise (TypeError "unsupported operand type(s)")
  end.

(* --------------------------------------------------------------------- *)
(** *** The data-model builder and the storage adapter *)
(* --------------------------------------------------------------------- *)

Module MicroData.

(** Modelled from the spec: microdata.MicroDataset is not among the
    sources.  A lazy dataset descriptor: a name, the data given at
    construction (empty when only the space is reserved through
    [maxshape]), a dtype and attributes. *)
Record MicroDataset : Type := mk_dataset {
  ds_name : string;
  ds_data : list (list Q);
  ds_maxshape : option (Z * Z);
  ds_dtype : dtype;
  ds_attrs : attrs_t
}.

Definition with_data (d : MicroDataset) (data : list (list Q)) : MicroDataset :=
  mk_dataset (ds_name d) data (ds_maxshape d) (ds_dtype d) (ds_attrs d).

Definition with_attr (d : MicroDataset) (key : string) (v : pyval) : MicroDataset :=
  mk_dataset (ds_name d) (ds_data d) (ds_maxshape d) (ds_dtype d)
             (Dict.set String.eqb key v (ds_attrs d)).

(** A child of a group: a dataset, or a group that has no children of its
    own (the only nesting the translators build before the first commit). *)
Inductive child : Type :=
| ChildDataset (d : MicroDataset)
| ChildGroup (name : string) (attrs : attrs_t).

(** Modelled from the spec: microdata.MicroDataGroup is not among the
    sources.  A container descriptor: name, parent path, attributes and
    ordered children. *)
Record MicroDataGroup : Type := mk_group {
  grp_name : string;
  grp_parent : string;
  grp_attrs : attrs_t;
  grp_children : list child
}.

(** A persisted dataset. *)
Record h5dataset : Type := mk_h5dataset {
  h5_data : list (list Q);
  h5_dtype : dtype;
  h5_attrs : attrs_t
}.

(** A persisted file: groups and datasets by absolute path. *)
Record h5file : Type := mk_h5file {
  h5_groups : list (string * attrs_t);
  h5_datasets : list (string * h5dataset)
}.

Definition empty_h5 : h5file := mk_h5file [] [].

Definition h5_join (gpath name : string) : string :=
  if Str.endswith gpath "/" then (gpath ++ name)%string
  else (gpath ++ "/" ++ name)%string.

(** What a descriptor holds once persisted: its data, or the reserved space
    at the storage default value 0. *)
Definition materialize (d : MicroDataset) : h5dataset :=
  let data :=
    match ds_data d, ds_maxshape d with
    | [], Some (r, c) => zeros (inject_Z 0) r c
    | data, _ => data
    end in
  mk_h5dataset data (ds_dtype d) (ds_attrs d).

Definition write_child (gpath : string) (st : h5file * list (string * string))
    (c : child) : h5file * list (string * string) :=
  let '(f, refs) := st in
  match c with
  | ChildDataset d =>
      let p := h5_join gpath (ds_name d) in
      (mk_h5file (h5_groups f)
                 (Dict.set String.eqb p (materialize d) (h5_datasets f)),
       refs ++ [(ds_name d, p)])
  | ChildGroup name attrs =>
      let p := h5_join gpath name in
      (mk_h5file (Dict.set String.eqb p attrs (h5_groups f)) (h5_datasets f),
       refs ++ [(name, p)])
  end.

(** Modelled from the spec: io_hdf5.ioHDF5.writeData is not among the
    sources.  The commit of a descriptor tree: the group and its children
    are persisted under the parent path, and the mapping from descriptor
    name to persisted reference (here: the absolute path) is returned. *)
Definition writeData (f : h5file) (g : MicroDataGroup)
  : h5file * list (string * string) :=
  let gpath := (grp_parent g ++ grp_name g)%string in
  let f1 := mk_h5file (Dict.set String.eqb gpath (grp_attrs g) (h5_groups f))
                      (h5_datasets f) in
  fold_left (write_child gpath) (grp_children g) (f1, [(grp_name g, gpath)]).

(** Modelled from the spec: hdf_utils.getH5DsetRefs is not among the
    sources.  The references, among those returned by a commit, of the
    datasets with the given names. *)
Definition getH5DsetRefs (ds_names : list string) (h5_refs : list (string * string))
  : list string :=
  map snd (filter (fun r => existsb (String.eqb (fst r)) ds_names) h5_refs).

Definition basename_of_ref (h5_refs : list (string * string)) (p : string) : string :=
  match find (fun r => String.eqb (snd r) p) h5_refs with
  | Some r => fst r
  | None => p
  end.

(** Modelled from the spec: hdf_utils.linkRefs is not among the sources.
    The ancillary linker: each reference is recorded on the target dataset
    as an attribute named after the referenced dataset. *)
Definition linkRefs (f : h5file) (target : string) (names_refs : list (string * string))
  : h5file :=
  match Dict.get String.eqb target (h5_datasets f) with
  | None => f
  | Some d =>
      let attrs :=
        fold_left (fun a nr => Dict.set String.eqb (fst nr) (VRef (snd nr)) a)
                  names_refs (h5_attrs d) in
      mk_h5file (h5_groups f)
                (Dict.set String.eqb target
                          (mk_h5dataset (h5_data d) (h5_dtype d) attrs)
                          (h5_datasets f))
  end.

(** [h5_dset[row_indx] = vec] through h5py: the row is replaced when the
    lengths agree, a single value is broadcast, anything else is refused. *)
Definition h5_set_row (f : h5file) (path : string) (row_indx : Z) (vec : list Q)
  : outcome h5file :=
  match Dict.get String.eqb path (h5_datasets f) with
  | None => Raise (KeyError path)
  | Some d =>
      let width :=
        match h5_data d with
        | r :: _ => Z.of_nat (length r)
        | [] => 0
        end in
      (vec' <- (if Z.of_nat (length vec) =? width then Ok vec
                else match vec with
                     | [x] => Ok (repeat x (Z.to_nat width))
                     | _ => Raise (TypeError "Can't broadcast")
                     end) ;;
       rows <- setrow (h5_data d) row_indx vec' ;;
       Ok (mk_h5file (h5_groups f)
                     (Dict.set String.eqb path
                               (mk_h5dataset rows (h5_dtype d) (h5_attrs d))
                               (h5_datasets f))))%py
  end.

(** The persisted data of the dataset at [path]. *)
Definition persisted (f : h5file) (path : string) : option (list (list Q)) :=
  option_map h5_data (Dict.get String.eqb path (h5_datasets f)).

(** The mixed-radix digit of the linear index [i] for a dimension of size
    [dim] whose faster dimensions have [stride] points together. *)
Definition digit (stride dim i : Z) : Z := (i / stride) mod dim.

Fixpoint strides (stride : Z) (dims : list Z) : list Z :=
  match dims with
  | [] => []
  | d :: t => stride :: strides (stride * d) t
  end.

Definition product (dims : list Z) : Z := fold_right Z.mul 1 dims.

Fixpoint transpose_cols {X : Type} (n : nat) (cols : list (list X)) (d : X)
  : list (list X) :=
  match n with
  | O => []
  | S m => transpose_cols m cols d ++ [map (fun col => nth m col d) cols]
  end.

(** Modelled from the spec: translators.utils.build_ind_val_dsets is not
    among the sources.  The index dataset holds the mixed-radix digits of
    every linear index, the value dataset [offset + step * digit]; for a
    spectroscopic pair the dimensions run along the first axis, for a
    position pair along the second.  Labels, units and steps must be as
    many as the dimensions. *)
Definition build_ind_val_dsets (dimensions : list Z) (is_spectral : bool)
    (steps : option (list Q)) (initial_values : option (list Q))
    (labels units : list string) : outcome (MicroDataset * MicroDataset) :=
  let nd := length dimensions in
  let steps' := match steps with Some s => s | None => repeat (inject_Z 1) nd end in
  let inits := match initial_values with
               | Some s => s
               | None => repeat (inject_Z 0) nd
               end in
  if negb ((length labels =? nd)%nat && (length units =? nd)%nat &&
           (length steps' =? nd)%nat && (length inits =? nd)%nat) then
    Raise (ValueError "ConfigurationError: lengths disagree with the dimensions")
  else
    let n := product dimensions in
    let per_dim :=
      map (fun sd => map (fun i => digit (fst sd) (snd sd) i) (range 0 n))
          (combine (strides 1 dimensions) dimensions) in
    let ind_rows := map (map inject_Z) per_dim in
    let val_rows :=
      map (fun r => map (fun x => Qplus (snd (fst r)) (Qmult (fst (fst r)) x)) (snd r))
          (combine (combine steps' inits) ind_rows) in
    let orient (m : list (list Q)) :=
      if is_spectral then m else transpose_cols (Z.to_nat n) m (inject_Z 0) in
    let prefix := if is_spectral then "Spectroscopic"%string else "Position"%string in
    let attrs := [("labels"%string, VStrs labels); ("units"%string, VStrs units)] in
    Ok (mk_dataset (prefix ++ "_Indices") (orient ind_rows) None (UIntT 32) attrs,
        mk_dataset (prefix ++ "_Values") (orient val_rows) None (FloatT 32) attrs).

(** Modelled from the spec: translators.utils.generate_dummy_main_parms is
    not among the sources; the root attributes that the translators
    overwrite are the only ones kept. *)
Definition generate_dummy_main_parms : attrs_t :=
  [("data_type"%string, VStr ""); ("translator"%string, VStr "")].

(** [np.tile(v, reps)] *)
Definition tile {X : Type} (v : list X) (reps : Z) : outcome (list X) :=
  if reps <? 0 then Raise (ValueError "negative dimensions are not allowed")
  else Ok (concat (repeat v (Z.to_nat reps))).

Definition aux_ds_names : list string :=
  ["Position_Indices"; "Position_Values";
   "Spectroscopic_Indices"; "Spectroscopic_Values"]%string.

End MicroData.

(* --------------------------------------------------------------------- *)
(** *** Commands that read and change the world *)
(* --------------------------------------------------------------------- *)

Module IO.

(** A command: it yields a value or raises, and leaves a world behind in
    either case. *)
Definition M (W A : Type) : Type := W -> outcome A * W.

Definition ret {W A : Type} (a : A) : M W A := fun w => (Ok a, w).

Definition raise {W A : Type} (e : exn) : M W A := fun w => (Raise e, w).

Definition bind {W A B : Type} (m : M W A) (k : A -> M W B) : M W B :=
  fun w =>
    match m w with
    | (Ok a, w') => k a w'
    | (Raise e, w') => (Raise e, w')
    end.

(** A pure computation that may raise. *)
Definition lift {W A : Type} (o : outcome A) : M W A := fun w => (o, w).

Definition get {W : Type} : M W W := fun w => (Ok w, w).

Definition modify {W : Type} (f : W -> W) : M W unit := fun w => (Ok tt, f w).

Fixpoint for_each {W X : Type} (l : list X) (body : X -> M W unit) : M W unit :=
  match l with
  | [] => ret tt
  | x :: t => bind (body x) (fun _ => for_each t body)
  end.

(** A loop that collects what its body returns. *)
Fixpoint map_each {W X Y : Type} (l : list X) (body : X -> M W Y) : M W (list Y) :=
  match l with
  | [] => ret []
  | x :: t =>
      bind (body x) (fun y => bind (map_each t body) (fun ys => ret (y :: ys)))
  end.

(** [triple P m Q]: from a world in [P], if [m] returns [a] it leaves a
    world in [Q a].  Nothing is said when [m] raises. *)
Definition triple {W A : Type} (P : W -> Prop) (m : M W A) (Q : A -> W -> Prop)
  : Prop :=
  forall w, P w ->
    match m w with
    | (Ok a, w') => Q a w'
    | (Raise _, _) => True
    end.

End IO.

Declare Scope io_scope.
Delimit Scope io_scope with io.
Notation "x <- m ;; k" := (IO.bind m (fun x => k))
  (at level 100, m at next level, right associativity) : io_scope.
Notation "m ;;; k" := (IO.bind m (fun _ => k))
  (at level 100, right associativity) : io_scope.

(* --------------------------------------------------------------------- *)
(** *** The folder that a translator works in *)
(* --------------------------------------------------------------------- *)

Module Fs.

Import Str MicroData.

(** The fields of the parameter file of a G-mode IV experiment; an absent
    field is [None]. *)
Record giv_parm_file : Type := mk_giv_parm_file {
  samp_rate : option Q;
  amp_gain : option Q;
  frequency : option Q;
  amplitude : option Q;
  offset : option Q;
  excit_wfm : option (list Q);
  pulse_duration : option Q;
  pulse_height : option Q;
  line_time : option Q;
  num_lines : option Q;
  scan_height : option Q;
  scan_width : option Q;
  scan_speed : option Q
}.

(** The data of an Igor wave: a vector, a matrix [sample][channel] (force
    curve), or a stack [row][column][channel] (images). *)
Inductive wdata : Type :=
| W1 (v : list Q)
| W2 (m : list (list Q))
| W3 (t : list (list (list Q))).

(** The wave of an Igor binary wave file: the labels of its dimensions, the
    parameters that [_read_parms] extracts from its note and header, and
    its data. *)
Record ibw_wave : Type := mk_ibw_wave {
  wave_labels : list (list string);
  wave_parms : attrs_t;
  wData : wdata
}.

(** What a file of the data folder holds, as far as a translator reads it:
    the variables of the [_all.mat] file, the dictionary that [parmsToDict]
    extracts from the parameter text file, the 4-byte floats of a [bigtime]
    data file, the parameter file and the [data] array (with the second
    entry of its shape) of a line file of a G-mode IV experiment, an Igor
    wave, a translated file, or anything else. *)
Inductive content : Type :=
| MatParms (BE_wave : list Q) (total_cols total_rows : Z)
| TxtParms (parm_dict : attrs_t)
| BigTime (samples : list Q)
| GivParms (p : giv_parm_file)
| LineMat (shape1 : Z) (data : list (list Q))
| Ibw (wave : ibw_wave)
| H5 (f : h5file)
| Opaque.

Record file : Type := mk_file { fsize : Z; fdata : content }.

(** The folder that holds the file handed to [translate], and the warnings
    issued so far.  [folder_name] is the last component of [folder_path]. *)
Record world : Type := mk_world {
  folder_path : string;
  folder_name : string;
  entries : list (string * file);
  warnings : list string
}.

Definition set_entries (w : world) (e : list (string * file)) : world :=
  mk_world (folder_path w) (folder_name w) e (warnings w).

(** [os.listdir(folder_path)] *)
Definition listdir (w : world) : list string := Dict.keys (entries w).

Definition name_of_path (w : world) (path : string) : option string :=
  option_map fst
    (List.find (fun e => String.eqb (join (folder_path w) (fst e)) path) (entries w)).

(** [os.path.exists(path)] *)
Definition path_exists (w : world) (path : string) : bool :=
  match name_of_path w path with Some _ => true | None => false end.

(** [os.remove(path)] *)
Definition remove (path : string) : IO.M world unit :=
  fun w =>
    match name_of_path w path with
    | Some name => (Ok tt, set_entries w (Dict.remove String.eqb name (entries w)))
    | None => (Raise (IOError path), w)
    end.

Definition read (path : string) : IO.M world file :=
  fun w =>
    match name_of_path w path with
    | Some name =>
        match Dict.get String.eqb name (entries w) with
        | Some f => (Ok f, w)
        | None => (Raise (IOError path), w)
        end
    | None => (Raise (IOError path), w)
    end.

(** [warnings.warn(msg)] *)
Definition warn (msg : string) : IO.M world unit :=
  IO.modify (fun w => mk_world (folder_path w) (folder_name w) (entries w)
                               (warnings w ++ [msg])).

(** [os.path.getsize(path)] *)
Definition getsize (path : string) : IO.M world Z :=
  (f <- read path ;; IO.ret (fsize f))%io.

(** Changing the translated file that [hdf] has open. *)
Definition with_h5 {X : Type} (h5_name : string)
    (op : h5file -> outcome (h5file * X)) : IO.M world X :=
  fun w =>
    match Dict.get String.eqb h5_name (entries w) with
    | Some (mk_file sz (H5 f)) =>
        match op f with
        | Ok (f', x) =>
            (Ok x, set_entries w (Dict.set String.eqb h5_name (mk_file sz (H5 f'))
                                            (entries w)))
        | Raise e => (Raise e, w)
        end
    | _ => (Raise (IOError h5_name), w)
    end.

(** [ioHDF5(h5_path)]: the file is created. *)
Definition create_h5 (h5_name : string) : IO.M world unit :=
  IO.modify (fun w => set_entries w
               (Dict.set String.eqb h5_name (mk_file 0 (H5 empty_h5)) (entries w))).


(** The commit of one channel group, as every translator does it: write the
    group, look up its main dataset and link the ancillary datasets to it.
    The reference of the main dataset is returned. *)
Definition commit_channel (h5_name : string) (chan_grp : MicroDataGroup)
  : IO.M world string :=
  (h5_refs <- with_h5 h5_name (fun h5 => Ok (writeData h5 chan_grp)) ;;
   h5_main <- IO.lift (Cluster.first (getH5DsetRefs ["Raw_Data"%string] h5_refs)) ;;
   with_h5 h5_name
     (fun h5 =>
        Ok (linkRefs h5 h5_main
              (filter (fun r => existsb (String.eqb (fst r)) aux_ds_names) h5_refs),
            tt)) ;;;
   IO.ret h5_main)%io.

(** [h5_dset[row_indx] = vec] followed by the flush. *)
Definition write_row (h5_name h5_dset : string) (row_indx : Z) (vec : list Q)
  : IO.M world unit :=
  with_h5 h5_name
    (fun h5 => (h5' <- h5_set_row h5 h5_dset row_indx vec ;; Ok (h5', tt))%py).

(** The translated file [h5_name] of a world, when it exists. *)
Definition h5_of (w : world) (h5_name : string) : option h5file :=
  match Dict.get String.eqb h5_name (entries w) with
  | Some (mk_file _ (H5 f)) => Some f
  | _ => None
  end.

(** The persisted data of a dataset of the translated file. *)
Definition data_at (w : world) (h5_name path : string) : option (list (list Q)) :=
  match h5_of w h5_name with
  | Some f => persisted f path
  | None => None
  end.

(** The path of a dataset of channel [i], as the commit builds it. *)
Definition channel_path (i : Z) (ds_name : string) : string :=
  h5_join ("/Measurement_000/" ++ ("Channel_" ++ format_03d i)) ds_name.

(** The paths that end like the path of a Spectroscopic_Values dataset. *)
Definition is_spec_values (path : string) : bool := endswith path "c_Values".

(** Every Spectroscopic_Values dataset of the file holds [wfm]. *)
Definition vals_inv (wfm : list (list Q)) (f : h5file) : Prop :=
  forall p d,
    Dict.get String.eqb p (h5_datasets f) = Some d ->
    is_spec_values p = true -> h5_data d = wfm.

(** The datasets at [paths] exist in the file. *)
Definition all_present (paths : list string) (f : h5file) : Prop :=
  Forall (fun p => Dict.get String.eqb p (h5_datasets f) <> None) paths.

(** Both, for the translated file [h5_name] of a world. *)
Definition out_inv (h5_name : string) (wfm : list (list Q)) (paths : list string)
    (w : world) : Prop :=
  exists f, h5_of w h5_name = Some f /\ vals_inv wfm f /\ all_present paths f.

(** A child that a commit may write under [vals_inv]. *)
Definition child_ok (wfm : list (list Q)) (c : child) : Prop :=
  match c with
  | ChildDataset d =>
      (8 <= String.length (ds_name d))%nat /\
      (is_spec_values (ds_name d) = true -> h5_data (materialize d) = wfm)
  | ChildGroup _ _ => True
  end.

(** The translated file stays in a folder that keeps its path. *)
Definition has_output (folder h5_name : string) (w : world) : Prop :=
  folder_path w = folder /\ In h5_name (Dict.keys (entries w)).

(** Stand-in for the float conversions, used to run the model. *)
Definition exact (q : Q) : Q := q.

(** The folder after the deletion of an earlier output. *)
Definition without_output (w : world) : world :=
  let h5_name := (folder_name w ++ ".h5")%string in
  if path_exists w (join (folder_path w) h5_name) then
    set_entries w (Dict.remove String.eqb h5_name (entries w))
  else w.

End Fs.

(* ===================================================================== *)
(** ** io/translators/gmode_line.py : GLineTranslator *)
(* ===================================================================== *)

Module GLine.

Import Str MicroData Fs.

Definition incomplete_rows_msg : string := "Error - File has incomplete rows".

(** One file name of the loop of [_parse_file_path]. *)
Definition parse_step (folder : string)
    (st : list (string * string) * list (Z * string)) (filenames : string)
  : outcome (list (string * string) * list (Z * string)) :=
  (let '(parm_paths, data_paths) := st in
   let targ_str := "bigtime_0"%string in
   let ind := find filenames targ_str in
   data_paths' <-
     (if (0 <? ind) && endswith filenames ".dat" then
        match String.get (Z.to_nat (ind + Z.of_nat (String.length targ_str))) filenames with
        | Some c =>
            (k <- int_of_char c ;;
             Ok (Dict.set Z.eqb k (join folder filenames) data_paths))
        | None => Raise (IndexError "string index out of range")
        end
      else Ok data_paths) ;;
   let parm_paths1 :=
     if endswith filenames ".txt" && (0 <? find filenames "parm") then
       Dict.set String.eqb "parm_txt"%string (join folder filenames) parm_paths
     else parm_paths in
   let parm_paths2 :=
     if endswith filenames "_all.mat" then
       Dict.set String.eqb "parm_mat"%string (join folder filenames) parm_paths1
     else parm_paths1 in
   Ok (parm_paths2, data_paths'))%py.

(** [GLineTranslator._parse_file_path] *)
Definition _parse_file_path (w : world)
  : outcome (string * list (string * string) * list (Z * string)) :=
  (st <- foldM (parse_step (folder_path w)) (listdir w) ([], []) ;;
   Ok (folder_name w, fst st, snd st))%py.

(** [loadmat(path, variable_names=[...])] *)
Definition loadmat (path : string) : IO.M world (list Q * Z * Z) :=
  (f <- read path ;;
   match fdata f with
   | MatParms be_wave total_cols total_rows =>
       IO.ret (be_wave, total_cols, total_rows)
   | _ => IO.raise (ValueError "Unknown mat file type")
   end)%io.

(** Modelled from the spec: df_utils.be_utils.parmsToDict is not among the
    sources; it parses the parameter text file into a flat mapping of named
    experiment parameters. *)
Definition parmsToDict (path : string) : IO.M world attrs_t :=
  (f <- read path ;;
   match fdata f with
   | TxtParms parm_dict => IO.ret parm_dict
   | _ => IO.raise (ValueError "could not parse the parameter file")
   end)%io.

Section Translate.

(** [np.float32] and [np.float16] on stored numbers. *)
Variable float32 : Q -> Q.
Variable float16 : Q -> Q.

(** The samples that [file_handl.read(bytes_per_row)] returns after
    [seek(row_indx * bytes_per_row)], decoded by [np.fromstring]. *)
Definition read_row (f : file) (bytes_per_row row_indx : Z) : outcome (list Q) :=
  match fdata f with
  | BigTime samples =>
      let first := Z.min (fsize f) (row_indx * bytes_per_row) in
      let last := Z.min (fsize f) ((row_indx + 1) * bytes_per_row) in
      if negb ((last - first) mod 4 =? 0) then
        Raise (ValueError "string size must be a multiple of element size")
      else
        Ok (getslice samples
              (mkslice (Some (row_indx * bytes_per_row / 4))
                       (Some (row_indx * bytes_per_row / 4 + (last - first) / 4))))
  | _ => Raise (ValueError "string size must be a multiple of element size")
  end.

(** [GLineTranslator._read_data] *)
Definition _read_data (h5_name : string) (num_rows bytes_per_row : Z)
    (filepath : string) (h5_dset : string) : IO.M world unit :=
  (f <- read filepath ;;
   IO.for_each (range 0 num_rows)
     (fun row_indx =>
        data_vec <- IO.lift (read_row f bytes_per_row row_indx) ;;
        write_row h5_name h5_dset row_indx (map float16 data_vec)))%io.

(** The part of [translate] that runs once the number of rows is known to
    be whole. *)
Definition write_file (folder h5_name h5_path : string) (be_wave : list Q)
    (num_cols expected_rows points_per_pixel file_size num_rows : Z)
    (parm_dict : attrs_t) (data_paths : list (Z * string))
  : IO.M world (option string) :=
  (samp_rate <- IO.lift (v <- lookup "IO_rate_[Hz]" parm_dict ;; as_num v)%py ;;
   ex_freq_nominal <-
     IO.lift (v <- lookup "BE_center_frequency_[Hz]" parm_dict ;; as_num v)%py ;;
   (if Qeq_bool samp_rate (inject_Z 0) then IO.raise ZeroDivisionError
    else IO.ret tt) ;;;
   let pixel_duration := Qdiv (inject_Z points_per_pixel) samp_rate in
   let num_periods := Qmult pixel_duration ex_freq_nominal in
   let ex_freq_correct :=
     Qdiv (inject_Z 1) (Qdiv pixel_duration (inject_Z (Qfloor num_periods))) in
   let parm_dict :=
     Dict.set String.eqb "data_type"%string (VStr "G_mode_line")
       (Dict.set String.eqb "grid_num_rows"%string (VInt num_rows)
          (Dict.set String.eqb "num_bins"%string (VInt points_per_pixel)
             (Dict.set String.eqb "BE_center_frequency_[Hz]"%string
                       (VNum ex_freq_correct) parm_dict))) in
   (if num_rows =? 0 then IO.raise ZeroDivisionError else IO.ret tt) ;;;
   let bytes_per_row := file_size / num_rows in
   let meas_grp := ChildGroup "Measurement_000" parm_dict in
   let global_parms :=
     Dict.set String.eqb "translator"%string (VStr "G_mode_line")
       (Dict.set String.eqb "data_type"%string (VStr "G_mode_line")
                 generate_dummy_main_parms) in
   let spm_data := mk_group "" "/" global_parms [meas_grp] in
   create_h5 h5_name ;;;
   with_h5 h5_name (fun h5 => Ok (writeData h5 spm_data)) ;;;
   let ds_main_data :=
     with_attr
       (with_attr
          (mk_dataset "Raw_Data" [] (Some (num_rows, points_per_pixel * num_cols))
                      (FloatT 16) [])
          "quantity" (VStrs ["Deflection"%string]))
       "units" (VStrs ["V"%string]) in
   pos <- IO.lift (build_ind_val_dsets [num_rows] false None None
                     ["Y"%string] ["m"%string]) ;;
   spec <- IO.lift (build_ind_val_dsets [points_per_pixel * num_cols] true None None
                      ["Excitation"%string] ["V"%string]) ;;
   tiled <- IO.lift (tile (map float32 be_wave) num_cols) ;;
   (* Override the default waveform *)
   let ds_spec_vals := with_data (snd spec) [tiled] in
   IO.for_each (Dict.keys data_paths)
     (fun f_index =>
        let chan_grp :=
          mk_group ("Channel_" ++ format_03d f_index) "/Measurement_000/" []
            [ChildDataset ds_main_data; ChildDataset (fst pos);
             ChildDataset (snd pos); ChildDataset (fst spec);
             ChildDataset ds_spec_vals] in
        h5_main <- commit_channel h5_name chan_grp ;;
        match Dict.get Z.eqb f_index data_paths with
        | Some filepath => _read_data h5_name num_rows bytes_per_row filepath h5_main
        | None => IO.raise (KeyError (of_Z f_index))
        end) ;;;
   IO.ret (Some h5_path))%io.

(** [GLineTranslator.translate]; the argument [file_path] is any file of
    the folder of the world. *)
Definition translate : IO.M world (option string) :=
  (w <- IO.get ;;
   parsed <- IO.lift (_parse_file_path w) ;;
   let '(basename, parm_paths, data_paths) := parsed in
   let h5_name := (basename ++ ".h5")%string in
   let h5_path := join (folder_path w) h5_name in
   (if path_exists w h5_path then remove h5_path else IO.ret tt) ;;;
   mat_path <- IO.lift (lookup "parm_mat" parm_paths) ;;
   matread <- loadmat mat_path ;;
   let '(BE_wave, num_cols, expected_rows) := matread in
   let be_wave := map float32 BE_wave in
   let points_per_pixel := Z.of_nat (length be_wave) in
   txt_path <- IO.lift (lookup "parm_txt" parm_paths) ;;
   parm_dict <- parmsToDict txt_path ;;
   data_path0 <- IO.lift (match Dict.get Z.eqb 0 data_paths with
                          | Some p => Ok p
                          | None => Raise (KeyError "0")
                          end) ;;
   file_size <- getsize data_path0 ;;
   let row_bytes := 4 * points_per_pixel * num_cols in
   if row_bytes =? 0 then IO.raise ZeroDivisionError
   else if negb (file_size mod row_bytes =? 0) then
     (warn incomplete_rows_msg ;;; IO.ret None)
   else
     write_file (folder_path w) h5_name h5_path be_wave num_cols expected_rows
                points_per_pixel file_size (file_size / row_bytes)
                parm_dict data_paths)%io.

End Translate.

(** What [translate] measures the rows with: the BE wave and the number
    of columns in the [_all.mat] file of the folder, and the byte size of
    the data file with index 0. *)
Definition row_layout (w : world) (BE_wave : list Q) (num_cols file_size : Z)
  : Prop :=
  exists parm_paths data_paths mat_path dat_path fmat fdat total_rows,
    _parse_file_path w = Ok (folder_name w, parm_paths, data_paths) /\
    Dict.get String.eqb "parm_mat"%string parm_paths = Some mat_path /\
    read mat_path w = (Ok fmat, w) /\
    fdata fmat = MatParms BE_wave num_cols total_rows /\
    Dict.get Z.eqb 0 data_paths = Some dat_path /\
    read dat_path w = (Ok fdat, w) /\
    fsize fdat = file_size.

(** A folder with one complete data file of two rows. *)
Definition example_folder : list (string * file) :=
  [("exp_bigtime_00.dat"%string,
    mk_file 32 (BigTime (map inject_Z [1; 2; 3; 4; 5; 6; 7; 8])));
   ("exp_parms.txt"%string,
    mk_file 100 (TxtParms [("IO_rate_[Hz]"%string, VNum (inject_Z 4000000));
                           ("BE_center_frequency_[Hz]"%string, VNum (inject_Z 2000000))]));
   ("exp_all.mat"%string,
    mk_file 200 (MatParms (map inject_Z [7; 9]) 2 2))].

Definition example_world : world :=
  mk_world "/data/exp" "exp" example_folder [].

(** The same folder without its [_all.mat] file and with the output of an
    earlier translation. *)
Definition example_world_no_mat : world :=
  mk_world "/data/exp" "exp"
    [("exp_bigtime_00.dat"%string,
      mk_file 32 (BigTime (map inject_Z [1; 2; 3; 4; 5; 6; 7; 8])));
     ("exp_parms.txt"%string,
      mk_file 100 (TxtParms [("IO_rate_[Hz]"%string, VNum (inject_Z 4000000));
                             ("BE_center_frequency_[Hz]"%string, VNum (inject_Z 2000000))]));
     ("exp.h5"%string, mk_file 4096 (H5 empty_h5))]
    [].

(** The folder with a data file that stops in the middle of a row. *)
Definition example_world_incomplete : world :=
  mk_world "/data/exp" "exp"
    [("exp_bigtime_00.dat"%string,
      mk_file 40 (BigTime (map inject_Z [1; 2; 3; 4; 5; 6; 7; 8; 9; 10])));
     ("exp_parms.txt"%string,
      mk_file 100 (TxtParms [("IO_rate_[Hz]"%string, VNum (inject_Z 4000000));
                             ("BE_center_frequency_[Hz]"%string, VNum (inject_Z 2000000))]));
     ("exp_all.mat"%string,
      mk_file 200 (MatParms (map inject_Z [7; 9]) 2 2));
     ("exp.h5"%string, mk_file 4096 (H5 empty_h5))]
    [].

End GLine.

(* ===================================================================== *)
(** ** io/translators/gmode_iv.py : GIVTranslator *)
(* ===================================================================== *)

Module GIV.

Import Str MicroData Fs.

(** [np.round] on a float: to the nearest integer, halves to the even one. *)
Definition np_round (q : Q) : Z :=
  let f := Qfloor q in
  match Qcompare (Qminus q (inject_Z f)) (1 # 2) with
  | Lt => f
  | Gt => f + 1
  | Eq => if Z.even f then f else f + 1
  end.

(** [int(x)] on a float: towards zero. *)
Definition int_of_float (q : Q) : Z :=
  if Qle_bool (inject_Z 0) q then Qfloor q else Qceiling q.

(** [np.uint32(x)] *)
Definition np_uint32 (n : Z) : Z := n mod 2 ^ 32.

(** The entries of [parm_dict]. *)
Record parms : Type := mk_parms {
  IO_samp_rate : Z;                 (* 'IO_samp_rate_[Hz]' *)
  IO_amplifier_gain : Z;
  excitation_frequency : Q;         (* 'excitation_frequency_[Hz]' *)
  excitation_amplitude : Q;         (* 'excitation_amplitude_[V]' *)
  excitation_offset : Q;            (* 'excitation_offset_[V]' *)
  excitation_extra_pts : Z;
  excitation_pulse_height : Q;      (* 'excitation_pulse_height_[V]' *)
  excitation_pulse_time : Q;        (* 'excitation_pulse_time_[sec]' *)
  excitation_pulse_points : Z;
  excitation_duration : Q;          (* 'excitation_duration_[sec]' *)
  excitation_length : Z;
  grid_num_rows : Z;
  grid_num_cols : Z;
  grid_scan_height : Q;             (* 'grid_scan_height_[m]' *)
  grid_scan_width : Q;              (* 'grid_scan_width_[m]' *)
  grid_scan_speed : Q               (* 'grid_scan_speed_[ms-1]' *)
}.

Definition attrs_of_parms (p : parms) : attrs_t :=
  [("IO_samp_rate_[Hz]", VInt (IO_samp_rate p));
   ("IO_amplifier_gain", VInt (IO_amplifier_gain p));
   ("excitation_frequency_[Hz]", VNum (excitation_frequency p));
   ("excitation_amplitude_[V]", VNum (excitation_amplitude p));
   ("excitation_offset_[V]", VNum (excitation_offset p));
   ("excitation_extra_pts", VInt (excitation_extra_pts p));
   ("excitation_pulse_height_[V]", VNum (excitation_pulse_height p));
   ("excitation_pulse_time_[sec]", VNum (excitation_pulse_time p));
   ("excitation_pulse_points", VInt (excitation_pulse_points p));
   ("excitation_duration_[sec]", VNum (excitation_duration p));
   ("excitation_length", VInt (excitation_length p));
   ("grid_num_rows", VInt (grid_num_rows p));
   ("grid_num_cols", VInt (grid_num_cols p));
   ("grid_scan_height_[m]", VNum (grid_scan_height p));
   ("grid_scan_width_[m]", VNum (grid_scan_width p));
   ("grid_scan_speed_[ms-1]", VNum (grid_scan_speed p))]%string.

(** [h5_f[key]] *)
Definition field {X : Type} (key : string) (v : option X) : outcome X :=
  match v with
  | Some x => Ok x
  | None => Raise (KeyError key)
  end.

(** [h5py.File(path, 'r')] on a parameter file. *)
Definition open_parms (path : string) : IO.M world giv_parm_file :=
  (f <- read path ;;
   match fdata f with
   | GivParms p => IO.ret p
   | _ => IO.raise (IOError path)
   end)%io.

(** [h5py.File(path, 'r')['data']] on a line file: the second entry of the
    shape, and the rows. *)
Definition open_line (path : string) : IO.M world (Z * list (list Q)) :=
  (f <- read path ;;
   match fdata f with
   | LineMat shape1 data => IO.ret (shape1, data)
   | GivParms _ => IO.raise (KeyError "data")
   | _ => IO.raise (IOError path)
   end)%io.

Section Translate.

(** [np.float32] and [np.float16] on stored numbers. *)
Variable float32 : Q -> Q.
Variable float16 : Q -> Q.

(** [int(np.round(1.0 * samp_rate / frequency))] *)
Definition points_per_cycle (samp_rate : Z) (frequency : Q) : outcome Z :=
  if Qeq_bool frequency (inject_Z 0) then
    if samp_rate =? 0 then Raise (ValueError "cannot convert float NaN to integer")
    else Raise (OverflowError "cannot convert float infinity to integer")
  else Ok (np_round (Qdiv (inject_Z samp_rate) frequency)).

(** The optional pulse: both fields, or the defaults. *)
Definition pulse_of (h5_f : giv_parm_file) : Q * Q :=
  let '(pulse_duration, pulse_height) :=
    match pulse_duration h5_f, pulse_height h5_f with
    | Some d, Some h => (float32 d, float32 h)
    | _, _ => (inject_Z 0, inject_Z 0)
    end in
  if Qeq_bool pulse_duration (inject_Z 0) then (pulse_duration, inject_Z 0)
  else (pulse_duration, pulse_height).

(** [GIVTranslator._read_parms], after the parameter file has been opened
    as [h5_f]. *)
Definition _read_parms (h5_f : giv_parm_file) : outcome (parms * list Q) :=
  (samp_rate_raw <- field "samp_rate" (samp_rate h5_f) ;;
   let samp_rate := np_uint32 (int_of_float samp_rate_raw) in
   amp_gain_raw <- field "amp_gain" (amp_gain h5_f) ;;
   frequency_raw <- field "frequency" (frequency h5_f) ;;
   let frequency := float32 frequency_raw in
   amplitude_raw <- field "amplitude" (amplitude h5_f) ;;
   offset_raw <- field "offset" (offset h5_f) ;;
   wfm_raw <- field "excit_wfm" (excit_wfm h5_f) ;;
   let excit_wfm := map float32 wfm_raw in
   pts_per_cycle <- points_per_cycle samp_rate frequency ;;
   (if pts_per_cycle =? 0 then Raise ZeroDivisionError else Ok tt) ;;;
   let extra_pts := Z.of_nat (length excit_wfm) mod pts_per_cycle in
   let '(pulse_duration, pulse_height) := pulse_of h5_f in
   let pulse_points := np_round (Qmult pulse_duration (inject_Z samp_rate)) in
   line_time_raw <- field "line_time" (line_time h5_f) ;;
   let line_time := Qminus (float32 line_time_raw) pulse_duration in
   let excess_time :=
     Qminus line_time (Qdiv (inject_Z extra_pts) (inject_Z samp_rate)) in
   let excit_wfm :=
     if 0 <? extra_pts then
       getslice excit_wfm (mkslice (Some pulse_points) (Some (- extra_pts)))
     else getslice excit_wfm (mkslice (Some pulse_points) None) in
   num_lines_raw <- field "num_lines" (num_lines h5_f) ;;
   scan_height_raw <- field "scan_height" (scan_height h5_f) ;;
   scan_width_raw <- field "scan_width" (scan_width h5_f) ;;
   scan_speed_raw <- field "scan_speed" (scan_speed h5_f) ;;
   Ok (mk_parms
         samp_rate
         (np_uint32 (int_of_float amp_gain_raw))
         frequency
         (float32 amplitude_raw)
         (float32 offset_raw)
         extra_pts
         (float32 pulse_height)
         (float32 pulse_duration)
         (np_uint32 pulse_points)
         (Qminus line_time excess_time)
         (Z.of_nat (length excit_wfm))
         (np_uint32 (int_of_float num_lines_raw))
         (np_uint32 (Qfloor (Qdiv (inject_Z (Z.of_nat (length excit_wfm)))
                                  (inject_Z pts_per_cycle))))
         (float32 scan_height_raw)
         (float32 scan_width_raw)
         (float32 scan_speed_raw),
       excit_wfm))%py.

(** The slice of a line that is kept. *)
Definition main_data (parm_dict : parms) : slice :=
  if excitation_extra_pts parm_dict =? 0 then
    mkslice (Some (excitation_pulse_points parm_dict)) None
  else
    mkslice (Some (excitation_pulse_points parm_dict))
            (Some (-1 * excitation_extra_pts parm_dict)).

Definition line_file (folder : string) (line_ind : Z) : string :=
  join folder ("line_" ++ of_Z (line_ind + 1) ++ ".mat").

Definition no_data_msg (line_ind : Z) : string :=
  ("No data found for Line " ++ of_Z line_ind)%string.

Definition not_found_msg (line_ind : Z) : string :=
  ("File not found for: line " ++ of_Z line_ind)%string.

(** One iteration of the loop of [_read_data]. *)
Definition read_line (parm_dict : parms) (folder h5_name : string)
    (raw_datasets : list string) (line_ind : Z) : IO.M world unit :=
  (w <- IO.get ;;
   let file_path := line_file folder line_ind in
   if path_exists w file_path then
     (h5_data <- open_line file_path ;;
      let '(shape1, data) := h5_data in
      if (excitation_length parm_dict <=? Z.of_nat (length data)) &&
         (shape1 =? Z.of_nat (length raw_datasets)) then
        IO.for_each (enumerate raw_datasets)
          (fun ch =>
             column <- IO.lift (mapM (fun row => getrow row (fst ch))
                                     (getslice data (main_data parm_dict))) ;;
             write_row h5_name (snd ch) line_ind (map float16 column))
      else warn (no_data_msg line_ind))
   else warn (not_found_msg line_ind))%io.

(** [GIVTranslator._read_data]; [raw_datasets] is [self.raw_datasets]. *)
Definition _read_data (parm_dict : parms) (folder h5_name : string)
    (raw_datasets : list string) : IO.M world unit :=
  IO.for_each (range 0 (grid_num_rows parm_dict))
              (read_line parm_dict folder h5_name raw_datasets).

(** [GIVTranslator.translate]; [parm_name] is the name of the parameter
    file in the folder of the world. *)
Definition translate (parm_name : string) : IO.M world string :=
  (w <- IO.get ;;
   let folder := folder_path w in
   h5_f <- open_parms (join folder parm_name) ;;
   parsed <- IO.lift (_read_parms h5_f) ;;
   let '(parm_dict, excit_wfm) := parsed in
   let h5_name := (folder_name w ++ ".h5")%string in
   let h5_path := join folder h5_name in
   (if path_exists w h5_path then remove h5_path else IO.ret tt) ;;;
   let size := Z.of_nat (length excit_wfm) in
   spec <- IO.lift (build_ind_val_dsets [size] true None None
                      ["Bias"%string] ["V"%string]) ;;
   (* The data generated above varies linearly. Override. *)
   let ds_spec_vals := with_data (snd spec) [excit_wfm] in
   pos <- IO.lift (build_ind_val_dsets [grid_num_rows parm_dict] false
                     (Some [Qdiv (grid_scan_height parm_dict)
                                 (inject_Z (grid_num_rows parm_dict))])
                     None ["Y"%string] ["m"%string]) ;;
   let ds_raw_data :=
     with_attr
       (with_attr
          (mk_dataset "Raw_Data" [] (Some (grid_num_rows parm_dict, size))
                      (FloatT 16) [])
          "quantity" (VStrs ["Current"%string]))
       "units" (VStrs [("1E-" ++ of_Z (IO_amplifier_gain parm_dict) ++ " A")%string]) in
   line1 <- open_line (join folder "line_1.mat") ;;
   let num_ai_chans := fst line1 in
   let global_parms :=
     Dict.set String.eqb "translator"%string (VStr "gIV")
       (Dict.set String.eqb "data_type"%string (VStr "gIV")
                 generate_dummy_main_parms) in
   let spm_data := mk_group "" "/" global_parms [ChildGroup "Measurement_000" []] in
   create_h5 h5_name ;;;
   with_h5 h5_name (fun h5 => Ok (writeData h5 spm_data)) ;;;
   raw_datasets <-
     IO.map_each (range 0 num_ai_chans)
       (fun chan_index =>
          commit_channel h5_name
            (mk_group ("Channel_" ++ format_03d chan_index) "/Measurement_000/"
               (attrs_of_parms parm_dict)
               [ChildDataset (fst pos); ChildDataset (snd pos);
                ChildDataset (fst spec); ChildDataset ds_spec_vals;
                ChildDataset ds_raw_data])) ;;
   _read_data parm_dict folder h5_name raw_datasets ;;;
   IO.ret h5_path)%io.

End Translate.




(** Row [i] of the persisted dataset at [path]. *)
Definition data_row (w : world) (h5_name path : string) (i : Z)
  : option (list Q) :=
  match data_at w h5_name path with
  | Some rows => nth_error rows (Z.to_nat i)
  | None => None
  end.

(** [w'] has the files of [w], except that translated files may have
    changed. *)
Definition same_sources (w w' : world) : Prop :=
  folder_path w' = folder_path w /\
  Dict.keys (entries w') = Dict.keys (entries w) /\
  forall name,
    Dict.get String.eqb name (entries w') = Dict.get String.eqb name (entries w) \/
    exists sz f f',
      Dict.get String.eqb name (entries w) = Some (mk_file sz (H5 f)) /\
      Dict.get String.eqb name (entries w') = Some (mk_file sz (H5 f')).

(** From [w0] to [w]: the same files, row [i] of every dataset of the
    translated file as it was, and no warning lost. *)
Definition kept (h5_name : string) (i : Z) (w0 w : world) : Prop :=
  same_sources w0 w /\
  (forall path, data_row w h5_name path i = data_row w0 h5_name path i) /\
  incl (warnings w0) (warnings w).

(** A parameter file without the optional pulse: 10 samples per second,
    2 Hz, a waveform of 11 points. *)
Definition example_parm_file : giv_parm_file :=
  mk_giv_parm_file
    (Some (inject_Z 10)) (Some (inject_Z 9)) (Some (inject_Z 2))
    (Some (inject_Z 1)) (Some (inject_Z 0))
    (Some (map inject_Z [0; 1; 2; 3; 4; 5; 6; 7; 8; 9; 10]))
    None None
    (Some (11 # 10)) (Some (inject_Z 3)) (Some (inject_Z 1))
    (Some (inject_Z 1)) (Some (inject_Z 1)).



(** A folder with the parameter file and three lines of one channel, of
    which the second is missing and the third is too short. *)
Definition example_world : world :=
  mk_world "/data/giv" "giv"
    [("parms.mat"%string, mk_file 100 (GivParms example_parm_file));
     ("line_1.mat"%string,
      mk_file 100 (LineMat 1 (map (fun x => [inject_Z x])
                                  [10; 11; 12; 13; 14; 15; 16; 17; 18; 19; 20])));
     ("line_3.mat"%string,
      mk_file 100 (LineMat 1 (map (fun x => [inject_Z x]) [30; 31; 32])))]
    [].

End GIV.

(* ===================================================================== *)
(** ** io/translators/igor_ibw.py : IgorIBWTranslator *)
(* ===================================================================== *)

Module Igor.

Import Str MicroData Fs.

(** [l.remove(x)]: the first occurrence goes. *)
Fixpoint remove_first (x : string) (l : list string) : list string :=
  match l with
  | [] => []
  | y :: t => if String.eqb y x then t else y :: remove_first x t
  end.

(** [for item in labels: if item == '': labels.remove(item)], with the list
    iterator reading position [i] of the list as it is at that moment. *)
Fixpoint drop_empty (fuel : nat) (i : nat) (labels : list string) : list string :=
  match fuel with
  | O => labels
  | S fuel' =>
      match nth_error labels i with
      | None => labels
      | Some item =>
          if String.eqb item "" then drop_empty fuel' (S i) (remove_first "" labels)
          else drop_empty fuel' (S i) labels
      end
  end.

(** The clean-up of one channel name. *)
Definition clean_label (chan : string) : string :=
  let k := rfind (lower chan) "trace" in
  if 0 <? k then upto chan (k + 5) else chan.

Definition default_unit (chan : string) : string :=
  if startswith chan "Phase" then "deg"%string
  else if startswith chan "Current" then "A"%string
  else "m"%string.

(** [IgorIBWTranslator._get_chan_labels] *)
Definition _get_chan_labels (ibw_wave : ibw_wave) : list string * list string :=
  let temp := wave_labels ibw_wave in
  let labels := concat temp in
  let labels := drop_empty (length labels) 0 labels in
  (map clean_label labels, map default_unit labels).

(** [bw.load(file_path).get('wave')] *)
Definition load (path : string) : IO.M world ibw_wave :=
  (f <- read path ;;
   match fdata f with
   | Ibw wave => IO.ret wave
   | _ => IO.raise (ValueError "not an Igor binary wave")
   end)%io.

(** [chan_labels.index(name)] *)
Fixpoint index_of (name : string) (l : list string) : option Z :=
  match l with
  | [] => None
  | x :: t =>
      if String.eqb x name then Some 0
      else option_map (Z.add 1) (index_of name t)
  end.

(** The stack of images after [transpose(2, 0, 1)] and the reshape to
    [(chan, Y*X, 1)]: per channel, one row of one entry per pixel. *)
Definition image_channels (t : list (list (list Q))) : list (list (list Q)) :=
  let pixels := concat t in
  let nchan := match pixels with p :: _ => length p | [] => O end in
  map (fun c => map (fun p => [nth c p (inject_Z 0)]) pixels) (seq 0 nchan).

(** A force curve after [np.atleast_3d] and [transpose((1, 2, 0))]: per
    channel, one row with the samples. *)
Definition curve_channels (d : wdata) : list (list (list Q)) :=
  match d with
  | W1 v => map (fun x => [[x]]) v
  | W2 m =>
      let nchan := match m with r :: _ => length r | [] => O end in
      map (fun c => [map (fun r => nth c r (inject_Z 0)) m]) (seq 0 nchan)
  | W3 t => image_channels t
  end.

(** [images.shape[2]] of a force curve. *)
Definition curve_length (d : wdata) : Z :=
  match d with
  | W1 _ => 1
  | W2 m => Z.of_nat (length m)
  | W3 t => 1
  end.

Section Translate.

Variable float32 : Q -> Q.

(** The override of the spectroscopic values of a force curve by the
    channel labelled ZSnsr, or else Raw. *)
Definition sensor_override (chan_labels : list string)
    (images : list (list (list Q))) (ds_spec_vals : MicroDataset)
  : outcome MicroDataset :=
  match index_of "ZSnsr" chan_labels with
  | Some chan_ind =>
      (img <- getrow images chan_ind ;;
       Ok (with_data ds_spec_vals (map (map float32) img)))%py
  | None =>
      match index_of "Raw" chan_labels with
      | Some chan_ind =>
          (img <- getrow images chan_ind ;;
           Ok (with_data ds_spec_vals (map (map float32) img)))%py
      | None => Ok ds_spec_vals
      end
  end.

(** The channel datasets: [zip(images, chan_labels, chan_units)]. *)
Definition raw_datasets (images : list (list (list Q)))
    (chan_labels chan_units : list string) : list MicroDataset :=
  map (fun icu =>
         with_attr
           (with_attr
              (mk_dataset "Raw_Data" (fst (fst icu)) None (FloatT 32) [])
              "quantity" (VStr (snd (fst icu))))
           "units" (VStrs [snd icu]))
      (combine (combine images chan_labels) chan_units).

(** [IgorIBWTranslator.translate]; [file_name] is the name of the [.ibw]
    file in the folder of the world.  The result is the path of the
    translated file. *)
Definition translate (file_name : string) : IO.M world string :=
  (w <- IO.get ;;
   let folder := folder_path w in
   ibw_wave <- load (join folder file_name) ;;
   let parm_dict := wave_parms ibw_wave in
   let '(chan_labels, chan_units) := _get_chan_labels ibw_wave in
   built <-
     match wData ibw_wave with
     | W3 t =>
         (* Image stack *)
         (num_rows <- IO.lift (v <- lookup "ScanLines" parm_dict ;; as_num v)%py ;;
          num_cols <- IO.lift (v <- lookup "ScanPoints" parm_dict ;; as_num v)%py ;;
          fast <- IO.lift (v <- lookup "FastScanSize" parm_dict ;; as_num v)%py ;;
          slow <- IO.lift (v <- lookup "SlowScanSize" parm_dict ;; as_num v)%py ;;
          (if Qeq_bool num_cols (inject_Z 0) || Qeq_bool num_rows (inject_Z 0)
           then IO.raise ZeroDivisionError else IO.ret tt) ;;;
          pos <- IO.lift (build_ind_val_dsets [Qfloor num_cols; Qfloor num_rows] false
                            (Some [Qdiv fast num_cols; Qdiv slow num_rows]) None
                            ["X"; "Y"]%string ["m"; "m"]%string) ;;
          spec <- IO.lift (build_ind_val_dsets [1] true (Some [inject_Z 1]) None
                             ["arb"%string] ["a.u."%string]) ;;
          IO.ret ("Image"%string, image_channels t, pos, spec))
     | d =>
         (* single force curve *)
         (let images := curve_channels d in
          pos <- IO.lift (build_ind_val_dsets [1] false (Some [25 # 1000000000]) None
                            ["X"%string] ["m"%string]) ;;
          spec <- IO.lift (build_ind_val_dsets [curve_length d] true None None
                             ["Z"%string] ["m"%string]) ;;
          (* The data generated above varies linearly. Override. *)
          ds_spec_vals <- IO.lift (sensor_override chan_labels images (snd spec)) ;;
          IO.ret ("ForceCurve"%string, images, pos, (fst spec, ds_spec_vals)))
     end ;;
   let '(type_suffix, images, pos, spec) := built in
   let chan_raw_dsets := raw_datasets images chan_labels chan_units in
   let global_parms :=
     Dict.set String.eqb "translator"%string (VStr "IgorIBW")
       (Dict.set String.eqb "data_type"%string (VStr ("IgorIBW_" ++ type_suffix))
                 generate_dummy_main_parms) in
   let spm_data :=
     mk_group "" "/" global_parms [ChildGroup "Measurement_000" parm_dict] in
   let base_name := upto file_name (Z.of_nat (String.length file_name) - 4) in
   let h5_name := (base_name ++ ".h5")%string in
   let h5_path := join folder h5_name in
   w1 <- IO.get ;;
   (if path_exists w1 h5_path then remove h5_path else IO.ret tt) ;;;
   create_h5 h5_name ;;;
   with_h5 h5_name (fun h5 => Ok (writeData h5 spm_data)) ;;;
   IO.for_each (enumerate chan_raw_dsets)
     (fun ch =>
        let raw_dset := snd ch in
        let name :=
          match Dict.get String.eqb "quantity"%string (ds_attrs raw_dset) with
          | Some v => v
          | None => VStr ""
          end in
        commit_channel h5_name
          (mk_group ("Channel_" ++ format_03d (fst ch)) "/Measurement_000/"
             [("name"%string, name)]
             [ChildDataset (fst pos); ChildDataset (snd pos);
              ChildDataset (fst spec); ChildDataset (snd spec);
              ChildDataset raw_dset]) ;;;
        IO.ret tt) ;;;
   IO.ret h5_path)%io.

End Translate.

(** A force curve with a deflection channel and a Z sensor channel. *)
Definition example_curve : ibw_wave :=
  mk_ibw_wave [[]; [""; "Defl"; "ZSnsr"]%string] []
    (W2 (map (map inject_Z) [[5; 100]; [6; 104]; [7; 109]])).

Definition example_world : world :=
  mk_world "/data/afm" "afm"
    [("curve0001.ibw"%string, mk_file 512 (Ibw example_curve))] [].

End Igor.


(* ===================================================================== *)
(** ** Shapes of persisted datasets, and more folders to run the model on *)
(* ===================================================================== *)

Module Rows.

Import Str MicroData Fs.

(** The dataset at [path] of the translated file has [n] rows of [wd]
    entries each. *)
Definition dset_rows (w : world) (h5_name path : string) (n wd : Z) : Prop :=
  exists rows,
    data_at w h5_name path = Some rows /\
    Z.of_nat (length rows) = n /\
    Forall (fun r => Z.of_nat (length r) = wd) rows.

(** Column [chan] of the rows of a line. *)
Definition column (chan : Z) (rows : list (list Q)) : list Q :=
  map (fun row => nth (Z.to_nat chan) row (inject_Z 0)) rows.

End Rows.

Module Examples.

Import Str MicroData Fs.

(** A stack of 2 x 2 images with one channel. *)
Definition image_wave : ibw_wave :=
  mk_ibw_wave [[]; []; ["HeightRetrace"%string]]
    [("ScanLines"%string, VInt 2); ("ScanPoints"%string, VInt 2);
     ("FastScanSize"%string, VNum (inject_Z 1));
     ("SlowScanSize"%string, VNum (inject_Z 1))]
    (W3 (map (map (map inject_Z)) [[[1]; [2]]; [[3]; [4]]])).

(** A force curve with a deflection and an amplitude channel only. *)
Definition plain_curve : ibw_wave :=
  mk_ibw_wave [[]; ["Defl"; "Amp"]%string] []
    (W2 (map (map inject_Z) [[5; 100]; [6; 104]; [7; 109]])).

Definition igor_world : world :=
  mk_world "/data/afm" "afm"
    [("image0001.ibw"%string, mk_file 512 (Ibw image_wave));
     ("curve0002.ibw"%string, mk_file 512 (Ibw plain_curve))] [].

(** A G-line folder whose data file starts with the searched name. *)
Definition gline_leading_name : world :=
  mk_world "/data/exp" "exp"
    [("bigtime_00.dat"%string,
      mk_file 32 (BigTime (map inject_Z [1; 2; 3; 4; 5; 6; 7; 8])));
     ("parms.txt"%string, mk_file 100 (TxtParms []));
     ("exp_all.mat"%string, mk_file 200 (MatParms (map inject_Z [7; 9]) 2 2))]
    [].

(** A data file of two rows of four samples next to a translated file
    whose main dataset has been reserved. *)
Definition gline_reserved : world :=
  mk_world "/data/exp" "exp"
    [("exp_bigtime_00.dat"%string,
      mk_file 32 (BigTime (map inject_Z [1; 2; 3; 4; 5; 6; 7; 8])));
     ("exp.h5"%string,
      mk_file 0 (H5 (mk_h5file []
                       [("/Measurement_000/Channel_000/Raw_Data"%string,
                         mk_h5dataset (zeros (inject_Z 0) 2 4) (FloatT 16) [])])))]
    [].

(** The parameters of a G-mode IV experiment of three lines: a waveform of
    11 points of which the last is cut, no pulse. *)
Definition giv_parms : GIV.parms :=
  GIV.mk_parms 10 9 (inject_Z 2) (inject_Z 1) (inject_Z 0) 1
               (inject_Z 0) (inject_Z 0) 0 (inject_Z 1) 10 3 2
               (inject_Z 1) (inject_Z 1) (inject_Z 1).

(** Its folder once the main dataset of the only channel is reserved: the
    first line is whole, the second is missing, the third is too short. *)
Definition giv_reserved : world :=
  mk_world "/data/giv" "giv"
    [("line_1.mat"%string,
      mk_file 100 (LineMat 1 (map (fun x => [inject_Z x])
                                  [10; 11; 12; 13; 14; 15; 16; 17; 18; 19; 20])));
     ("line_3.mat"%string,
      mk_file 100 (LineMat 1 (map (fun x => [inject_Z x]) [30; 31; 32])));
     ("giv.h5"%string,
      mk_file 0 (H5 (mk_h5file []
                       [("/Measurement_000/Channel_000/Raw_Data"%string,
                         mk_h5dataset (zeros (inject_Z 0) 3 10) (FloatT 16) [])])))]
    [].

(** A parameter file that names the duration of a pulse but not its
    height. *)
Definition giv_pulse_without_height : giv_parm_file :=
  mk_giv_parm_file
    (Some (inject_Z 10)) (Some (inject_Z 9)) (Some (inject_Z 2))
    (Some (inject_Z 1)) (Some (inject_Z 0))
    (Some (map inject_Z [0; 1; 2; 3; 4; 5; 6; 7; 8; 9; 10]))
    (Some (1 # 2)) None
    (Some (11 # 10)) (Some (inject_Z 3)) (Some (inject_Z 1))
    (Some (inject_Z 1)) (Some (inject_Z 1)).

(** A G-line folder whose data file has no channel digit. *)
Definition gline_unnumbered : world :=
  mk_world "/data/exp" "exp"
    [("exp_all.mat"%string, mk_file 200 (MatParms (map inject_Z [7; 9]) 2 2));
     ("exp_bigtime_0.dat"%string,
      mk_file 32 (BigTime (map inject_Z [1; 2; 3; 4; 5; 6; 7; 8])));
     ("exp.h5"%string, mk_file 4096 (H5 empty_h5))]
    [].

(** A G-mode IV folder with its parameter file and the output of an
    earlier translation, but no line file. *)
Definition giv_no_lines : world :=
  mk_world "/data/giv" "giv"
    [("parms.mat"%string, mk_file 100 (GivParms GIV.example_parm_file));
     ("giv.h5"%string, mk_file 4096 (H5 empty_h5))]
    [].

End Examples.
(* ===================================================================== *)
(** ** Properties *)
(* ===================================================================== *)

Section RangeFacts.

Lemma length_range (a b : Z) : length (range a b) = Z.to_nat (b - a).
Proof. unfold range. now rewrite length_map, length_seq. Qed.

Lemma range_empty (a b : Z) : b <= a -> range a b = [].
Proof.
  intros H. unfold range.
  replace (Z.to_nat (b - a)) with 0%nat by lia. reflexivity.
Qed.

Lemma in_range (a b x : Z) : In x (range a b) <-> a <= x < b.
Proof.
  unfold range. rewrite in_map_iff. split.
  - intros (i & <- & Hi). apply in_seq in Hi. lia.
  - intros H. exists (Z.to_nat (x - a)). split; [lia|].
    apply in_seq. lia.
Qed.

End RangeFacts.

Module ComponentSliceFacts.
Import ComponentSlice.

Lemma np_uint_small (x : Z) : 0 <= x < 2 ^ 64 -> np_uint x = x.
Proof. intros H. unfold np_uint. now apply Z.mod_small. Qed.

Lemma map_np_uint_id (shape1 : Z) (l : list Z) :
  shape1 <= 2 ^ 64 -> Forall (fun i => 0 <= i < shape1) l -> map np_uint l = l.
Proof.
  intros Hs H. induction H as [|x l Hx _ IH]; simpl; [reflexivity|].
  rewrite IH, np_uint_small; [reflexivity | lia].
Qed.

Lemma forallb_in_range (shape1 : Z) (l : list Z) :
  Forall (fun i => 0 <= i < shape1) l ->
  forallb (fun i => (0 <=? i) && (i <? shape1)) l = true.
Proof.
  intros H. apply forallb_forall. rewrite Forall_forall in H.
  intros x Hx. specialize (H x Hx). apply andb_true_iff. split; lia.
Qed.

Lemma select_array (shape1 : Z) (l : list Z) :
  Forall (fun i => 0 <= i < shape1) l -> increasing l = true ->
  shape1 <= 2 ^ 64 ->
  selects shape1 (CIter l) l \/ Z.of_nat (length l) = 2.
Proof.
  intros Hr Hi Hs.
  destruct (Z.eqb_spec (Z.of_nat (length l)) 2) as [E|E]; [now right|left].
  exists (ArraySel l), (Z.of_nat (length l)).
  unfold _get_component_slice.
  destruct (Z.eqb_spec (Z.of_nat (length l)) 2) as [E'|_]; [contradiction|].
  rewrite (map_np_uint_id shape1) by assumption.
  repeat split. unfold select_columns.
  now rewrite forallb_in_range, Hi.
Qed.

Lemma select_slice (shape1 a b : Z) :
  0 <= a <= b -> b <= shape1 ->
  select_columns shape1 (SliceSel (mkslice (Some a) (Some b))) = Ok (range a b).
Proof.
  intros Ha Hb. unfold select_columns, slice_positions, slice_indices; simpl.
  destruct (Z.ltb_spec a 0), (Z.ltb_spec b 0); try lia.
  now rewrite !Z.min_l by lia.
Qed.

(** C1, as stated, at a range that runs past the last feature: the
    dataset has 4 features, [[2, 7]] reads columns 2 and 3 only, and
    [num_comps] is 5. *)
Lemma component_slice_range_overrun :
  announced 4 (CIter [2; 7]) = Some (range 2 7) /\
  _get_component_slice 4 (CIter [2; 7])
    = Ok (SliceSel (mkslice (Some 2) (Some 7)), 5) /\
  select_columns 4 (SliceSel (mkslice (Some 2) (Some 7))) = Ok [2; 3] /\
  ~ selects 4 (CIter [2; 7]) (range 2 7).
Proof.
  repeat split.
  intros (cs & n & H1 & H2 & H3).
  vm_compute in H1. injection H1 as <- <-.
  vm_compute in H2. discriminate H2.
Qed.

(** C1 (amended): on a dataset with [shape1] features, [None] selects all
    of them, a non-negative integer [n] the first [min n shape1], a pair
    [[a, b]] with [0 <= a <= b <= shape1] the range [a .. b-1], and any
    other increasing list of valid indices exactly those indices; in each
    case [num_comps] is the number of selected features. *)
Theorem component_slice_selects (shape1 : Z) (c : components) (cols : list Z) :
  0 <= shape1 ->
  in_bounds shape1 c ->
  announced shape1 c = Some cols ->
  selects shape1 c cols.
Proof.
  intros HF Hb Ha. destruct c as [|n|l| |s|]; simpl in Ha; try discriminate.
  - (* None *)
    injection Ha as <-.
    exists (SliceSel (mkslice (Some 0) (Some shape1))), shape1.
    repeat split.
    + apply select_slice; lia.
    + rewrite length_range. lia.
  - (* int *)
    injection Ha as <-. simpl in Hb.
    exists (SliceSel (mkslice (Some 0) (Some (Z.min n shape1)))), (Z.min n shape1).
    repeat split.
    + apply select_slice; lia.
    + rewrite length_range. lia.
  - (* iterable *)
    destruct l as [|a [|b [|c l]]].
    + injection Ha as <-. destruct Hb as (Hr & Hi & Hs).
      destruct (select_array shape1 [] Hr Hi Hs) as [H|H]; [exact H|discriminate].
    + injection Ha as <-. destruct Hb as (Hr & Hi & Hs).
      destruct (select_array shape1 [a] Hr Hi Hs) as [H|H]; [exact H|discriminate].
    + injection Ha as <-. destruct Hb as (Hab & Hbs).
      exists (SliceSel (mkslice (Some a) (Some b))), (Z.abs (b - a)).
      repeat split.
      * apply select_slice; lia.
      * rewrite length_range. lia.
    + injection Ha as <-. destruct Hb as (Hr & Hi & Hs).
      destruct (select_array shape1 (a :: b :: c :: l) Hr Hi Hs) as [H|H];
        [exact H|].
      simpl length in H. lia.
Qed.

Lemma component_slice_selects_witness :
  selects 10 CNone (range 0 10) /\
  selects 10 (CInt 5) (range 0 5) /\
  selects 10 (CInt 25) (range 0 10) /\
  selects 10 (CIter [2; 7]) [2; 3; 4; 5; 6] /\
  selects 10 (CIter [1; 5; 9]) [1; 5; 9].
Proof.
  repeat split.
  - apply (component_slice_selects 10 CNone); [lia | exact I | reflexivity].
  - apply (component_slice_selects 10 (CInt 5)); [lia | simpl; lia | reflexivity].
  - apply (component_slice_selects 10 (CInt 25)); [lia | simpl; lia | reflexivity].
  - apply (component_slice_selects 10 (CIter [2; 7])); [lia | simpl; lia | reflexivity].
  - apply (component_slice_selects 10 (CIter [1; 5; 9])); [lia | | reflexivity].
    simpl. repeat split; [repeat constructor; lia | lia].
Defined.

End ComponentSliceFacts.

(* --------------------------------------------------------------------- *)
(** *** Lists, ranges and row updates *)
(* --------------------------------------------------------------------- *)

Section ListFacts.

Context {A : Type}.

Lemma range_cons (a b : Z) : a < b -> range a b = a :: range (a + 1) b.
Proof.
  intros H. unfold range.
  replace (Z.to_nat (b - a)) with (S (Z.to_nat (b - (a + 1)))) by lia.
  cbn [seq map]. f_equal; [lia|].
  rewrite <- seq_shift, map_map. apply map_ext. intros i. lia.
Qed.

Lemma NoDup_range (a b : Z) : NoDup (range a b).
Proof.
  unfold range. apply Finite.Injective_map_NoDup; [|apply seq_NoDup].
  intros i j. lia.
Qed.

Lemma nth_error_range (n : Z) (i : nat) :
  Z.of_nat i < n -> nth_error (range 0 n) i = Some (Z.of_nat i).
Proof.
  intros H. unfold range. rewrite nth_error_map.
  rewrite nth_error_seq.
  destruct (Nat.ltb_spec i (Z.to_nat (n - 0))); [reflexivity|lia].
Qed.

Lemma map_nth_range (l : list A) (d : A) :
  map (fun x => nth (Z.to_nat x) l d) (range 0 (Z.of_nat (length l))) = l.
Proof.
  apply nth_error_ext. intros i. rewrite nth_error_map.
  destruct (Nat.ltb_spec i (length l)) as [H|H].
  - rewrite nth_error_range by lia. simpl.
    rewrite Nat2Z.id. symmetry. now apply nth_error_nth'.
  - replace (nth_error l i) with (@None A) by (symmetry; now apply nth_error_None).
    replace (nth_error (range 0 (Z.of_nat (length l))) i) with (@None Z);
      [reflexivity|].
    symmetry. apply nth_error_None. rewrite length_range. lia.
Qed.

Lemma norm_index_ok (len i : Z) :
  0 <= i < len -> norm_index len i = Ok (Z.to_nat i).
Proof.
  intros H. unfold norm_index.
  destruct (Z.ltb_spec i 0); [lia|].
  destruct (Z.leb_spec 0 i); [|lia].
  destruct (Z.ltb_spec i len); [reflexivity|lia].
Qed.

Lemma getrow_ok (l : list A) (i : Z) (d : A) :
  0 <= i < Z.of_nat (length l) -> getrow l i = Ok (nth (Z.to_nat i) l d).
Proof.
  intros H. unfold getrow. rewrite norm_index_ok by assumption. simpl.
  rewrite (nth_error_nth' l d) by lia. reflexivity.
Qed.

Lemma setrow_ok (l : list A) (i : nat) (r : A) :
  (i < length l)%nat ->
  setrow l (Z.of_nat i) r = Ok (firstn i l ++ r :: skipn (S i) l).
Proof.
  intros H. unfold setrow. rewrite norm_index_ok by lia. simpl.
  now rewrite Nat2Z.id.
Qed.

Lemma length_update (l : list A) (i : nat) (r : A) :
  (i < length l)%nat -> length (firstn i l ++ r :: skipn (S i) l) = length l.
Proof.
  intros H. rewrite length_app, length_firstn. cbn [length].
  rewrite length_skipn. lia.
Qed.

Lemma firstn_update (l : list A) (i : nat) (r : A) :
  (i < length l)%nat ->
  firstn (S i) (firstn i l ++ r :: skipn (S i) l) = firstn i l ++ [r].
Proof.
  intros H.
  rewrite firstn_app, length_firstn, Nat.min_l by lia.
  replace (S i - i)%nat with 1%nat by lia.
  rewrite firstn_firstn, Nat.min_r by lia. reflexivity.
Qed.

Lemma skipn_update (l : list A) (i n : nat) (r : A) :
  (i < length l)%nat -> (i < n)%nat ->
  skipn n (firstn i l ++ r :: skipn (S i) l) = skipn n l.
Proof.
  intros H Hn.
  rewrite skipn_app, length_firstn, Nat.min_l by lia.
  rewrite skipn_firstn_comm.
  replace (i - n)%nat with 0%nat by lia. rewrite firstn_O, app_nil_l.
  replace (n - i)%nat with (S (n - S i)) by lia.
  rewrite skipn_cons, skipn_skipn. f_equal. lia.
Qed.

Lemma combine_map_snd {B C : Type} (g : B * C -> C) (l : list B) (m : list C) :
  combine l (map g (combine l m)) = map (fun p => (fst p, g p)) (combine l m).
Proof.
  revert m. induction l as [|x l IH]; intros [|y m]; simpl; [reflexivity..|].
  now rewrite IH.
Qed.

Lemma map_snd_combine_eq {B C : Type} (l : list B) (m : list C) :
  length m = length l -> map snd (combine l m) = m.
Proof.
  revert m. induction l as [|x l IH]; intros [|y m]; simpl; intros H;
    try reflexivity; try discriminate.
  f_equal. apply IH. now injection H.
Qed.

End ListFacts.

(* --------------------------------------------------------------------- *)
(** *** reorder_clusters *)
(* --------------------------------------------------------------------- *)

Module ReorderFacts.
Import Reorder.

Lemma cast_below (d : dtype) (x y : Z) :
  cast d x = x -> 0 <= y <= x -> cast d y = y.
Proof.
  intros Hx Hy. destruct d as [w|w|w|w|fs]; simpl in *; try reflexivity.
  - destruct (Z.eq_dec (2 ^ w) 0) as [E|E].
    + rewrite E, Z.mod_0_r. lia.
    + assert (0 < 2 ^ w) by (pose proof (Z.pow_nonneg 2 w); lia).
      assert (0 <= 2 ^ (w - 1)) by (apply Z.pow_nonneg; lia).
      pose proof (Z.mod_pos_bound (x + 2 ^ (w - 1)) (2 ^ w)).
      rewrite Z.mod_small; lia.
  - destruct (Z.eq_dec (2 ^ w) 0) as [E|E].
    + rewrite E, Z.mod_0_r. lia.
    + assert (0 < 2 ^ w) by (pose proof (Z.pow_nonneg 2 w); lia).
      pose proof (Z.mod_pos_bound x (2 ^ w)).
      rewrite Z.mod_small; lia.
Qed.

Lemma map_snd_enumerate_from {X : Type} (n : Z) (l : list X) :
  map snd (enumerate_from n l) = l.
Proof.
  revert n. induction l as [|x l IH]; intros n; simpl; [reflexivity|].
  now rewrite IH.
Qed.

Lemma relabel1_notin (d : dtype) (pairs : list (Z * Z)) (lab c : Z) :
  ~ In lab (map snd pairs) -> relabel1 d pairs lab c = c.
Proof.
  revert c. induction pairs as [|[o n] t IH]; intros c H; simpl in *; [reflexivity|].
  destruct (Z.eqb_spec lab n) as [->|Hn]; [tauto|].
  apply IH. tauto.
Qed.

Lemma relabel1_in (d : dtype) (xs : list Z) :
  forall (p : Z) (q : nat) (lab c : Z),
    NoDup xs -> nth_error xs q = Some lab ->
    relabel1 d (enumerate_from p xs) lab c = cast d (p + Z.of_nat q).
Proof.
  induction xs as [|x t IH]; intros p q lab c Hnd Hq.
  - destruct q; discriminate.
  - inversion Hnd as [|? ? Hx Ht]; subst. destruct q as [|q]; simpl in Hq.
    + injection Hq as ->. simpl. rewrite Z.eqb_refl.
      rewrite relabel1_notin by now rewrite map_snd_enumerate_from.
      f_equal. lia.
    + simpl. destruct (Z.eqb_spec lab x) as [->|Hne].
      * exfalso. apply Hx. eapply nth_error_In; eauto.
      * rewrite (IH (p + 1) q lab c Ht Hq). f_equal. lia.
Qed.

Section Facts.

Context {A : Type} (zero : A).
Variable linkage : matrix A -> outcome (list (Z * Z)).

Lemma new_cluster_order_filter (k : Z) (lp : list (Z * Z)) :
  new_cluster_order k lp
  = filter (fun c => c <? k) (flat_map (fun row => [fst row; snd row]) lp).
Proof.
  unfold new_cluster_order. induction lp as [|row lp IH]; [reflexivity|].
  cbn [flat_map]. now rewrite filter_app, IH.
Qed.

Lemma new_cluster_order_perm (k : Z) (lp : list (Z * Z)) :
  is_linkage k lp -> 2 <= k -> Permutation (new_cluster_order k lp) (range 0 k).
Proof.
  intros [_ Hp] Hk. rewrite new_cluster_order_filter.
  apply NoDup_Permutation.
  - apply NoDup_filter. eapply Permutation_NoDup; [symmetry; exact Hp|].
    apply NoDup_range.
  - apply NoDup_range.
  - intros x. rewrite filter_In, in_range. split.
    + intros [Hin Hlt]. apply (Permutation_in _ Hp) in Hin.
      apply in_range in Hin. lia.
    + intros Hx. split; [|lia].
      apply (Permutation_in _ (Permutation_sym Hp)). apply in_range. lia.
Qed.

Lemma foldM_reorder_step (labels : int_array) (mr : matrix A) (xs : list Z) :
  forall (p : nat) (nl : list Z) (nr : list (list A)),
    Forall (fun x => 0 <= x < nrows mr) xs ->
    (p + length xs <= length nr)%nat ->
    length nl = length (ivals labels) ->
    foldM (reorder_step A labels mr) (enumerate_from (Z.of_nat p) xs) (nl, nr)
    = Ok (map (fun q => relabel1 (idtype labels) (enumerate_from (Z.of_nat p) xs)
                                 (fst q) (snd q))
              (combine (ivals labels) nl),
          firstn p nr ++ map (fun x => nth (Z.to_nat x) (mrows mr) []) xs
                      ++ skipn (p + length xs) nr).
Proof.
  induction xs as [|x t IH]; intros p nl nr Hxs Hlen Hnl.
  - cbn [enumerate_from foldM length map app].
    rewrite Nat.add_0_r, firstn_skipn. do 2 f_equal.
    symmetry.
    etransitivity; [|apply (map_snd_combine_eq (ivals labels) nl Hnl)].
    apply map_ext. reflexivity.
  - inversion Hxs as [|? ? Hx Ht]; subst. cbn [length] in Hlen.
    cbn [enumerate_from foldM]. unfold reorder_step at 1.
    rewrite (getrow_ok (mrows mr) x []) by exact Hx.
    cbn [Py.bind]. rewrite setrow_ok by lia. cbn [Py.bind].
    replace (Z.of_nat p + 1) with (Z.of_nat (S p)) by lia.
    rewrite IH; [|assumption|rewrite length_update; lia|].
    + f_equal. f_equal.
      * unfold relabel. rewrite combine_map_snd, map_map.
        apply map_ext. intros [lab c]. reflexivity.
      * rewrite firstn_update by lia.
        rewrite skipn_update by lia.
        rewrite <- app_assoc. cbn [map app length].
        do 3 f_equal. f_equal. lia.
    + unfold relabel. rewrite length_map, length_combine. lia.
Qed.

Lemma nth_error_combine_repeat {B : Type} (l : list B) (c : Z) (i : nat) :
  nth_error (combine l (repeat c (length l))) i
  = option_map (fun a => (a, c)) (nth_error l i).
Proof.
  revert i. induction l as [|a l IH]; intros [|i]; simpl; try reflexivity.
  apply IH.
Qed.

(** X15: two clusters or more: when scipy returns a linkage matrix of the shape
    of its contract and the labels are exactly [0 .. k-1], the function
    returns, and its result is a relabeling of its arguments. *)
Theorem reorder_clusters_relabels (labels : int_array) (mr : matrix A)
    (lp : list (Z * Z)) :
  linkage mr = Ok lp ->
  is_linkage (nrows mr) lp ->
  2 <= nrows mr ->
  labels_cover (nrows mr) (ivals labels) ->
  Forall (fun x => cast (idtype labels) x = x) (ivals labels) ->
  exists nl nm,
    reorder_clusters A zero linkage labels mr = Ok (nl, nm) /\
    relabeling labels mr nl nm.
Proof.
  intros Hl Hlink Hk Hcov Hfit.
  pose (k := nrows mr). pose (order := new_cluster_order k lp).
  assert (Hperm : Permutation order (range 0 k))
    by now apply new_cluster_order_perm.
  assert (Hnd : NoDup order).
  { eapply Permutation_NoDup; [symmetry; exact Hperm|apply NoDup_range]. }
  assert (Hin : forall x, In x order <-> 0 <= x < k).
  { intros x. rewrite <- in_range. split; apply Permutation_in;
      [exact Hperm|symmetry; exact Hperm]. }
  assert (Hlen : length order = Z.to_nat k).
  { rewrite (Permutation_length Hperm), length_range. f_equal. lia. }
  assert (Hrows : length (mrows mr) = Z.to_nat k) by (unfold k, nrows; lia).
  assert (Hall : Forall (fun x => 0 <= x < nrows mr) order).
  { apply Forall_forall. intros x Hx. now apply Hin. }
  assert (Htop : cast (idtype labels) (k - 1) = k - 1).
  { rewrite Forall_forall in Hfit. apply Hfit. apply Hcov. unfold k. lia. }
  unfold reorder_clusters. rewrite Hl. cbn [Py.bind].
  fold k. fold order. unfold enumerate. change 0 with (Z.of_nat 0) at 1.
  rewrite (foldM_reorder_step labels mr order 0%nat); [|exact Hall| |].
  2:{ unfold zeros. rewrite repeat_length. fold k. lia. }
  2:{ now rewrite repeat_length. }
  cbn [Py.bind fst snd firstn app plus].
  rewrite skipn_all2 by (unfold zeros; rewrite repeat_length; fold k; lia).
  rewrite app_nil_r.
  eexists _, _. split; [reflexivity|].
  set (new_vals := map _ (combine (ivals labels) _)).
  set (f := fun x : Z => nth (Z.to_nat x) (mrows mr) []).
  assert (Hmap : forall i old, nth_error (ivals labels) i = Some old ->
             exists new, nth_error new_vals i = Some (Z.of_nat new) /\
                         nth_error order new = Some old).
  { intros i old Hi.
    assert (Hold : In old order).
    { apply Hin. apply Hcov. eapply nth_error_In; eauto. }
    destruct (In_nth_error _ _ Hold) as [q Hq]. exists q. split; [|exact Hq].
    unfold new_vals. rewrite nth_error_map, nth_error_combine_repeat, Hi.
    cbn [option_map fst snd]. f_equal.
    rewrite (relabel1_in _ order 0 q old 0 Hnd Hq).
    apply (cast_below _ (k - 1)); [exact Htop|].
    assert (q < length order)%nat by (apply nth_error_Some; congruence).
    lia. }
  exists order. cbn [idtype ivals mdtype ncols mrows].
  split; [exact Hperm|]. split; [reflexivity|].
  split.
  { unfold new_vals. rewrite length_map, length_combine, repeat_length. lia. }
  split.
  { intros x. split.
    - intros Hx. destruct (In_nth_error _ _ Hx) as [i Hi].
      assert (Hil : (i < length (ivals labels))%nat).
      { assert (i < length new_vals)%nat by (apply nth_error_Some; congruence).
        unfold new_vals in H.
        rewrite length_map, length_combine, repeat_length in H. lia. }
      destruct (nth_error (ivals labels) i) as [old|] eqn:Eo;
        [|apply nth_error_None in Eo; lia].
      destruct (Hmap i old Eo) as (q & Hq1 & Hq2).
      rewrite Hq1 in Hi. injection Hi as <-.
      apply Hcov.
      assert (q < length order)%nat by (apply nth_error_Some; congruence).
      lia.
    - intros Hx. apply Hcov in Hx.
      destruct (nth_error order (Z.to_nat x)) as [old|] eqn:Eo;
        [|apply nth_error_None in Eo; lia].
      assert (Hold : In old (ivals labels)).
      { apply Hcov. apply Hin. eapply nth_error_In; eauto. }
      destruct (In_nth_error _ _ Hold) as [i Hi].
      destruct (Hmap i old Hi) as (q & Hq1 & Hq2).
      assert (q = Z.to_nat x).
      { apply (proj1 (NoDup_nth_error order) Hnd).
        - apply nth_error_Some. congruence.
        - congruence. }
      subst q. rewrite Z2Nat.id in Hq1 by lia.
      eapply nth_error_In; eauto. }
  split; [exact Hmap|].
  split; [reflexivity|]. split; [reflexivity|].
  split.
  { unfold nrows. cbn [mrows]. rewrite length_map. lia. }
  split.
  { eapply Permutation_trans; [apply Permutation_map; exact Hperm|].
    unfold f, k, nrows. rewrite (map_nth_range (mrows mr) []).
    apply Permutation_refl. }
  intros new old Hno. rewrite nth_error_map, Hno. cbn [option_map].
  symmetry. unfold f. apply nth_error_nth'.
  assert (In old order) by (eapply nth_error_In; eauto).
  apply Hin in H. lia.
Qed.

End Facts.

(** C2, where the code departs from it: a single cluster, labels [0; 0; 0]
    and one row of mean response.  scipy is asked for the linkage of one
    observation: it either raises or returns the [n - 1 = 0] rows of its
    contract, and in neither case does the mean response come back. *)
Theorem reorder_clusters_single_cluster
    (linkage : matrix Z -> outcome (list (Z * Z))) :
  (forall m lp, linkage m = Ok lp -> Z.of_nat (length lp) = nrows m - 1) ->
  let labels := mk_int_array (IntT 64) [0; 0; 0] in
  let mean_response := mk_matrix (FloatT 64) 2 [[1; 2]] in
  ((exists e, reorder_clusters Z 0 linkage labels mean_response = Raise e) \/
   reorder_clusters Z 0 linkage labels mean_response
   = Ok (labels, mk_matrix (FloatT 64) 2 [[0; 0]])) /\
  ~ (exists nl nm,
       reorder_clusters Z 0 linkage labels mean_response = Ok (nl, nm) /\
       relabeling labels mean_response nl nm).
Proof.
  intros Hc labels mr.
  assert (Hcases : (exists e, reorder_clusters Z 0 linkage labels mr = Raise e) \/
                   reorder_clusters Z 0 linkage labels mr
                   = Ok (labels, mk_matrix (FloatT 64) 2 [[0; 0]])).
  { unfold reorder_clusters. destruct (linkage mr) as [lp|e] eqn:El.
    - right. apply Hc in El. destruct lp; [reflexivity|].
      unfold nrows, mr in El. simpl in El. lia.
    - left. exists e. reflexivity. }
  split; [exact Hcases|].
  intros (nl & nm & Hr & order & _ & _ & _ & _ & _ & _ & _ & _ & Hp & _).
  destruct Hcases as [[e He]|Hz]; [congruence|].
  rewrite Hz in Hr. injection Hr as <- <-. cbn [mrows mr] in Hp.
  apply Permutation_length_1 in Hp. discriminate Hp.
Qed.

Lemma reorder_clusters_single_cluster_witness :
  reorder_clusters Z 0 chain_linkage (mk_int_array (IntT 64) [0; 0; 0])
                   (mk_matrix (FloatT 64) 2 [[1; 2]])
  = Raise (ValueError "The number of observations cannot be determined on an empty distance matrix.") /\
  ~ (exists nl nm,
       reorder_clusters Z 0 chain_linkage (mk_int_array (IntT 64) [0; 0; 0])
                        (mk_matrix (FloatT 64) 2 [[1; 2]]) = Ok (nl, nm) /\
       relabeling (mk_int_array (IntT 64) [0; 0; 0])
                  (mk_matrix (FloatT 64) 2 [[1; 2]]) nl nm).
Proof.
  split; [reflexivity|].
  apply (reorder_clusters_single_cluster chain_linkage).
  intros m lp. unfold chain_linkage.
  destruct (Z.ltb_spec (nrows m) 2) as [Hlt|Hge]; [discriminate|].
  intros Hlp. injection Hlp as <-. cbn [length].
  rewrite length_map, length_range. lia.
Defined.

Lemma reorder_clusters_relabels_witness :
  exists nl nm,
    reorder_clusters Z 0 chain_linkage (mk_int_array (IntT 64) [0; 1; 2; 1])
                     (mk_matrix (FloatT 64) 1 [[10]; [20]; [30]]) = Ok (nl, nm) /\
    relabeling (mk_int_array (IntT 64) [0; 1; 2; 1])
               (mk_matrix (FloatT 64) 1 [[10]; [20]; [30]]) nl nm.
Proof.
  apply (reorder_clusters_relabels 0 chain_linkage _ _ [(0, 1); (3, 2)]).
  - reflexivity.
  - split; [reflexivity|]. vm_compute. apply perm_skip, perm_skip, perm_swap.
  - vm_compute. discriminate.
  - intros x. unfold nrows. simpl. lia.
  - repeat constructor.
Defined.

End ReorderFacts.

(* --------------------------------------------------------------------- *)
(** *** Gathering rows and columns *)
(* --------------------------------------------------------------------- *)

Section GatherFacts.

Context {A : Type}.

Lemma take_ok (d : A) (row : list A) (cols : list Z) :
  Forall (fun c => 0 <= c < Z.of_nat (length row)) cols ->
  take row cols = Ok (map (fun c => nth (Z.to_nat c) row d) cols).
Proof.
  induction 1 as [|c cols Hc _ IH]; [reflexivity|].
  cbn [take map]. rewrite (getrow_ok row c d Hc). cbn [Py.bind].
  now rewrite IH.
Qed.

Lemma mapM_ok {B : Type} (f : A -> outcome B) (g : A -> B) (l : list A) :
  Forall (fun x => f x = Ok (g x)) l -> mapM f l = Ok (map g l).
Proof.
  induction 1 as [|x l Hx _ IH]; [reflexivity|].
  cbn [mapM map]. now rewrite Hx, IH.
Qed.

Lemma foldM_ext {S : Type} (f g : S -> A -> outcome S) (l : list A) (s : S) :
  (forall s x, In x l -> f s x = g s x) -> foldM f l s = foldM g l s.
Proof.
  revert s. induction l as [|x l IH]; intros s H; [reflexivity|].
  cbn [foldM]. rewrite (H s x (or_introl eq_refl)).
  destruct (g s x) as [s'|e]; [|reflexivity]. cbn [Py.bind].
  apply IH. intros s0 y Hy. apply H. now right.
Qed.

(** Reading the rows at the positions where [labels] equals [v] is
    filtering the rows by their label. *)
Lemma take_argwhere (v : Z) (labels : list Z) :
  forall (pre rows : list A),
    (length labels <= length rows)%nat ->
    take (pre ++ rows) (argwhere_from (Z.of_nat (length pre)) v labels)
    = Ok (map snd (filter (fun p => fst p =? v) (combine labels rows))).
Proof.
  induction labels as [|x t IH]; intros pre rows Hlen; [reflexivity|].
  destruct rows as [|r rs]; [simpl in Hlen; lia|].
  cbn [length] in Hlen.
  assert (Hnext : take (pre ++ r :: rs)
                    (argwhere_from (Z.of_nat (length pre) + 1) v t)
                  = Ok (map snd (filter (fun p => fst p =? v) (combine t rs)))).
  { specialize (IH (pre ++ [r]) rs).
    rewrite <- app_assoc, length_app in IH. cbn [app length] in IH.
    replace (Z.of_nat (length pre + 1)) with (Z.of_nat (length pre) + 1) in IH by lia.
    apply IH. lia. }
  cbn [argwhere_from combine filter fst].
  destruct (Z.eqb_spec x v) as [->|Hne].
  - cbn [take map snd].
    assert (Hget : getrow (pre ++ r :: rs) (Z.of_nat (length pre)) = Ok r).
    { rewrite (getrow_ok _ _ r) by (rewrite length_app; cbn [length]; lia).
      rewrite Nat2Z.id, app_nth2, Nat.sub_diag by lia. reflexivity. }
    rewrite Hget. cbn [Py.bind]. now rewrite Hnext.
  - exact Hnext.
Qed.

Lemma filter_combine_map {B : Type} (f : A -> B) (v : Z) (labels : list Z)
    (rows : list A) :
  map snd (filter (fun p => fst p =? v) (combine labels (map f rows)))
  = map f (map snd (filter (fun p => fst p =? v) (combine labels rows))).
Proof.
  revert rows. induction labels as [|x t IH]; intros [|r rs]; try reflexivity.
  cbn [map combine filter fst]. destruct (x =? v); cbn [map snd]; now rewrite IH.
Qed.

Lemma filter_combine_nonempty (v : Z) (labels : list Z) (rows : list A) :
  (length labels <= length rows)%nat -> In v labels ->
  map snd (filter (fun p => fst p =? v) (combine labels rows)) <> [].
Proof.
  revert rows. induction labels as [|x t IH]; intros [|r rs] Hlen Hin;
    try (simpl in *; (lia || contradiction)).
  cbn [combine filter fst]. destruct (Z.eqb_spec x v) as [->|Hne].
  - discriminate.
  - apply IH; [simpl in Hlen; lia|]. destruct Hin; [contradiction|assumption].
Qed.

(** Writing the rows [p, p+1, ...] one after the other. *)
Lemma foldM_assign_rows (c : Z) (g : Z -> list A) (n : nat) :
  forall (p : nat) (acc : list (list A)),
    (p + n <= length acc)%nat ->
    (forall i, Z.of_nat p <= i < Z.of_nat (p + n) -> Z.of_nat (length (g i)) = c) ->
    foldM (fun m i => assign_row m c i (g i))
          (range (Z.of_nat p) (Z.of_nat (p + n))) acc
    = Ok (firstn p acc ++ map g (range (Z.of_nat p) (Z.of_nat (p + n)))
                       ++ skipn (p + n) acc).
Proof.
  induction n as [|n IH]; intros p acc Hlen Hg.
  - rewrite Nat.add_0_r, range_empty by lia. cbn [foldM map app].
    now rewrite firstn_skipn.
  - rewrite range_cons by lia. cbn [foldM map].
    unfold assign_row at 1. rewrite Hg by lia. rewrite Z.eqb_refl.
    rewrite setrow_ok by lia. cbn [Py.bind].
    replace (Z.of_nat p + 1) with (Z.of_nat (S p)) by lia.
    replace (p + S n)%nat with (S p + n)%nat by lia.
    rewrite IH.
    + rewrite firstn_update, skipn_update by lia.
      now rewrite <- app_assoc.
    + rewrite length_update; lia.
    + intros i Hi. apply Hg. lia.
Qed.

End GatherFacts.

Lemma num_unique_cover (k : Z) (labels : list Z) :
  0 <= k -> Reorder.labels_cover k labels -> num_unique labels = k.
Proof.
  intros Hk Hcov. unfold num_unique.
  assert (P : Permutation (nodup Z.eq_dec labels) (range 0 k)).
  { apply NoDup_Permutation; [apply NoDup_nodup|apply NoDup_range|].
    intros x. rewrite nodup_In, in_range. apply Hcov. }
  rewrite (Permutation_length P), length_range. lia.
Qed.

Module ClusterFacts.
Import ComponentSlice Cluster.

Lemma select_columns_bounds (shape1 : Z) (cs : comp_slice) (cols : list Z) :
  0 <= shape1 -> select_columns shape1 cs = Ok cols ->
  Forall (fun c => 0 <= c < shape1) cols.
Proof.
  intros HF. destruct cs as [s|a]; simpl.
  - intros H. injection H as <-. apply Forall_forall. intros x.
    unfold slice_positions, slice_indices. rewrite in_range.
    unfold adjust_index.
    destruct (start s) as [a|], (stop s) as [b|];
      repeat match goal with |- context [?x <? 0] => destruct (Z.ltb_spec x 0) end;
      lia.
  - destruct (forallb _ a) eqn:Ef; simpl; [|discriminate].
    destruct (increasing a); simpl; [|discriminate].
    intros H. injection H as <-. apply Forall_forall. intros x Hx.
    rewrite forallb_forall in Ef. specialize (Ef x Hx). lia.
Qed.

Section Facts.

Context {src real estimator : Type} (zero : src).
Variable data_transform_func : list (list src) -> list (list real).
Variable np_mean : list (list real) -> list real.
Variable transformToTargetType : list real -> list src.


Lemma sliced_main_ok (self : cluster src estimator) (cols : list Z) :
  rectangular (h5_main self) -> 0 <= ncols (h5_main self) ->
  select_columns (ncols (h5_main self)) (data_slice1 self) = Ok cols ->
  sliced_main src estimator self = Ok (map (pick zero cols) (mrows (h5_main self))).
Proof.
  intros Hrect HF Hsel. unfold sliced_main. rewrite Hsel. cbn [Py.bind].
  apply mapM_ok. unfold rectangular in Hrect.
  eapply Forall_impl; [|exact Hrect]. intros row Hrow. cbv beta in Hrow.
  apply take_ok. rewrite Hrow.
  now apply select_columns_bounds with (cs := data_slice1 self).
Qed.

(** With labels [0 .. k-1] on the rows of the main dataset and an object
    whose [num_comps] counts the columns [cols] that its selection reads,
    row [l] of the mean response is the inverse transform of the mean of
    the transformed rows labelled [l], restricted to [cols]. *)
Lemma mean_response_of_columns (self : cluster src estimator) (labels : list Z)
    (k : Z) (cols : list Z) :
  rectangular (h5_main self) -> 0 <= ncols (h5_main self) ->
  select_columns (ncols (h5_main self)) (data_slice1 self) = Ok cols ->
  num_comps self = Z.of_nat (length cols) ->
  length labels = length (mrows (h5_main self)) ->
  0 <= k -> Reorder.labels_cover k labels ->
  (forall chunk, chunk <> [] ->
     Forall (fun r => length r = length cols) chunk ->
     length (transformToTargetType (np_mean (data_transform_func chunk)))
     = length cols) ->
  exists mean_resp,
    _get_mean_response src real zero estimator data_transform_func np_mean
      transformToTargetType self labels = Ok mean_resp /\
    mdtype mean_resp = mdtype (h5_main self) /\
    nrows mean_resp = k /\
    ncols mean_resp = num_comps self /\
    rectangular mean_resp /\
    forall l, 0 <= l < k ->
      nth_error (mrows mean_resp) (Z.to_nat l)
      = Some (transformToTargetType (np_mean (data_transform_func
                (class_chunk zero cols labels (mrows (h5_main self)) l)))).
Proof.
  intros Hrect HF Hsel Hnc Hlen Hk Hcov Hshape.
  pose (g := fun l : Z =>
              transformToTargetType (np_mean (data_transform_func
                (class_chunk zero cols labels (mrows (h5_main self)) l)))).
  assert (Hg : forall l, 0 <= l < k -> length (g l) = length cols).
  { intros l Hl. apply Hshape.
    - unfold class_chunk. intros E. apply map_eq_nil in E. revert E.
      apply filter_combine_nonempty; [lia|]. now apply Hcov.
    - unfold class_chunk. apply Forall_forall. intros r Hr.
      apply in_map_iff in Hr. destruct Hr as (r0 & <- & _).
      unfold pick. apply length_map. }
  assert (Hstep : forall m l, In l (range 0 k) ->
            mean_response_step src real estimator data_transform_func np_mean
              transformToTargetType self labels m l
            = assign_row m (num_comps self) l (g l)).
  { intros m l _. unfold mean_response_step.
    rewrite (sliced_main_ok self cols Hrect HF Hsel). cbn [Py.bind].
    unfold argwhere.
    pose proof (take_argwhere l labels []
                  (map (pick zero cols) (mrows (h5_main self)))) as Ht.
    cbn [app length] in Ht. change (Z.of_nat 0) with 0 in Ht.
    rewrite Ht by (rewrite length_map; lia).
    cbn [Py.bind]. rewrite filter_combine_map. reflexivity. }
  unfold _get_mean_response. rewrite (num_unique_cover k labels Hk Hcov).
  destruct (Z.ltb_spec (num_comps self) 0) as [Hneg|_]; [lia|].
  rewrite (foldM_ext _ (fun m l => assign_row m (num_comps self) l (g l))
             (range 0 k) _ Hstep).
  pose proof (foldM_assign_rows (num_comps self) g (Z.to_nat k) 0%nat
                (zeros zero k (num_comps self))) as Hf.
  cbn [plus firstn app] in Hf. rewrite Z2Nat.id in Hf by lia.
  change (Z.of_nat 0) with 0 in Hf.
  rewrite Hf.
  2:{ unfold zeros. rewrite repeat_length. lia. }
  2:{ intros i Hi. rewrite Hg by lia. lia. }
  cbn [Py.bind]. rewrite skipn_all2
    by (unfold zeros; rewrite repeat_length; lia).
  rewrite app_nil_r.
  eexists. split; [reflexivity|]. cbn [mdtype ncols mrows].
  split; [reflexivity|]. split.
  { unfold nrows. cbn [mrows]. rewrite length_map, length_range. lia. }
  split; [reflexivity|]. split.
  { unfold rectangular. cbn [mrows ncols]. apply Forall_forall. intros r Hr.
    apply in_map_iff in Hr. destruct Hr as (l & <- & Hl). apply in_range in Hl.
    rewrite Hg by lia. lia. }
  intros l Hl. rewrite nth_error_map.
  replace (nth_error (range 0 k) (Z.to_nat l)) with (Some l); [reflexivity|].
  symmetry. rewrite nth_error_range by lia. f_equal. lia.
Qed.


Variable checkIfMain : matrix src -> bool.
Variable instantiate : string -> list Z -> kwargs_t -> outcome estimator.
Variable cpu_count : Z.
Variable check_dtype : matrix src -> outcome (bool * bool * Z * Z * Z).

(** What [__init__] stores for each kind of selection that it accepts. *)
Lemma init_selection (h5 : matrix src) (method : string) (comps : components)
    (args : list Z) (kwargs : kwargs_t) (self : cluster src estimator) :
  __init__ src estimator checkIfMain instantiate cpu_count check_dtype
           h5 method comps args kwargs = Ok self ->
  h5_main self = h5 /\
  _get_component_slice (ncols h5) comps = Ok (data_slice1 self, num_comps self).
Proof.
  unfold __init__. destruct (negb (checkIfMain h5)); [discriminate|].
  destruct (negb _); [discriminate|].
  destruct (instantiate _ _ _) as [est|e]; [|discriminate]. cbn [Py.bind].
  destruct (_get_component_slice (ncols h5) comps) as [[cs n]|e]; [|discriminate].
  cbn [Py.bind]. destruct (check_dtype h5) as [r|e]; [|discriminate].
  cbn [Py.bind]. intros H. injection H as <-. now split.
Qed.

(** The columns that an object reads when its selection lies within the
    features of the dataset: the announced ones, and [num_comps] counts
    them. *)
Lemma init_reads_announced (h5 : matrix src) (method : string)
    (comps : components) (args : list Z) (kwargs : kwargs_t)
    (self : cluster src estimator) (cols : list Z) :
  __init__ src estimator checkIfMain instantiate cpu_count check_dtype
           h5 method comps args kwargs = Ok self ->
  0 <= ncols h5 -> in_bounds (ncols h5) comps ->
  announced (ncols h5) comps = Some cols ->
  h5_main self = h5 /\
  select_columns (ncols h5) (data_slice1 self) = Ok cols /\
  num_comps self = Z.of_nat (length cols).
Proof.
  intros Hinit HF Hb Ha. apply init_selection in Hinit.
  destruct Hinit as [Hm Hsel]. split; [exact Hm|].
  assert (Hpair : forall a b, comps = CIter [a; b] ->
            select_columns (ncols h5) (data_slice1 self) = Ok cols /\
            num_comps self = Z.of_nat (length cols)).
  { intros a b ->. cbn in Ha, Hb, Hsel. injection Ha as <-.
    injection Hsel as <- <-. split.
    - apply ComponentSliceFacts.select_slice; lia.
    - rewrite length_range. lia. }
  assert (Harr : forall l, comps = CIter l -> Z.of_nat (length l) <> 2 ->
            Forall (fun i => 0 <= i < ncols h5) l -> increasing l = true ->
            ncols h5 <= 2 ^ 64 -> cols = l ->
            select_columns (ncols h5) (data_slice1 self) = Ok cols /\
            num_comps self = Z.of_nat (length cols)).
  { intros l -> Hl Hr Hi Hs ->. unfold _get_component_slice in Hsel.
    destruct (Z.eqb_spec (Z.of_nat (length l)) 2) as [E|_]; [contradiction|].
    rewrite (ComponentSliceFacts.map_np_uint_id (ncols h5)) in Hsel by assumption.
    injection Hsel as <- <-. split; [|reflexivity].
    unfold select_columns.
    now rewrite ComponentSliceFacts.forallb_in_range, Hi. }
  destruct comps as [|n|l| |s|]; cbn in Ha; try discriminate.
  - injection Ha as <-. cbn in Hsel. injection Hsel as <- <-. split.
    + apply ComponentSliceFacts.select_slice; lia.
    + rewrite length_range. lia.
  - injection Ha as <-. cbn in Hb, Hsel. injection Hsel as <- <-. split.
    + apply ComponentSliceFacts.select_slice; lia.
    + rewrite length_range. lia.
  - destruct l as [|a [|b [|c l]]].
    + injection Ha as <-. destruct Hb as (Hr & Hi & Hs).
      apply (Harr []); auto. cbn. lia.
    + injection Ha as <-. destruct Hb as (Hr & Hi & Hs).
      apply (Harr [a]); auto. cbn. lia.
    + now apply (Hpair a b).
    + injection Ha as <-. destruct Hb as (Hr & Hi & Hs).
      apply (Harr (a :: b :: c :: l)); auto. cbn [length]. lia.
Qed.

(** C3 (amended): for an object built by [__init__] from a selection that
    lies within the features of the dataset, and labels [0 .. k-1] with one
    label per row, [_get_mean_response] returns a [k] by [num_comps] array
    in the dtype of the source; [num_comps] is the number of selected
    columns, and row [l] is the inverse transform of the mean, taken after
    the transform to real scalars, over the rows that carry label [l],
    restricted to the selected columns. *)
Theorem get_mean_response_rows (h5 : matrix src) (method : string)
    (comps : components) (args : list Z) (kwargs : kwargs_t)
    (self : cluster src estimator) (labels : list Z) (k : Z) (cols : list Z) :
  __init__ src estimator checkIfMain instantiate cpu_count check_dtype
           h5 method comps args kwargs = Ok self ->
  rectangular h5 -> 0 <= ncols h5 ->
  in_bounds (ncols h5) comps ->
  announced (ncols h5) comps = Some cols ->
  length labels = length (mrows h5) ->
  0 <= k -> Reorder.labels_cover k labels ->
  (forall chunk, chunk <> [] ->
     Forall (fun r => length r = length cols) chunk ->
     length (transformToTargetType (np_mean (data_transform_func chunk)))
     = length cols) ->
  exists mean_resp,
    _get_mean_response src real zero estimator data_transform_func np_mean
      transformToTargetType self labels = Ok mean_resp /\
    mdtype mean_resp = mdtype h5 /\
    nrows mean_resp = k /\
    ncols mean_resp = num_comps self /\
    num_comps self = Z.of_nat (length cols) /\
    rectangular mean_resp /\
    forall l, 0 <= l < k ->
      nth_error (mrows mean_resp) (Z.to_nat l)
      = Some (transformToTargetType (np_mean (data_transform_func
                (class_chunk zero cols labels (mrows h5) l)))).
Proof.
  intros Hinit Hrect HF Hb Ha Hlen Hk Hcov Hshape.
  destruct (init_reads_announced h5 method comps args kwargs self cols
              Hinit HF Hb Ha) as (Hm & Hsel & Hnum).
  subst h5.
  destruct (mean_response_of_columns self labels k cols Hrect HF Hsel Hnum
              Hlen Hk Hcov Hshape)
    as (m & Hr & Hd & Hn & Hc & Hrt & Hrows).
  exists m. repeat (split; [assumption|]). exact Hrows.
Qed.

End Facts.
End ClusterFacts.

(* --------------------------------------------------------------------- *)
(** *** Cluster: construction, mean response on an example, and the
        ancillary links written by [_write_to_hdf5] *)
(* --------------------------------------------------------------------- *)

Module ClusterRunFacts.
Import ComponentSlice Cluster ClusterFacts.

Lemma column_mean_length (chunk : list (list Z)) (n : nat) :
  chunk <> [] -> Forall (fun r => length r = n) chunk ->
  length (real_to_int (column_mean (int_to_real chunk))) = n.
Proof.
  intros Hne Hall. destruct chunk as [|r rs]; [contradiction|].
  inversion Hall as [|? ? Hr _]; subst.
  unfold real_to_int, int_to_real, column_mean. cbn [map].
  now rewrite !length_map, length_seq.
Qed.

Lemma get_mean_response_rows_witness :
  exists self mean_resp,
    example_init "KMeans" (CIter [0; 2; 3]) = Ok self /\
    _get_mean_response Z Q 0 string int_to_real column_mean real_to_int
      self [0; 1; 0] = Ok mean_resp /\
    mdtype mean_resp = IntT 32 /\
    nrows mean_resp = 2 /\
    ncols mean_resp = 3 /\
    nth_error (mrows mean_resp) 0 = Some [2; 4; 5] /\
    nth_error (mrows mean_resp) 1 = Some [10; 30; 40].
Proof.
  eexists.
  destruct (get_mean_response_rows (estimator := string) 0
              int_to_real column_mean real_to_int
              (fun _ => true) sklearn_instantiate 4 example_check_dtype
              example_main "KMeans" (CIter [0; 2; 3]) [] []
              (mk_cluster example_main "KMeans"%string "KMeans"%string 3
                 (ArraySel [0; 2; 3]) (false, false, 4, 3, 1))
              [0; 1; 0] 2 [0; 2; 3])
    as (m & Hm & Hd & Hr & Hc & Hn & _ & Hrows).
  - reflexivity.
  - repeat constructor.
  - simpl. lia.
  - simpl. repeat split; [repeat constructor; lia|lia].
  - reflexivity.
  - reflexivity.
  - lia.
  - intros x. simpl. lia.
  - intros chunk Hne Hall. now apply column_mean_length.
  - exists m. split; [reflexivity|]. split; [exact Hm|].
    split; [exact Hd|]. split; [exact Hr|]. split; [exact Hc|].
    split.
    + exact (Hrows 0 ltac:(lia)).
    + exact (Hrows 1 ltac:(lia)).
Defined.

(** C3, as stated, on an object whose range runs past the last feature:
    the dataset has 4 features and [[2, 7]] is accepted with [num_comps]
    5.  The fit reads columns 2 and 3 and returns; the mean of two columns
    does not fit into a row of 5, so [_get_mean_response] raises for
    labels 0 and 1. *)
Lemma get_mean_response_range_overrun :
  exists self,
    example_init "KMeans" (CIter [2; 7]) = Ok self /\
    num_comps self = 5 /\
    sliced_main Z string self = Ok [[3; 4]; [30; 40]; [5; 6]] /\
    _fit Z Q string int_to_real
         (fun _ _ => Ok (mk_int_array (IntT 32) [0; 1; 0])) self
    = Ok (mk_int_array (IntT 32) [0; 1; 0]) /\
    Reorder.labels_cover 2 [0; 1; 0] /\
    _get_mean_response Z Q 0 string int_to_real column_mean real_to_int
      self [0; 1; 0] = Raise (ValueError "could not broadcast input array").
Proof.
  eexists. split; [reflexivity|]. split; [reflexivity|].
  split; [reflexivity|]. split; [reflexivity|]. split.
  - intros x. simpl. lia.
  - vm_compute. reflexivity.
Qed.

Section InitFacts.

Context {src estimator : Type}.
Variable checkIfMain : matrix src -> bool.
Variable instantiate : string -> list Z -> kwargs_t -> outcome estimator.
Variable cpu_count : Z.
Variable check_dtype : matrix src -> outcome (bool * bool * Z * Z * Z).

Lemma dict_get_app_last (key : string) (v : Z) (d : kwargs_t) :
  dict_get key (dict_remove key d ++ [(key, v)]) = Some v.
Proof.
  unfold dict_get, dict_remove.
  induction d as [|[k w] d IH]; simpl.
  - now rewrite String.eqb_refl.
  - destruct (String.eqb k key) eqn:E; simpl; [exact IH|].
    now rewrite E.
Qed.

Lemma allowed_methods_spec (method : string) :
  existsb (String.eqb method) allowed_methods = true <-> In method allowed_methods.
Proof.
  rewrite existsb_exists. split.
  - intros (x & Hx & E). apply String.eqb_eq in E. now subst.
  - intros H. exists method. split; [exact H|apply String.eqb_refl].
Qed.

(** X17: the checks of the constructor: a dataset that is not a main dataset is
    rejected first, then a method outside the allow-list, each with its own
    [TypeError] and before the estimator is instantiated; for an allowed
    method the object is built once the library calls return. *)
Theorem init_gate (h5 : matrix src) (method : string) (comps : components)
    (args : list Z) (kwargs : kwargs_t) :
  let init := __init__ src estimator checkIfMain instantiate cpu_count check_dtype
                       h5 method comps args kwargs in
  (checkIfMain h5 = false -> init = Raise (TypeError not_main_msg)) /\
  (checkIfMain h5 = true -> ~ In method allowed_methods ->
   init = Raise (TypeError (cannot_work_msg method))) /\
  (checkIfMain h5 = true -> In method allowed_methods ->
   forall kw est sel retval,
     kw = dict_remove "n_jobs" kwargs
          ++ [("n_jobs"%string,
               match dict_get "n_jobs" kwargs with
               | Some v => v
               | None => Z.max 1 (cpu_count - 2)
               end)] ->
     instantiate method args kw = Ok est ->
     _get_component_slice (ncols h5) comps = Ok sel ->
     check_dtype h5 = Ok retval ->
     init = Ok (mk_cluster h5 est method (snd sel) (fst sel) retval)).
Proof.
  cbv zeta. unfold __init__. repeat split.
  - intros ->. reflexivity.
  - intros -> Hn. cbn [negb].
    destruct (existsb (String.eqb method) allowed_methods) eqn:E; [|reflexivity].
    apply allowed_methods_spec in E. contradiction.
  - intros -> Hin kw est sel retval -> Hi Hs Hc. cbn [negb].
    apply allowed_methods_spec in Hin. rewrite Hin. cbn [negb].
    rewrite Hi. cbn [Py.bind]. rewrite Hs. cbn [Py.bind]. rewrite Hc.
    reflexivity.
Qed.

(** C6, where the code departs from it: [__init__] passes [n_jobs] to
    every estimator, so an allowed method whose class does not take that
    keyword cannot be constructed, whatever the caller passes. *)
Theorem init_n_jobs_rejected (h5 : matrix src) (method : string)
    (comps : components) (args : list Z) (kwargs : kwargs_t) (e : exn) :
  checkIfMain h5 = true ->
  In method allowed_methods ->
  (forall kw v, dict_get "n_jobs" kw = Some v -> instantiate method args kw = Raise e) ->
  __init__ src estimator checkIfMain instantiate cpu_count check_dtype
           h5 method comps args kwargs = Raise e.
Proof.
  intros Hm Hin Hrej. unfold __init__. rewrite Hm. cbn [negb].
  apply allowed_methods_spec in Hin. rewrite Hin. cbn [negb].
  erewrite Hrej; [reflexivity|]. apply dict_get_app_last.
Qed.

End InitFacts.

Lemma init_n_jobs_rejected_witness :
  In "Birch"%string allowed_methods /\
  example_init "Birch" CNone
  = Raise (TypeError "__init__() got an unexpected keyword argument 'n_jobs'").
Proof.
  split; [simpl; tauto|].
  apply (init_n_jobs_rejected (fun _ => true) sklearn_instantiate 4 example_check_dtype).
  - reflexivity.
  - simpl. tauto.
  - intros kw v H. unfold sklearn_instantiate. cbn [existsb String.eqb].
    simpl. now rewrite H.
Defined.

(** C4, where the code departs from it: an integer selection of 2 of the 4
    features.  The reduced pair is written into the group, but Mean_Response
    is linked to the spectroscopic pair of the source. *)
Lemma write_to_hdf5_integer_subset :
  exists self grp,
    example_init "KMeans" (CInt 2) = Ok self /\
    num_comps self = 2 /\ ncols (h5_main self) = 4 /\
    _write_to_hdf5 Z string example_spec_vals self
                   (mk_int_array (IntT 32) [0; 1; 0])
                   (mk_matrix (IntT 32) 2 [[2; 3]; [10; 20]]) = Ok grp /\
    In "Mean_Response_Indices"%string (children grp) /\
    In "Mean_Response_Values"%string (children grp) /\
    linked_to_source_pair (centroid_spec_links grp) /\
    ~ linked_to_reduced_pair (centroid_spec_links grp).
Proof.
  eexists. eexists. split; [reflexivity|].
  split; [reflexivity|]. split; [reflexivity|].
  split; [reflexivity|]. cbn.
  split; [tauto|]. split; [tauto|]. split; [reflexivity|].
  unfold linked_to_reduced_pair. discriminate.
Qed.

(** The same defect from the other side: an index list that names every
    feature.  No reduced pair is written, and the lookup of its reference
    fails. *)
Lemma write_to_hdf5_full_index_list :
  exists self,
    example_init "KMeans" (CIter [0; 1; 2; 3]) = Ok self /\
    num_comps self = ncols (h5_main self) /\
    _write_to_hdf5 Z string example_spec_vals self
                   (mk_int_array (IntT 32) [0; 1; 0])
                   (mk_matrix (IntT 32) 4 [[2; 3; 4; 5]; [10; 20; 30; 40]])
    = Raise (IndexError "list index out of range").
Proof.
  eexists. split; [reflexivity|]. split; reflexivity.
Qed.

Section WriteFacts.

Context {src estimator : Type}.
Variable spectroscopic_values : matrix src -> list (list Q).

Lemma select_array_bounds (n : Z) (a pos : list Z) :
  select_columns n (ArraySel a) = Ok pos ->
  pos = a /\ Forall (fun i => 0 <= i < n) a.
Proof.
  unfold select_columns.
  destruct (forallb _ a) eqn:Ef; cbn [negb]; [|discriminate].
  destruct (increasing a); cbn [negb]; [|discriminate].
  intros H. injection H as <-. split; [reflexivity|].
  apply Forall_forall. intros x Hx.
  rewrite forallb_forall in Ef. specialize (Ef x Hx). lia.
Qed.

(** X16: which pair Mean_Response is linked to depends on the kind of
    [data_slice[1]] alone: a slice (integer, pair or [None] selection)
    always gives the source pair, whether or not a strict subset was
    selected; an index array gives the reduced pair when it was written.
    The index array is applied to the rows of Spectroscopic_Values, so the
    write returns only when every index is the number of such a row. *)
Theorem write_to_hdf5_links (self : cluster src estimator) (labels : int_array)
    (mean_response : matrix src) (grp : cluster_group src) :
  _write_to_hdf5 src estimator spectroscopic_values self labels mean_response
  = Ok grp ->
  (In "Mean_Response_Indices"%string (children grp) <->
   num_comps self <> ncols (h5_main self)) /\
  match data_slice1 self with
  | SliceSel _ => linked_to_source_pair (centroid_spec_links grp)
  | ArraySel a =>
      num_comps self <> ncols (h5_main self) /\
      linked_to_reduced_pair (centroid_spec_links grp) /\
      Forall (fun i =>
                0 <= i < Z.of_nat (length (spectroscopic_values (h5_main self))))
             a /\
      exists vals,
        centroid_values grp = Some vals /\
        take (spectroscopic_values (h5_main self)) a = Ok vals
  end.
Proof.
  unfold _write_to_hdf5.
  destruct (Z.eqb_spec (num_comps self) (ncols (h5_main self))) as [E|E];
    cbn [negb].
  - destruct (data_slice1 self) as [s|a]; cbn.
    + intros H. injection H as <-. cbn. split; [|reflexivity].
      split; [intros H; repeat destruct H as [H|H]; discriminate || contradiction|contradiction].
    + discriminate.
  - destruct (data_slice1 self) as [s|a].
    + cbn [read_rows Py.bind].
      destruct (slice_components s) as [c|e]; cbn; [|discriminate].
      intros H. injection H as <-. cbn. split; [|reflexivity].
      split; [intros _; exact E|intros _; tauto].
    + unfold read_rows.
      destruct (select_columns _ (ArraySel a)) as [pos|e] eqn:Es;
        [|discriminate].
      apply select_array_bounds in Es. destruct Es as [-> Hall].
      cbn [Py.bind].
      destruct (take _ a) as [vals|e] eqn:Et; [|discriminate].
      cbn. intros H. injection H as <-. cbn.
      split; [split; [intros _; exact E|intros _; tauto]|].
      split; [exact E|]. split; [reflexivity|]. split; [exact Hall|].
      now exists vals.
Qed.

End WriteFacts.

End ClusterRunFacts.

(* --------------------------------------------------------------------- *)
(** *** G-mode IV: the arithmetic of [_read_parms] *)
(* --------------------------------------------------------------------- *)

Module GIVParmsFacts.
Import Fs GIV.

Lemma length_getslice {A : Type} (l : list A) (a b : Z) :
  0 <= a <= b -> b <= Z.of_nat (length l) ->
  Z.of_nat (length (getslice l (mkslice (Some a) (Some b)))) = b - a.
Proof.
  intros Ha Hb. unfold getslice, slice_indices, adjust_index. cbn [start stop].
  destruct (Z.ltb_spec a 0), (Z.ltb_spec b 0); try lia.
  rewrite !Z.min_l by lia.
  rewrite length_firstn, length_skipn. lia.
Qed.



Section Facts.

Variable float32 : Q -> Q.


End Facts.


End GIVParmsFacts.

(* --------------------------------------------------------------------- *)
(** *** Strings and dictionaries *)
(* --------------------------------------------------------------------- *)

Section StringFacts.

Lemma append_inj_l (a x y : string) : (a ++ x)%string = (a ++ y)%string -> x = y.
Proof.
  induction a as [|c a IH]; simpl; intros H; [exact H|].
  injection H as H. now apply IH.
Qed.

Lemma join_inj (folder x y : string) : Str.join folder x = Str.join folder y -> x = y.
Proof.
  unfold Str.join. intros H. apply append_inj_l in H.
  now apply (append_inj_l "/") in H.
Qed.

Lemma length_append (a b : string) :
  String.length (a ++ b) = (String.length a + String.length b)%nat.
Proof. induction a as [|c a IH]; simpl; [reflexivity|now rewrite IH]. Qed.

Lemma substring_append_skip (a t : string) (k n : nat) :
  String.substring (String.length a + k) n (a ++ t) = String.substring k n t.
Proof. induction a as [|c a IH]; simpl; [reflexivity|exact IH]. Qed.

(** A suffix that fits in the last part decides [endswith]. *)
Lemma endswith_append (a t suffix : string) :
  (String.length suffix <= String.length t)%nat ->
  Str.endswith (a ++ t) suffix = Str.endswith t suffix.
Proof.
  intros H. unfold Str.endswith. rewrite length_append.
  replace (String.length a + String.length t - String.length suffix)%nat
    with (String.length a + (String.length t - String.length suffix))%nat by lia.
  rewrite substring_append_skip.
  destruct (Nat.leb_spec (String.length suffix) (String.length t)); [|lia].
  destruct (Nat.leb_spec (String.length suffix)
                         (String.length a + String.length t)); [|lia].
  reflexivity.
Qed.

End StringFacts.

Section DictFacts.

Context {V : Type}.

Lemma dict_get_set_eq (k : string) (v : V) (d : list (string * V)) :
  Dict.get String.eqb k (Dict.set String.eqb k v d) = Some v.
Proof.
  unfold Dict.get. induction d as [|[k' v'] d IH]; simpl.
  - now rewrite String.eqb_refl.
  - destruct (String.eqb k' k) eqn:E; simpl.
    + now rewrite String.eqb_refl.
    + rewrite E. exact IH.
Qed.

Lemma dict_get_set_ne (k k0 : string) (v : V) (d : list (string * V)) :
  k0 <> k ->
  Dict.get String.eqb k0 (Dict.set String.eqb k v d) = Dict.get String.eqb k0 d.
Proof.
  intros Hne. unfold Dict.get. induction d as [|[k' v'] d IH]; simpl.
  - destruct (String.eqb_spec k k0); [congruence|reflexivity].
  - destruct (String.eqb_spec k' k) as [->|Hk]; simpl.
    + destruct (String.eqb_spec k k0); [congruence|reflexivity].
    + destruct (String.eqb_spec k' k0); [reflexivity|exact IH].
Qed.

Lemma dict_keys_set_present (k : string) (v v0 : V) (d : list (string * V)) :
  Dict.get String.eqb k d = Some v0 ->
  Dict.keys (Dict.set String.eqb k v d) = Dict.keys d.
Proof.
  unfold Dict.get, Dict.keys. induction d as [|[k' v'] d IH]; simpl; [discriminate|].
  destruct (String.eqb_spec k' k) as [->|Hk]; simpl; [reflexivity|].
  intros H. f_equal. now apply IH.
Qed.

Lemma dict_get_remove_eq (k : string) (d : list (string * V)) :
  Dict.get String.eqb k (Dict.remove String.eqb k d) = None.
Proof.
  unfold Dict.get, Dict.remove. induction d as [|[k' v'] d IH]; simpl; [reflexivity|].
  destruct (String.eqb k' k) eqn:E; simpl; [exact IH|]. now rewrite E.
Qed.

Lemma dict_keys_remove (k : string) (d : list (string * V)) :
  ~ In k (Dict.keys (Dict.remove String.eqb k d)).
Proof.
  unfold Dict.keys, Dict.remove. rewrite in_map_iff.
  intros ([k' v'] & E & Hin). simpl in E. subst k'.
  apply filter_In in Hin. destruct Hin as [_ H]. simpl in H.
  now rewrite String.eqb_refl in H.
Qed.

End DictFacts.

(** A run written as the pair of its result and its final world: the
    result is evaluated, the world is left as the projection. *)
Ltac run_to_pair :=
  match goal with
  | |- ?t = (_, snd ?t) =>
      transitivity (fst t, snd t);
      [apply surjective_pairing|f_equal; vm_compute; reflexivity]
  end.

(* --------------------------------------------------------------------- *)
(** *** Commands: inversion and invariants *)
(* --------------------------------------------------------------------- *)

Module IOFacts.
Import IO.

Section Triples.

Context {W : Type}.

Lemma triple_ret {A : Type} (P : W -> Prop) (a : A) (Q : A -> W -> Prop) :
  (forall w, P w -> Q a w) -> triple P (IO.ret a) Q.
Proof. intros H w Hw. now apply H. Qed.

Lemma triple_raise {A : Type} (P : W -> Prop) (e : exn) (Q : A -> W -> Prop) :
  triple P (IO.raise e) Q.
Proof. intros w Hw. exact I. Qed.

Lemma triple_lift {A : Type} (P : W -> Prop) (o : outcome A) (Q : A -> W -> Prop) :
  (forall a w, o = Ok a -> P w -> Q a w) -> triple P (IO.lift o) Q.
Proof.
  intros H w Hw. unfold IO.lift. destruct o as [a|e]; [|exact I]. now apply H.
Qed.

Lemma triple_get (P : W -> Prop) (Q : W -> W -> Prop) :
  (forall w, P w -> Q w w) -> triple P IO.get Q.
Proof. intros H w Hw. now apply H. Qed.

Lemma triple_modify (P : W -> Prop) (f : W -> W) (Q : unit -> W -> Prop) :
  (forall w, P w -> Q tt (f w)) -> triple P (IO.modify f) Q.
Proof. intros H w Hw. now apply H. Qed.

Lemma triple_bind {A B : Type} (P : W -> Prop) (m : IO.M W A) (k : A -> IO.M W B)
    (R : A -> W -> Prop) (Q : B -> W -> Prop) :
  triple P m R -> (forall a, triple (R a) (k a) Q) -> triple P (IO.bind m k) Q.
Proof.
  intros Hm Hk w Hw. unfold IO.bind. specialize (Hm w Hw).
  destruct (m w) as [[a|e] w1]; [|exact I]. now apply Hk.
Qed.

Lemma triple_weaken {A : Type} (P P' : W -> Prop) (m : IO.M W A)
    (Q Q' : A -> W -> Prop) :
  triple P' m Q' -> (forall w, P w -> P' w) -> (forall a w, Q' a w -> Q a w) ->
  triple P m Q.
Proof.
  intros H HP HQ w Hw. specialize (H w (HP w Hw)).
  destruct (m w) as [[a|e] w1]; [|exact I]. now apply HQ.
Qed.

(** A loop keeps an invariant indexed by the items done so far. *)
Lemma triple_for_each {X : Type} (Inv : list X -> W -> Prop)
    (body : X -> IO.M W unit) (l : list X) :
  (forall done x, triple (Inv done) (body x) (fun _ => Inv (done ++ [x]))) ->
  forall done, triple (Inv done) (IO.for_each l body) (fun _ => Inv (done ++ l)).
Proof.
  intros Hbody. induction l as [|x l IH]; intros done.
  - apply triple_ret. intros w Hw. now rewrite app_nil_r.
  - cbn [IO.for_each]. eapply triple_bind; [apply Hbody|].
    intros ?. eapply triple_weaken; [apply (IH (done ++ [x]))|auto|].
    intros ? w Hw. now rewrite <- app_assoc in Hw.
Qed.

Lemma triple_map_each {X Y : Type} (Inv : list X -> W -> Prop) (R : Y -> Prop)
    (body : X -> IO.M W Y) (l : list X) :
  (forall done x,
     triple (Inv done) (body x) (fun y w => Inv (done ++ [x]) w /\ R y)) ->
  forall done,
    triple (Inv done) (IO.map_each l body)
           (fun ys w => Inv (done ++ l) w /\ Forall R ys).
Proof.
  intros Hbody. induction l as [|x l IH]; intros done.
  - apply triple_ret. intros w Hw. rewrite app_nil_r. now split.
  - cbn [IO.map_each]. eapply triple_bind; [apply Hbody|].
    intros y. cbv beta.
    intros w [Hw Hy]. unfold IO.bind.
    pose proof (IH (done ++ [x]) w Hw) as Hrest.
    destruct (IO.map_each l body w) as [[ys|e] w1]; [|exact I].
    destruct Hrest as [Hinv Hys]. cbn. rewrite <- app_assoc in Hinv.
    split; [exact Hinv|]. now constructor.
Qed.

(** What a returning command says about the triple it satisfies. *)
Lemma triple_run {A : Type} (P : W -> Prop) (m : IO.M W A) (Q : A -> W -> Prop)
    (w w' : W) (a : A) :
  triple P m Q -> P w -> m w = (Ok a, w') -> Q a w'.
Proof. intros H Hw E. specialize (H w Hw). now rewrite E in H. Qed.

Lemma bind_inv {A B : Type} (m : IO.M W A) (k : A -> IO.M W B) (w w' : W)
    (r : outcome B) :
  IO.bind m k w = (r, w') ->
  (exists a w1, m w = (Ok a, w1) /\ k a w1 = (r, w')) \/
  (exists e, m w = (Raise e, w') /\ r = Raise e).
Proof.
  unfold IO.bind. destruct (m w) as [[a|e] w1]; intros H.
  - left. now exists a, w1.
  - right. injection H as <- <-. now exists e.
Qed.

(** A returning sequence: its first command returned. *)
Lemma bind_ok {A B : Type} (m : IO.M W A) (k : A -> IO.M W B) (w w' : W) (b : B) :
  IO.bind m k w = (Ok b, w') ->
  exists a w1, m w = (Ok a, w1) /\ k a w1 = (Ok b, w').
Proof.
  intros H. apply bind_inv in H.
  destruct H as [H|(e & _ & H)]; [exact H|discriminate].
Qed.

End Triples.

End IOFacts.

(* --------------------------------------------------------------------- *)
(** *** The folder: what the commands do to it *)
(* --------------------------------------------------------------------- *)

Module FsFacts.
Import Str MicroData Fs IO IOFacts.

Lemma lift_inv {W A : Type} (o : outcome A) (w w' : W) (r : outcome A) :
  IO.lift o w = (r, w') -> r = o /\ w' = w.
Proof. unfold IO.lift. intros H. injection H as <- <-. now split. Qed.

Lemma read_inv (path : string) (w w' : world) (r : outcome file) :
  read path w = (r, w') -> w' = w.
Proof.
  unfold read. destruct (name_of_path w path) as [name|].
  - destruct (Dict.get String.eqb name (entries w)); intros H; now injection H.
  - intros H. now injection H.
Qed.

Lemma read_missing (path : string) (w : world) :
  path_exists w path = false -> read path w = (Raise (IOError path), w).
Proof.
  unfold path_exists, read. now destruct (name_of_path w path).
Qed.

Lemma name_of_path_join (w : world) (path name : string) :
  name_of_path w path = Some name -> path = join (folder_path w) name.
Proof.
  unfold name_of_path.
  destruct (List.find _ (entries w)) as [e|] eqn:E; [|discriminate].
  cbn. intros H. injection H as <-.
  apply find_some in E. destruct E as [_ E]. apply String.eqb_eq in E.
  now symmetry.
Qed.

Lemma name_of_path_present (w : world) (name : string) :
  In name (Dict.keys (entries w)) ->
  name_of_path w (join (folder_path w) name) = Some name.
Proof.
  unfold name_of_path, Dict.keys. intros Hin.
  induction (entries w) as [|[k v] d IH]; [contradiction|]. cbn [List.find fst].
  destruct (String.eqb_spec (join (folder_path w) k) (join (folder_path w) name))
    as [E|E].
  - apply join_inj in E. now subst.
  - apply IH. destruct Hin as [Hin|Hin]; [|exact Hin].
    cbn in Hin. subst k. contradiction.
Qed.

Lemma name_of_path_absent (w : world) (name : string) :
  ~ In name (Dict.keys (entries w)) ->
  name_of_path w (join (folder_path w) name) = None.
Proof.
  unfold name_of_path, Dict.keys. intros Hin.
  induction (entries w) as [|[k v] d IH]; [reflexivity|]. cbn [List.find fst].
  destruct (String.eqb_spec (join (folder_path w) k) (join (folder_path w) name))
    as [E|E].
  - apply join_inj in E. subst k. exfalso. apply Hin. now left.
  - apply IH. intros H. apply Hin. now right.
Qed.

Lemma path_exists_iff (w : world) (name : string) :
  path_exists w (join (folder_path w) name) = true
  <-> In name (Dict.keys (entries w)).
Proof.
  unfold path_exists. split.
  - intros H. destruct (in_dec String.string_dec name (Dict.keys (entries w)))
      as [Hin|Hin]; [exact Hin|].
    now rewrite (name_of_path_absent w name Hin) in H.
  - intros Hin. now rewrite (name_of_path_present w name Hin).
Qed.

(** After [os.remove] the path is gone. *)
Lemma remove_spec (w : world) (name : string) :
  path_exists w (join (folder_path w) name) = true ->
  exists w', remove (join (folder_path w) name) w = (Ok tt, w') /\
             folder_path w' = folder_path w /\ folder_name w' = folder_name w /\
             warnings w' = warnings w /\
             entries w' = Dict.remove String.eqb name (entries w) /\
             path_exists w' (join (folder_path w) name) = false.
Proof.
  intros Hex. apply path_exists_iff in Hex.
  unfold remove. rewrite (name_of_path_present w name Hex).
  eexists. split; [reflexivity|]. cbn. repeat split.
  destruct (path_exists _ _) eqn:E; [|reflexivity].
  change (folder_path w) with
    (folder_path (set_entries w (Dict.remove String.eqb name (entries w)))) in E.
  apply path_exists_iff in E. cbn in E. now apply dict_keys_remove in E.
Qed.

Lemma dict_keys_set_incl {V : Type} (k k0 : string) (v : V) (d : list (string * V)) :
  In k0 (Dict.keys d) -> In k0 (Dict.keys (Dict.set String.eqb k v d)).
Proof.
  unfold Dict.keys. induction d as [|[k' v'] d IH]; [contradiction|].
  cbn. destruct (String.eqb_spec k' k) as [->|Hk]; cbn; intros [H|H]; auto.
Qed.

Lemma dict_keys_set_in {V : Type} (k : string) (v : V) (d : list (string * V)) :
  In k (Dict.keys (Dict.set String.eqb k v d)).
Proof.
  unfold Dict.keys. induction d as [|[k' v'] d IH]; cbn; [now left|].
  destruct (String.eqb_spec k' k) as [->|Hk]; cbn; auto.
Qed.

Lemma has_output_exists (folder h5_name : string) (w : world) :
  has_output folder h5_name w -> path_exists w (join folder h5_name) = true.
Proof. intros [<- H]. now apply path_exists_iff. Qed.

Lemma with_h5_inv {X : Type} (n : string) (op : h5file -> outcome (h5file * X))
    (w w' : world) (x : X) :
  with_h5 n op w = (Ok x, w') ->
  exists sz f f',
    Dict.get String.eqb n (entries w) = Some (mk_file sz (H5 f)) /\
    op f = Ok (f', x) /\
    w' = set_entries w (Dict.set String.eqb n (mk_file sz (H5 f')) (entries w)).
Proof.
  unfold with_h5.
  destruct (Dict.get String.eqb n (entries w)) as [[sz [| | | | | |f|]]|];
    try discriminate.
  destruct (op f) as [[f' x']|e] eqn:E; [|discriminate].
  intros H. injection H as <- <-. now exists sz, f, f'.
Qed.

Lemma with_h5_keeps_output {X : Type} (folder h5_name n : string)
    (op : h5file -> outcome (h5file * X)) :
  triple (has_output folder h5_name) (with_h5 n op)
         (fun _ => has_output folder h5_name).
Proof.
  intros w [Hf Hin]. destruct (with_h5 n op w) as [[x|e] w'] eqn:E; [|exact I].
  apply with_h5_inv in E. destruct E as (sz & f & f' & _ & _ & ->).
  split; [exact Hf|]. cbn. now apply dict_keys_set_incl.
Qed.

Lemma read_keeps {A : Type} (P : world -> Prop) (path : string)
    (k : file -> IO.M world A) (Q : A -> world -> Prop) :
  (forall f, triple P (k f) Q) -> triple P (IO.bind (read path) k) Q.
Proof.
  intros Hk w Hw. unfold IO.bind.
  destruct (read path w) as [[f|e] w1] eqn:E; [|exact I].
  apply read_inv in E. subst w1. now apply Hk.
Qed.

Lemma warn_keeps_output (folder h5_name msg : string) :
  triple (has_output folder h5_name) (warn msg) (fun _ => has_output folder h5_name).
Proof. intros w [Hf Hin]. now split. Qed.

Lemma commit_channel_keeps_output (folder h5_name n : string) (g : MicroDataGroup) :
  triple (has_output folder h5_name) (commit_channel n g)
         (fun _ => has_output folder h5_name).
Proof.
  unfold commit_channel.
  eapply triple_bind; [apply with_h5_keeps_output|]. intros refs.
  apply triple_bind with (R := fun _ => has_output folder h5_name).
  { apply triple_lift. auto. }
  intros h5_main.
  eapply triple_bind; [apply with_h5_keeps_output|]. intros ?.
  apply triple_ret. auto.
Qed.

Lemma write_row_keeps_output (folder h5_name n p : string) (i : Z) (v : list Q) :
  triple (has_output folder h5_name) (write_row n p i v)
         (fun _ => has_output folder h5_name).
Proof. apply with_h5_keeps_output. Qed.

Lemma for_each_keeps {X : Type} (P : world -> Prop) (l : list X)
    (body : X -> IO.M world unit) :
  (forall x, triple P (body x) (fun _ => P)) ->
  triple P (IO.for_each l body) (fun _ => P).
Proof.
  intros H. apply (triple_for_each (fun _ => P) body l (fun _ x => H x) []).
Qed.

Lemma remove_output (w : world) :
  (if path_exists w (join (folder_path w) (folder_name w ++ ".h5"))
   then remove (join (folder_path w) (folder_name w ++ ".h5"))
   else IO.ret tt) w = (Ok tt, without_output w).
Proof.
  unfold without_output.
  destruct (path_exists w _) eqn:E; [|reflexivity].
  destruct (remove_spec w _ E) as (w' & Hr & _).
  unfold remove in *. apply path_exists_iff in E.
  now rewrite (name_of_path_present w _ E).
Qed.

Lemma without_output_gone (w : world) :
  path_exists (without_output w) (join (folder_path w) (folder_name w ++ ".h5"))
  = false.
Proof.
  unfold without_output. destruct (path_exists w _) eqn:E; [|exact E].
  destruct (remove_spec w _ E) as (w' & Hr & _ & _ & _ & _ & Hgone).
  unfold remove in Hr. apply path_exists_iff in E.
  rewrite (name_of_path_present w _ E) in Hr. now injection Hr as <-.
Qed.

Lemma find_filter_sub {X : Type} (p q : X -> bool) (l : list X) :
  (forall x, p x = true -> q x = true) ->
  List.find p (filter q l) = List.find p l.
Proof.
  intros H. induction l as [|x l IH]; [reflexivity|]. cbn [filter List.find].
  destruct (p x) eqn:Ep.
  - rewrite (H x Ep). cbn [List.find]. now rewrite Ep.
  - destruct (q x); [cbn [List.find]; rewrite Ep|]; exact IH.
Qed.

(** A file that can be read once the earlier output is deleted is a file
    of the folder as it was. *)
Lemma read_after_removal (w w1 : world) (path : string) (f : file) :
  read path (without_output w) = (Ok f, w1) -> read path w = (Ok f, w).
Proof.
  intros H. pose proof (without_output_gone w) as Hgone. revert H Hgone.
  unfold without_output.
  destruct (path_exists w (join (folder_path w) (folder_name w ++ ".h5"))) eqn:Ex.
  2:{ intros H _. pose proof (read_inv _ _ _ _ H) as ->. exact H. }
  set (h5_name := (folder_name w ++ ".h5")%string).
  set (w2 := set_entries w (Dict.remove String.eqb h5_name (entries w))).
  intros H Hgone.
  assert (Hne : path <> join (folder_path w) h5_name).
  { intros ->. rewrite (read_missing _ _ Hgone) in H. discriminate. }
  assert (Hname : name_of_path w2 path = name_of_path w path).
  { unfold name_of_path. cbn [w2 set_entries entries folder_path]. f_equal.
    unfold Dict.remove. apply find_filter_sub. intros [k v] Hk. cbn [fst] in *.
    apply String.eqb_eq in Hk. apply negb_true_iff.
    apply String.eqb_neq. intros ->. now apply Hne. }
  unfold read in *. rewrite Hname in H.
  destruct (name_of_path w path) as [name|] eqn:En; [|discriminate].
  assert (Hget : Dict.get String.eqb name (entries w2)
                 = Dict.get String.eqb name (entries w)).
  { unfold Dict.get. cbn [w2 set_entries entries]. unfold Dict.remove.
    rewrite find_filter_sub; [reflexivity|]. intros [k v] Hk. cbn [fst] in *.
    apply String.eqb_eq in Hk. subst k. apply negb_true_iff.
    apply String.eqb_neq. intros ->. apply Hne.
    now apply name_of_path_join. }
  rewrite Hget in H.
  destruct (Dict.get String.eqb name (entries w)); [|discriminate].
  now injection H as -> _.
Qed.

Lemma getsize_reads (path : string) (w w' : world) (sz : Z) :
  getsize path w = (Ok sz, w') ->
  w' = w /\ exists f, read path w = (Ok f, w) /\ fsize f = sz.
Proof.
  unfold getsize. intros H. apply bind_ok in H.
  destruct H as (f & w1 & E1 & E2).
  pose proof (read_inv _ _ _ _ E1) as ->.
  cbn in E2. injection E2 as <- <-. split; [reflexivity|]. now exists f.
Qed.

End FsFacts.

(* --------------------------------------------------------------------- *)
(** *** G-line: a missing parameter file, and the outcomes of a run *)
(* --------------------------------------------------------------------- *)

Module GLineFacts.
Import Str MicroData Fs IO IOFacts FsFacts GLine.

Lemma parse_step_no_mat (folder : string) (pp pp' : list (string * string))
    (dp dp' : list (Z * string)) (n : string) :
  endswith n "_all.mat" = false ->
  parse_step folder (pp, dp) n = Ok (pp', dp') ->
  Dict.get String.eqb "parm_mat"%string pp = None ->
  Dict.get String.eqb "parm_mat"%string pp' = None.
Proof.
  intros Hn. unfold parse_step. rewrite Hn.
  match goal with
  | |- Py.bind ?m _ = _ -> _ => destruct m as [dp1|e]; [|discriminate]
  end.
  cbn [Py.bind]. intros H. injection H as <- <-.
  destruct (endswith n ".txt" && (0 <? find n "parm")); [|auto].
  intros Hp. rewrite dict_get_set_ne; [exact Hp|discriminate].
Qed.

Lemma parse_no_mat (folder : string) (names : list string) :
  Forall (fun n => endswith n "_all.mat" = false) names ->
  forall st st',
    foldM (parse_step folder) names st = Ok st' ->
    Dict.get String.eqb "parm_mat"%string (fst st) = None ->
    Dict.get String.eqb "parm_mat"%string (fst st') = None.
Proof.
  induction 1 as [|n names Hn _ IH]; intros st st'; cbn [foldM].
  - intros H. now injection H as <-.
  - destruct (parse_step folder st n) as [[pp1 dp1]|e] eqn:E; [|discriminate].
    cbn [Py.bind]. intros Hrest Hst. apply (IH _ _ Hrest). cbn [fst].
    destruct st as [pp dp]. eapply parse_step_no_mat; eauto.
Qed.

Section Facts.

Variable float32 : Q -> Q.
Variable float16 : Q -> Q.

(** C5, where the G-line translator departs from it: in a folder without an
    [_all.mat] file, [translate] first deletes the output of an earlier
    translation and only then fails, with a [KeyError] for the missing
    dictionary entry. *)
Theorem translate_missing_mat (w : world) (parsed : string * list (string * string) * list (Z * string)) :
  Forall (fun n => endswith n "_all.mat" = false) (listdir w) ->
  _parse_file_path w = Ok parsed ->
  translate float32 float16 w = (Raise (KeyError "parm_mat"), without_output w) /\
  (path_exists w (join (folder_path w) (folder_name w ++ ".h5")) = true ->
   path_exists (without_output w) (join (folder_path w) (folder_name w ++ ".h5"))
   = false).
Proof.
  intros Hno Hparse. split; [|intros _; apply without_output_gone].
  unfold translate. unfold IO.bind at 1. cbn [IO.get].
  unfold IO.bind at 1. unfold IO.lift at 1. rewrite Hparse.
  unfold _parse_file_path in Hparse.
  destruct (foldM _ _ _) as [st|e] eqn:Est; [|discriminate].
  cbn [Py.bind] in Hparse. injection Hparse as <-.
  unfold IO.bind at 1. rewrite remove_output.
  unfold IO.bind at 1. unfold IO.lift at 1.
  pose proof (parse_no_mat _ _ Hno _ _ Est eq_refl) as Hnone.
  unfold lookup. rewrite Hnone. reflexivity.
Qed.

End Facts.

Lemma translate_missing_mat_witness :
  path_exists example_world_no_mat "/data/exp/exp.h5" = true /\
  fst (translate exact exact example_world_no_mat) = Raise (KeyError "parm_mat") /\
  path_exists (snd (translate exact exact example_world_no_mat)) "/data/exp/exp.h5"
  = false.
Proof.
  destruct (translate_missing_mat exact exact example_world_no_mat
              ("exp"%string, [("parm_txt"%string, "/data/exp/exp_parms.txt"%string)],
               [(0, "/data/exp/exp_bigtime_00.dat"%string)]))
    as [Ht Hgone].
  - repeat constructor.
  - reflexivity.
  - split; [reflexivity|]. rewrite Ht. split; [reflexivity|].
    apply Hgone. reflexivity.
Defined.

Section Outcomes.

Variable float32 : Q -> Q.
Variable float16 : Q -> Q.

Lemma read_data_keeps_output (folder h5_name : string) (num_rows bpr : Z)
    (filepath h5_dset : string) :
  triple (has_output folder h5_name)
         (_read_data float16 h5_name num_rows bpr filepath h5_dset)
         (fun _ => has_output folder h5_name).
Proof.
  unfold _read_data. apply read_keeps. intros f.
  apply for_each_keeps. intros row.
  apply triple_bind with (R := fun _ => has_output folder h5_name).
  { apply triple_lift. auto. }
  intros vec. apply write_row_keeps_output.
Qed.

(** Once the rows are known to be whole, a run that returns has written the
    translated file and returns its path. *)
Lemma write_file_output (folder h5_name h5_path : string) (be_wave : list Q)
    (num_cols expected_rows ppp file_size num_rows : Z) (parm_dict : attrs_t)
    (data_paths : list (Z * string)) :
  triple (fun w => folder_path w = folder)
         (write_file float32 float16 folder h5_name h5_path be_wave num_cols
                     expected_rows ppp file_size num_rows parm_dict data_paths)
         (fun r w' => r = Some h5_path /\ has_output folder h5_name w').
Proof.
  unfold write_file.
  apply triple_bind with (R := fun _ w => folder_path w = folder);
    [apply triple_lift; auto|intros samp_rate].
  apply triple_bind with (R := fun _ w => folder_path w = folder);
    [apply triple_lift; auto|intros ex_freq].
  apply triple_bind with (R := fun _ w => folder_path w = folder).
  { destruct (Qeq_bool samp_rate (inject_Z 0));
      [apply triple_raise|apply triple_ret; auto]. }
  intros ?.
  apply triple_bind with (R := fun _ w => folder_path w = folder).
  { destruct (num_rows =? 0); [apply triple_raise|apply triple_ret; auto]. }
  intros ?.
  apply triple_bind with (R := fun _ => has_output folder h5_name).
  { apply triple_modify. intros w Hw. split; [exact Hw|]. cbn.
    apply dict_keys_set_in. }
  intros ?.
  eapply triple_bind; [apply with_h5_keeps_output|]. intros ?.
  apply triple_bind with (R := fun _ => has_output folder h5_name);
    [apply triple_lift; auto|intros pos].
  apply triple_bind with (R := fun _ => has_output folder h5_name);
    [apply triple_lift; auto|intros spec].
  apply triple_bind with (R := fun _ => has_output folder h5_name);
    [apply triple_lift; auto|intros tiled].
  apply triple_bind with (R := fun _ => has_output folder h5_name).
  { apply for_each_keeps. intros f_index.
    eapply triple_bind; [apply commit_channel_keeps_output|]. intros h5_main.
    destruct (Dict.get Z.eqb f_index data_paths);
      [apply read_data_keeps_output|apply triple_raise]. }
  intros ?. apply triple_ret. auto.
Qed.

Lemma loadmat_reads (path : string) (w w' : world) (be : list Q) (nc nr : Z) :
  loadmat path w = (Ok (be, nc, nr), w') ->
  w' = w /\ exists f, read path w = (Ok f, w) /\ fdata f = MatParms be nc nr.
Proof.
  unfold loadmat. intros H. apply bind_ok in H.
  destruct H as (f & w1 & E1 & E2).
  pose proof (read_inv _ _ _ _ E1) as ->.
  destruct (fdata f) eqn:Ef; cbn in E2; try discriminate.
  injection E2 as <- <- <- <-. split; [reflexivity|]. now exists f.
Qed.

Lemma parmsToDict_keeps (path : string) (w w' : world) (r : outcome attrs_t) :
  parmsToDict path w = (r, w') -> w' = w.
Proof.
  unfold parmsToDict. intros E. apply bind_inv in E.
  destruct E as [(f & w3 & E1 & E2)|(e & E1 & _)].
  - apply read_inv in E1. subst w3.
    destruct (fdata f); cbn in E2; now injection E2.
  - now apply read_inv in E1.
Qed.

(** C7 (amended): [translate] either raises, or returns the path of the
    translated file, which then exists, or warns and returns [None], and
    then there is no translated file.  The two returns are told apart by
    the data file with index 0: a path is returned only when its byte size
    is a whole multiple of the row size [4 * len(BE_wave) * num_cols],
    [None] only when it is not. *)
Theorem translate_outcomes (w w' : world) (r : outcome (option string)) :
  translate float32 float16 w = (r, w') ->
  let h5_path := join (folder_path w) (folder_name w ++ ".h5") in
  match r with
  | Raise _ => True
  | Ok res =>
      exists BE_wave num_cols file_size,
        row_layout w BE_wave num_cols file_size /\
        let row_bytes := 4 * Z.of_nat (length BE_wave) * num_cols in
        row_bytes <> 0 /\
        match res with
        | Some p =>
            file_size mod row_bytes = 0 /\
            p = h5_path /\ path_exists w' h5_path = true
        | None =>
            file_size mod row_bytes <> 0 /\
            In incomplete_rows_msg (warnings w') /\
            path_exists w' h5_path = false
        end
  end.
Proof.
  intros H h5_path. unfold translate in H.
  apply bind_inv in H. destruct H as [(w0 & w1 & E & H)|(e & _ & ->)]; [|exact I].
  cbn in E. injection E as <- <-.
  apply bind_inv in H. destruct H as [(parsed & w1 & E & H)|(e & _ & ->)]; [|exact I].
  apply lift_inv in E. destruct E as [Hparse ->].
  destruct parsed as [[basename parm_paths] data_paths].
  assert (Hb : basename = folder_name w).
  { unfold _parse_file_path in Hparse.
    destruct (foldM _ _ _); [|discriminate]. cbn in Hparse. congruence. }
  subst basename.
  apply bind_inv in H. destruct H as [(u & w1 & E & H)|(e & _ & ->)]; [|exact I].
  rewrite remove_output in E. injection E as <- <-.
  pose proof (without_output_gone w) as Hgone.
  assert (Hfolder : folder_path (without_output w) = folder_path w).
  { unfold without_output. now destruct (path_exists w _). }
  pose proof (read_after_removal w) as Hread.
  set (w1 := without_output w) in *. clearbody w1.
  apply bind_inv in H. destruct H as [(mat_path & w2 & E & H)|(e & _ & ->)]; [|exact I].
  apply lift_inv in E. destruct E as [Hmat ->].
  apply bind_inv in H. destruct H as [(matread & w2 & E & H)|(e & _ & ->)]; [|exact I].
  destruct matread as [[BE_wave num_cols] expected_rows].
  apply loadmat_reads in E. destruct E as (-> & fmat & Hfmat & Hmatdata).
  apply bind_inv in H. destruct H as [(txt_path & w2 & E & H)|(e & _ & ->)]; [|exact I].
  apply lift_inv in E. destruct E as [_ ->].
  apply bind_inv in H. destruct H as [(parm_dict & w2 & E & H)|(e & _ & ->)]; [|exact I].
  apply parmsToDict_keeps in E. subst w2.
  apply bind_inv in H. destruct H as [(path0 & w2 & E & H)|(e & _ & ->)]; [|exact I].
  apply lift_inv in E. destruct E as [Hdat ->].
  apply bind_inv in H. destruct H as [(file_size & w2 & E & H)|(e & _ & ->)]; [|exact I].
  apply getsize_reads in E. destruct E as (-> & fdat & Hfdat & Hsize).
  assert (Hlayout : row_layout w BE_wave num_cols file_size).
  { exists parm_paths, data_paths, mat_path, path0, fmat, fdat, expected_rows.
    split; [symmetry; exact Hparse|].
    split.
    { unfold lookup in Hmat.
      destruct (Dict.get String.eqb "parm_mat"%string parm_paths); congruence. }
    split; [exact (Hread _ _ _ Hfmat)|]. split; [exact Hmatdata|].
    split.
    { destruct (Dict.get Z.eqb 0 data_paths); congruence. }
    split; [exact (Hread _ _ _ Hfdat)|exact Hsize]. }
  rewrite length_map in H.
  destruct (Z.eqb_spec (4 * Z.of_nat (length BE_wave) * num_cols) 0) as [E0|E0].
  { cbn in H. injection H as <- <-. exact I. }
  destruct (Z.eqb_spec (file_size mod (4 * Z.of_nat (length BE_wave) * num_cols)) 0)
    as [Em|Em]; cbn [negb] in H.
  - (* whole rows *)
    pose proof (write_file_output (folder_path w) (folder_name w ++ ".h5") h5_path
                  (map float32 BE_wave) num_cols expected_rows
                  (Z.of_nat (length BE_wave)) file_size
                  (file_size / (4 * Z.of_nat (length BE_wave) * num_cols))
                  parm_dict data_paths w1 Hfolder) as Ht.
    fold h5_path in H. rewrite H in Ht.
    destruct r as [[p|]|e]; [|destruct Ht; discriminate|exact I].
    destruct Ht as [Hp Hout].
    exists BE_wave, num_cols, file_size. split; [exact Hlayout|].
    split; [exact E0|]. split; [exact Em|]. split; [congruence|].
    now apply has_output_exists.
  - (* incomplete rows *)
    cbn in H. injection H as <- <-.
    exists BE_wave, num_cols, file_size. split; [exact Hlayout|].
    split; [exact E0|]. split; [exact Em|]. cbn. split.
    + apply in_or_app. right. now left.
    + exact Hgone.
Qed.

End Outcomes.

(** C7, as stated, on a data file of 40 bytes with rows of 16 bytes: the
    run neither raises nor returns a path; it warns and returns [None], and
    the output of the earlier translation is gone. *)
Lemma translate_incomplete_rows :
  path_exists example_world_incomplete "/data/exp/exp.h5" = true /\
  fst (translate exact exact example_world_incomplete) = Ok None /\
  warnings (snd (translate exact exact example_world_incomplete))
  = [incomplete_rows_msg] /\
  path_exists (snd (translate exact exact example_world_incomplete))
              "/data/exp/exp.h5" = false /\
  ~ ((exists p, fst (translate exact exact example_world_incomplete) = Ok (Some p)) \/
     (exists e, fst (translate exact exact example_world_incomplete) = Raise e)).
Proof.
  repeat split; try reflexivity.
  intros [[p H]|[e H]]; vm_compute in H; discriminate.
Qed.

Lemma translate_outcomes_witness :
  (fst (translate exact exact example_world) = Ok (Some "/data/exp/exp.h5"%string) /\
   path_exists (snd (translate exact exact example_world)) "/data/exp/exp.h5" = true /\
   exists BE_wave num_cols file_size,
     row_layout example_world BE_wave num_cols file_size /\
     file_size mod (4 * Z.of_nat (length BE_wave) * num_cols) = 0) /\
  (fst (translate exact exact example_world_incomplete) = Ok None /\
   path_exists (snd (translate exact exact example_world_incomplete))
               "/data/exp/exp.h5" = false /\
   exists BE_wave num_cols file_size,
     row_layout example_world_incomplete BE_wave num_cols file_size /\
     file_size mod (4 * Z.of_nat (length BE_wave) * num_cols) <> 0).
Proof.
  split.
  - pose proof (translate_outcomes exact exact example_world
                  (snd (translate exact exact example_world))
                  (fst (translate exact exact example_world))) as H.
    assert (E : fst (translate exact exact example_world)
                = Ok (Some "/data/exp/exp.h5"%string)) by (vm_compute; reflexivity).
    rewrite E in H.
    destruct (H (surjective_pairing _)) as (be & nc & sz & Hl & _ & Hm & _ & Hex).
    split; [reflexivity|]. split; [exact Hex|].
    exists be, nc, sz. split; [exact Hl|exact Hm].
  - pose proof (translate_outcomes exact exact example_world_incomplete
                  (snd (translate exact exact example_world_incomplete))
                  (fst (translate exact exact example_world_incomplete))) as H.
    assert (E : fst (translate exact exact example_world_incomplete) = Ok None)
      by (vm_compute; reflexivity).
    rewrite E in H.
    destruct (H (surjective_pairing _)) as (be & nc & sz & Hl & _ & Hm & _ & Hex).
    split; [reflexivity|]. split; [exact Hex|].
    exists be, nc, sz. split; [exact Hl|exact Hm].
Defined.

End GLineFacts.

(* --------------------------------------------------------------------- *)
(** *** G-mode IV: rows that cannot be read *)
(* --------------------------------------------------------------------- *)

Module GIVRowFacts.
Import Str MicroData Fs IO IOFacts FsFacts GIV.

Lemma range_app (a b c : Z) : a <= b <= c -> range a c = range a b ++ range b c.
Proof.
  intros H. remember (Z.to_nat (b - a)) as n eqn:En.
  revert a En H. induction n as [|n IH]; intros a En H.
  - assert (a = b) by lia. subst a. now rewrite (range_empty b b) by lia.
  - rewrite (range_cons a c), (range_cons a b) by lia. cbn [app]. f_equal.
    apply IH; lia.
Qed.

Lemma for_each_app {W X : Type} (l1 l2 : list X) (body : X -> IO.M W unit) (w : W) :
  IO.for_each (l1 ++ l2) body w
  = IO.bind (IO.for_each l1 body) (fun _ => IO.for_each l2 body) w.
Proof.
  revert w. induction l1 as [|x l1 IH]; intros w; [reflexivity|].
  cbn [app IO.for_each]. unfold IO.bind.
  destruct (body x w) as [[u|e] w1]; [|reflexivity].
  rewrite IH. reflexivity.
Qed.

Lemma for_each_keeps_in {W X : Type} (P : W -> Prop) (l : list X)
    (body : X -> IO.M W unit) :
  (forall x, In x l -> triple P (body x) (fun _ => P)) ->
  triple P (IO.for_each l body) (fun _ => P).
Proof.
  induction l as [|x l IH]; intros H.
  - apply triple_ret. auto.
  - cbn [IO.for_each]. eapply triple_bind; [apply H; now left|].
    intros ?. apply IH. intros y Hy. apply H. now right.
Qed.

Lemma nth_error_update_ne {A : Type} (l : list A) (j i : nat) (r : A) :
  i <> j -> (j < length l)%nat ->
  nth_error (firstn j l ++ r :: skipn (S j) l) i = nth_error l i.
Proof.
  intros Hne Hj.
  destruct (Nat.ltb_spec i j) as [Hlt|Hge].
  - rewrite nth_error_app1 by (rewrite length_firstn; lia).
    rewrite nth_error_firstn.
    destruct (Nat.ltb_spec i j); [reflexivity|lia].
  - rewrite nth_error_app2 by (rewrite length_firstn; lia).
    rewrite length_firstn, Nat.min_l by lia.
    destruct (i - j)%nat as [|k] eqn:Ek; [lia|]. cbn [nth_error].
    rewrite nth_error_skipn. f_equal. lia.
Qed.

Lemma same_sources_refl (w : world) : same_sources w w.
Proof. repeat split. intros name. now left. Qed.

Lemma kept_refl (h5_name : string) (i : Z) (w : world) : kept h5_name i w w.
Proof. split; [apply same_sources_refl|]. split; [reflexivity|apply incl_refl]. Qed.

Lemma name_of_path_keys (w w' : world) (path : string) :
  folder_path w' = folder_path w ->
  Dict.keys (entries w') = Dict.keys (entries w) ->
  name_of_path w' path = name_of_path w path.
Proof.
  unfold name_of_path, Dict.keys. intros -> Hk.
  revert Hk. generalize (entries w). generalize (entries w').
  induction l as [|[k v] l IH]; intros [|[k0 v0] l0] Hk; try discriminate;
    [reflexivity|].
  cbn in Hk. injection Hk as -> Hk. cbn [List.find fst].
  destruct (String.eqb _ path); [reflexivity|]. now apply IH.
Qed.


Lemma open_line_ok (path : string) (w : world) (shape1 : Z) (data : list (list Q)) :
  open_line path w = (Ok (shape1, data), w) ->
  exists name sz,
    name_of_path w path = Some name /\
    Dict.get String.eqb name (entries w) = Some (mk_file sz (LineMat shape1 data)).
Proof.
  unfold open_line, IO.bind, read.
  destruct (name_of_path w path) as [name|]; [|discriminate].
  destruct (Dict.get String.eqb name (entries w)) as [[sz c]|] eqn:Eg;
    [|discriminate].
  destruct c; cbn; try discriminate.
  intros H. inversion H; subst. now exists name, sz.
Qed.



Lemma h5_set_row_other (f f' : h5file) (p : string) (j : Z) (vec : list Q) (i : nat) :
  h5_set_row f p j vec = Ok f' -> 0 <= j -> i <> Z.to_nat j ->
  forall path,
    match persisted f' path with Some rows => nth_error rows i | None => None end
    = match persisted f path with Some rows => nth_error rows i | None => None end.
Proof.
  unfold h5_set_row, persisted. intros H Hj Hne path.
  destruct (Dict.get String.eqb p (h5_datasets f)) as [d|] eqn:Ed; [|discriminate].
  match type of H with
  | Py.bind ?m _ = _ => destruct m as [vec'|e]; [|discriminate]
  end.
  cbn [Py.bind] in H. unfold setrow, norm_index in H.
  destruct (Z.ltb_spec j 0); [lia|].
  destruct ((0 <=? j) && (j <? Z.of_nat (length (h5_data d)))) eqn:Eb;
    [|discriminate].
  cbn [Py.bind] in H. injection H as <-. cbn [h5_datasets].
  destruct (String.eqb_spec path p) as [->|Hp].
  - rewrite dict_get_set_eq, Ed. cbn [option_map h5_data].
    apply nth_error_update_ne; [exact Hne|]. lia.
  - now rewrite dict_get_set_ne.
Qed.

Lemma write_row_kept (h5_name p : string) (j i : Z) (vec : list Q) (w0 : world) :
  0 <= j -> 0 <= i -> i <> j ->
  triple (kept h5_name i w0) (write_row h5_name p j vec)
         (fun _ => kept h5_name i w0).
Proof.
  intros Hj Hi Hne w (Hs & Hd & Hw).
  destruct (write_row h5_name p j vec w) as [[u|e] w'] eqn:E; [|exact I].
  apply with_h5_inv in E. destruct E as (sz & f & f' & Hget & Hop & ->).
  destruct (h5_set_row f p j vec) as [f1|e] eqn:Eset; [|discriminate].
  cbn in Hop. injection Hop as <-.
  split; [|split].
  - destruct Hs as (Hfp & Hk & Hg). split; [exact Hfp|]. split.
    + cbn [entries set_entries]. now rewrite (dict_keys_set_present _ _ _ _ Hget).
    + intros name. cbn [entries set_entries].
      destruct (String.eqb_spec name h5_name) as [->|Hn].
      * rewrite dict_get_set_eq. right.
        destruct (Hg h5_name) as [E|(sz0 & f0 & f0' & E0 & E1)].
        -- exists sz, f, f1. split; [congruence|reflexivity].
        -- exists sz0, f0, f1. split; [exact E0|]. congruence.
      * rewrite dict_get_set_ne by exact Hn. apply Hg.
  - intros path. rewrite <- Hd. unfold data_row, data_at, h5_of.
    cbn [entries set_entries]. rewrite dict_get_set_eq, Hget.
    apply (h5_set_row_other f f1 p j vec (Z.to_nat i) Eset Hj). lia.
  - exact Hw.
Qed.

Lemma warn_kept (h5_name msg : string) (i : Z) (w0 : world) :
  triple (kept h5_name i w0) (warn msg) (fun _ => kept h5_name i w0).
Proof.
  intros w (Hs & Hd & Hw). split; [exact Hs|]. split; [exact Hd|].
  cbn. now apply incl_appl.
Qed.

Lemma open_line_keeps (P : world -> Prop) (path : string) :
  triple P (open_line path) (fun _ => P).
Proof.
  unfold open_line. apply read_keeps. intros f.
  destruct (fdata f); (apply triple_raise || (apply triple_ret; auto)).
Qed.

(** The iteration for another row leaves row [i] as it is. *)
Lemma read_line_kept (float16 : Q -> Q) (parm_dict : parms) (folder h5_name : string)
    (raw_datasets : list string) (i j : Z) (w0 : world) :
  0 <= j -> 0 <= i -> i <> j ->
  triple (kept h5_name i w0)
         (read_line float16 parm_dict folder h5_name raw_datasets j)
         (fun _ => kept h5_name i w0).
Proof.
  intros Hj Hi Hne. unfold read_line.
  apply triple_bind with (R := fun _ => kept h5_name i w0);
    [apply triple_get; auto|intros w1].
  destruct (path_exists w1 (line_file folder j)); [|apply warn_kept].
  eapply triple_bind; [apply open_line_keeps|]. intros [shape1 data].
  destruct ((excitation_length parm_dict <=? Z.of_nat (length data)) &&
            (shape1 =? Z.of_nat (length raw_datasets))).
  - apply for_each_keeps. intros ch.
    apply triple_bind with (R := fun _ => kept h5_name i w0);
      [apply triple_lift; auto|intros column].
    now apply write_row_kept.
  - now apply warn_kept.
Qed.

Section Facts.

Variable float16 : Q -> Q.


End Facts.

(** The run of the example: the second line is missing, the third is too
    short; both rows stay at 0 and the run returns. *)
Example translate_example_rows :
  let r := translate exact exact "parms.mat" example_world in
  fst r = Ok "/data/giv/giv.h5"%string /\
  warnings (snd r) = ["File not found for: line 1"; "No data found for Line 2"]%string /\
  data_row (snd r) "giv.h5" "/Measurement_000/Channel_000/Raw_Data" 0
  = Some (map inject_Z [10; 11; 12; 13; 14; 15; 16; 17; 18; 19]) /\
  data_row (snd r) "giv.h5" "/Measurement_000/Channel_000/Raw_Data" 1
  = Some (repeat (inject_Z 0) 10) /\
  data_row (snd r) "giv.h5" "/Measurement_000/Channel_000/Raw_Data" 2
  = Some (repeat (inject_Z 0) 10).
Proof. vm_compute. repeat split. Qed.


(** X18: the G-mode IV translator on a folder without its parameter file: the
    run stops at the opening of the file, with the error of the reader, and
    the folder is as it was. *)
Lemma translate_missing_parms (float32 float16 : Q -> Q) (parm_name : string)
    (w : world) :
  path_exists w (join (folder_path w) parm_name) = false ->
  translate float32 float16 parm_name w
  = (Raise (IOError (join (folder_path w) parm_name)), w).
Proof.
  intros H. unfold translate, IO.bind at 1. cbn [IO.get].
  unfold IO.bind at 1, open_parms, IO.bind at 1.
  now rewrite (read_missing _ _ H).
Qed.

End GIVRowFacts.

(* --------------------------------------------------------------------- *)
(** *** The commit of a channel and the Spectroscopic_Values dataset *)
(* --------------------------------------------------------------------- *)

Module CommitFacts.
Import Str MicroData Fs IO IOFacts FsFacts.

Lemma is_spec_values_join (gpath name : string) :
  (8 <= String.length name)%nat ->
  is_spec_values (h5_join gpath name) = is_spec_values name.
Proof.
  intros H. unfold is_spec_values, h5_join.
  destruct (endswith gpath "/").
  - now apply endswith_append.
  - rewrite (endswith_append gpath ("/" ++ name)) by (cbn; lia).
    now apply (endswith_append "/" name).
Qed.

Lemma vals_inv_set (wfm : list (list Q)) (f : h5file) (p : string) (d : h5dataset) :
  vals_inv wfm f ->
  (is_spec_values p = true -> h5_data d = wfm) ->
  vals_inv wfm (mk_h5file (h5_groups f) (Dict.set String.eqb p d (h5_datasets f))).
Proof.
  intros Hf Hd q d'. cbn [h5_datasets].
  destruct (String.eqb_spec q p) as [->|Hq].
  - rewrite dict_get_set_eq. intros E Hs. injection E as <-. now apply Hd.
  - rewrite dict_get_set_ne by exact Hq. apply Hf.
Qed.

Lemma present_set (f : h5file) (p q : string) (d : h5dataset) :
  Dict.get String.eqb q (h5_datasets f) <> None ->
  Dict.get String.eqb q (Dict.set String.eqb p d (h5_datasets f)) <> None.
Proof.
  destruct (String.eqb_spec q p) as [->|Hq].
  - rewrite dict_get_set_eq. discriminate.
  - now rewrite dict_get_set_ne.
Qed.

Lemma all_present_set (paths : list string) (f : h5file) (p : string) (d : h5dataset) (g : list (string * attrs_t)) :
  all_present paths f ->
  all_present paths (mk_h5file g (Dict.set String.eqb p d (h5_datasets f))).
Proof.
  unfold all_present. intros H. eapply Forall_impl; [|exact H].
  intros q Hq. cbn [h5_datasets]. now apply present_set.
Qed.

(** What one child of a commit does to the invariant. *)
Lemma write_child_inv (wfm : list (list Q)) (paths : list string) (gpath : string)
    (f : h5file) (refs : list (string * string)) (c : child) :
  vals_inv wfm f -> all_present paths f -> child_ok wfm c ->
  let st := write_child gpath (f, refs) c in
  vals_inv wfm (fst st) /\ all_present paths (fst st) /\
  (forall d, c = ChildDataset d ->
     Dict.get String.eqb (h5_join gpath (ds_name d)) (h5_datasets (fst st)) <> None) /\
  (forall n p, In (n, p) (snd st) -> In (n, p) refs \/ p = h5_join gpath n).
Proof.
  intros Hv Hp Hc. destruct c as [d|name attrs]; cbn.
  - destruct Hc as [Hlen Hd]. repeat split.
    + apply vals_inv_set; [exact Hv|]. intros Hs. apply Hd.
      now rewrite is_spec_values_join in Hs.
    + now apply all_present_set.
    + intros d0 E. injection E as <-. rewrite dict_get_set_eq. discriminate.
    + intros n p Hin. apply in_app_or in Hin. destruct Hin as [Hin|[E|[]]]; auto.
      injection E as <- <-. now right.
  - repeat split; auto.
    + discriminate.
    + intros n p Hin. apply in_app_or in Hin. destruct Hin as [Hin|[E|[]]]; auto.
      injection E as <- <-. now right.
Qed.

Lemma write_children_inv (wfm : list (list Q)) (paths : list string) (gpath : string)
    (children : list child) :
  Forall (child_ok wfm) children ->
  forall (f : h5file) (refs : list (string * string)),
    vals_inv wfm f -> all_present paths f ->
    let st := fold_left (write_child gpath) children (f, refs) in
    vals_inv wfm (fst st) /\ all_present paths (fst st) /\
    (forall d, In (ChildDataset d) children ->
       Dict.get String.eqb (h5_join gpath (ds_name d)) (h5_datasets (fst st)) <> None) /\
    (forall n p, In (n, p) (snd st) -> In (n, p) refs \/ p = h5_join gpath n).
Proof.
  induction 1 as [|c children Hc _ IH]; intros f refs Hv Hp; cbn [fold_left].
  - repeat split; auto.
  - destruct (write_child_inv wfm paths gpath f refs c Hv Hp Hc)
      as (Hv1 & Hp1 & Hnew & Hrefs).
    destruct (write_child gpath (f, refs) c) as [f1 refs1] eqn:E.
    cbn [fst snd] in *.
    destruct (IH f1 refs1 Hv1 Hp1) as (Hv2 & Hp2 & Hnew2 & Hrefs2).
    split; [exact Hv2|]. split; [exact Hp2|]. split.
    + intros d [->|Hin]; [|now apply Hnew2].
      (* the dataset written first is still there *)
      clear - Hnew. specialize (Hnew d eq_refl).
      revert f1 refs1 Hnew. induction children as [|c' cs IHc]; intros f1 refs1 Hnew;
        cbn [fold_left]; [exact Hnew|].
      destruct c' as [d'|n' a']; cbn [write_child]; apply IHc; cbn [h5_datasets];
        [now apply present_set|exact Hnew].
    + intros n p Hin. destruct (Hrefs2 n p Hin) as [H1|H1]; [|now right].
      apply Hrefs. exact H1.
Qed.

Lemma writeData_inv (wfm : list (list Q)) (paths : list string) (f : h5file)
    (g : MicroDataGroup) :
  vals_inv wfm f -> all_present paths f ->
  Forall (child_ok wfm) (grp_children g) ->
  let gpath := (grp_parent g ++ grp_name g)%string in
  let r := writeData f g in
  vals_inv wfm (fst r) /\ all_present paths (fst r) /\
  (forall d, In (ChildDataset d) (grp_children g) ->
     Dict.get String.eqb (h5_join gpath (ds_name d)) (h5_datasets (fst r)) <> None) /\
  (forall n p, In (n, p) (snd r) ->
     (n = grp_name g /\ p = gpath) \/ p = h5_join gpath n).
Proof.
  intros Hv Hp Hc gpath r. subst r. unfold writeData. fold gpath.
  destruct (write_children_inv wfm paths gpath (grp_children g) Hc
              (mk_h5file (Dict.set String.eqb gpath (grp_attrs g) (h5_groups f))
                         (h5_datasets f))
              [(grp_name g, gpath)] Hv Hp) as (H1 & H2 & H3 & H4).
  repeat split; auto.
  intros n p Hin. destruct (H4 n p Hin) as [[E|[]]|E]; [|now right].
  injection E as <- <-. now left.
Qed.

Lemma linkRefs_inv (wfm : list (list Q)) (paths : list string) (f : h5file)
    (target : string) (refs : list (string * string)) :
  vals_inv wfm f -> all_present paths f ->
  vals_inv wfm (linkRefs f target refs) /\ all_present paths (linkRefs f target refs).
Proof.
  intros Hv Hp. unfold linkRefs.
  destruct (Dict.get String.eqb target (h5_datasets f)) as [d|] eqn:E; [|now split].
  split.
  - apply vals_inv_set; [exact Hv|]. intros Hs. cbn. now apply (Hv target d).
  - now apply all_present_set.
Qed.

Lemma h5_set_row_inv (wfm : list (list Q)) (paths : list string) (f f' : h5file)
    (p : string) (j : Z) (vec : list Q) :
  is_spec_values p = false ->
  h5_set_row f p j vec = Ok f' ->
  vals_inv wfm f -> all_present paths f ->
  vals_inv wfm f' /\ all_present paths f'.
Proof.
  intros Hs H Hv Hp. unfold h5_set_row in H.
  destruct (Dict.get String.eqb p (h5_datasets f)) as [d|]; [|discriminate].
  match type of H with
  | Py.bind ?m _ = _ => destruct m as [vec'|e]; [|discriminate]
  end.
  cbn [Py.bind] in H.
  destruct (setrow (h5_data d) j vec') as [rows|e]; [|discriminate].
  cbn [Py.bind] in H. injection H as <-. split.
  - apply vals_inv_set; [exact Hv|]. rewrite Hs. discriminate.
  - now apply all_present_set.
Qed.

Lemma h5_of_set (w : world) (n : string) (sz : Z) (f : h5file) :
  h5_of (set_entries w (Dict.set String.eqb n (mk_file sz (H5 f)) (entries w))) n
  = Some f.
Proof. unfold h5_of. cbn [entries set_entries]. now rewrite dict_get_set_eq. Qed.

(** A change of the translated file that keeps the invariant. *)
Lemma with_h5_out {X : Type} (n : string) (wfm : list (list Q))
    (paths paths' : list string) (R : X -> Prop)
    (op : h5file -> outcome (h5file * X)) :
  (forall f f' x, vals_inv wfm f -> all_present paths f -> op f = Ok (f', x) ->
                  vals_inv wfm f' /\ all_present paths' f' /\ R x) ->
  triple (out_inv n wfm paths) (with_h5 n op)
         (fun x w' => out_inv n wfm paths' w' /\ R x).
Proof.
  intros Hop w (f & Hf & Hv & Hp).
  destruct (with_h5 n op w) as [[x|e] w'] eqn:E; [|exact I].
  apply with_h5_inv in E. destruct E as (sz & f0 & f' & Hg & Ho & ->).
  assert (f0 = f) as ->.
  { unfold h5_of in Hf. rewrite Hg in Hf. now injection Hf. }
  destruct (Hop f f' x Hv Hp Ho) as (Hv' & Hp' & Hx).
  split; [|exact Hx]. exists f'. split; [apply h5_of_set|now split].
Qed.

Lemma all_present_app (paths more : list string) (f : h5file) :
  all_present paths f -> all_present more f -> all_present (paths ++ more) f.
Proof. intros H1 H2. apply Forall_app. now split. Qed.

(** The commit of a channel group whose children respect the invariant:
    its datasets are there afterwards, and the reference of the main dataset
    is not that of a Spectroscopic_Values dataset. *)
Lemma commit_channel_inv (n : string) (wfm : list (list Q)) (paths : list string)
    (g : MicroDataGroup) (d : MicroDataset) :
  Forall (child_ok wfm) (grp_children g) ->
  grp_name g <> "Raw_Data"%string ->
  In (ChildDataset d) (grp_children g) ->
  triple (out_inv n wfm paths) (commit_channel n g)
         (fun h5_main w' =>
            out_inv n wfm
              (paths ++ [h5_join (grp_parent g ++ grp_name g) (ds_name d)]) w' /\
            is_spec_values h5_main = false).
Proof.
  intros Hc Hname Hd. unfold commit_channel.
  set (new := [h5_join (grp_parent g ++ grp_name g) (ds_name d)]).
  apply triple_bind with
    (R := fun refs w => out_inv n wfm (paths ++ new) w /\
            forall nm p, In (nm, p) refs ->
              (nm = grp_name g /\ p = (grp_parent g ++ grp_name g)%string) \/
              p = h5_join (grp_parent g ++ grp_name g) nm).
  { apply with_h5_out. intros f f' refs Hv Hp E. injection E as E.
    destruct (writeData_inv wfm paths f g Hv Hp Hc) as (H1 & H2 & H3 & H4).
    rewrite E in *. cbn [fst snd] in *. subst.
    split; [exact H1|]. split; [|exact H4].
    apply all_present_app; [exact H2|]. constructor; [|constructor].
    now apply H3. }
  intros refs.
  apply triple_bind with
    (R := fun h5_main w => out_inv n wfm (paths ++ new) w /\
                           is_spec_values h5_main = false).
  { apply triple_lift. intros h5_main w E [Hw Hrefs]. split; [exact Hw|].
    unfold getH5DsetRefs in E.
    destruct (filter _ refs) as [|[nm p] rest] eqn:Ef; [discriminate|].
    cbn in E. injection E as <-.
    assert (Hin : In (nm, p) (filter (fun r => existsb (String.eqb (fst r))
                                                  ["Raw_Data"%string]) refs)).
    { rewrite Ef. now left. }
    apply filter_In in Hin. destruct Hin as [Hin Hnm]. cbn in Hnm.
    rewrite orb_false_r in Hnm. apply String.eqb_eq in Hnm. subst nm.
    destruct (Hrefs _ _ Hin) as [[E _]| ->]; [now symmetry in E|].
    now rewrite is_spec_values_join by (cbn; lia). }
  intros h5_main.
  apply triple_bind with
    (R := fun _ w => out_inv n wfm (paths ++ new) w /\
                     is_spec_values h5_main = false).
  { intros w [Hw Hs].
    pose proof (with_h5_out n wfm (paths ++ new) (paths ++ new) (fun _ : unit => True)
                  (fun h5 => Ok (linkRefs h5 h5_main
                     (filter (fun r => existsb (String.eqb (fst r)) aux_ds_names) refs),
                     tt))) as T.
    specialize (T (fun f f' x Hv Hp E =>
                     ltac:(injection E as <- _;
                           destruct (linkRefs_inv wfm (paths ++ new) f h5_main
                                       (filter (fun r => existsb (String.eqb (fst r))
                                                           aux_ds_names) refs) Hv Hp);
                           repeat split; assumption)) w Hw).
    destruct (with_h5 n _ w) as [[x|e] w']; [|exact I].
    split; [apply T|exact Hs]. }
  intros ?. apply triple_ret. auto.
Qed.

(** Writing a row of a main dataset keeps the invariant. *)
Lemma write_row_inv (n : string) (wfm : list (list Q)) (paths : list string)
    (p : string) (j : Z) (vec : list Q) :
  is_spec_values p = false ->
  triple (out_inv n wfm paths) (write_row n p j vec) (fun _ => out_inv n wfm paths).
Proof.
  intros Hs. unfold write_row.
  eapply triple_weaken;
    [apply (with_h5_out n wfm paths paths (fun _ : unit => True))|auto|cbv beta; tauto].
  intros f f' x Hv Hp E.
  destruct (h5_set_row f p j vec) as [f1|e] eqn:Er; [|discriminate].
  cbn [Py.bind] in E. injection E as <- _.
  destruct (h5_set_row_inv wfm paths f f1 p j vec Hs Er Hv Hp). now repeat split.
Qed.

(** The file as [create_h5] and the commit of the root group leave it. *)
Lemma create_h5_inv (n : string) (wfm : list (list Q)) (P : world -> Prop) :
  triple P (create_h5 n) (fun _ => out_inv n wfm []).
Proof.
  apply triple_modify. intros w _. exists empty_h5.
  split; [apply h5_of_set|]. split; [|constructor].
  intros p d H. discriminate.
Qed.

Lemma root_commit_inv (n : string) (wfm : list (list Q)) (attrs meas : attrs_t) :
  triple (out_inv n wfm [])
         (with_h5 n (fun h5 => Ok (writeData h5
                       (mk_group "" "/" attrs [ChildGroup "Measurement_000" meas]))))
         (fun _ => out_inv n wfm []).
Proof.
  eapply triple_weaken;
    [apply (with_h5_out n wfm [] [] (fun _ => True))|auto|cbv beta; tauto].
  intros f f' x Hv Hp E.
  destruct (writeData_inv wfm [] f
              (mk_group "" "/" attrs [ChildGroup "Measurement_000" meas]) Hv Hp)
    as (H1 & H2 & _); [repeat constructor|].
  injection E as <- <-. split; [exact H1|]. split; [exact H2|exact I].
Qed.

(** What the invariant says of a Spectroscopic_Values dataset. *)
Lemma out_inv_data (n : string) (wfm : list (list Q)) (paths : list string)
    (w : world) (gpath : string) :
  out_inv n wfm paths w ->
  In (h5_join gpath "Spectroscopic_Values") paths ->
  data_at w n (h5_join gpath "Spectroscopic_Values") = Some wfm.
Proof.
  intros (f & Hf & Hv & Hp) Hin. unfold data_at. rewrite Hf. unfold persisted.
  unfold all_present in Hp. rewrite Forall_forall in Hp. specialize (Hp _ Hin).
  destruct (Dict.get String.eqb _ (h5_datasets f)) as [d|] eqn:E; [|contradiction].
  cbn. f_equal. apply (Hv _ _ E).
  now rewrite is_spec_values_join by (cbn; lia).
Qed.

(** The names and the reserved space of a pair of ancillary datasets. *)
Lemma build_ind_val_dsets_names (dims : list Z) (is_spectral : bool)
    (steps inits : option (list Q)) (labels units : list string)
    (ind val : MicroDataset) :
  build_ind_val_dsets dims is_spectral steps inits labels units = Ok (ind, val) ->
  let prefix := if is_spectral then "Spectroscopic"%string else "Position"%string in
  ds_name ind = (prefix ++ "_Indices")%string /\
  ds_name val = (prefix ++ "_Values")%string /\
  ds_maxshape ind = None /\ ds_maxshape val = None.
Proof.
  unfold build_ind_val_dsets. destruct (negb _); [discriminate|].
  intros H. injection H as <- <-. now repeat split.
Qed.

Lemma materialize_data (d : MicroDataset) :
  ds_maxshape d = None -> h5_data (materialize d) = ds_data d.
Proof.
  unfold materialize. intros ->. cbn. now destruct (ds_data d).
Qed.

(** The five children of a channel group respect the invariant for the
    data of the Spectroscopic_Values descriptor. *)
Lemma channel_children_ok (pos spec : MicroDataset * MicroDataset)
    (vals raw : MicroDataset) (dims dims' : list Z) (steps steps' inits inits' : option (list Q))
    (labels labels' units units' : list string) :
  build_ind_val_dsets dims false steps inits labels units = Ok pos ->
  build_ind_val_dsets dims' true steps' inits' labels' units' = Ok spec ->
  ds_name vals = "Spectroscopic_Values"%string -> ds_maxshape vals = None ->
  ds_name raw = "Raw_Data"%string ->
  child_ok (ds_data vals) (ChildDataset (fst pos)) /\
  child_ok (ds_data vals) (ChildDataset (snd pos)) /\
  child_ok (ds_data vals) (ChildDataset (fst spec)) /\
  child_ok (ds_data vals) (ChildDataset vals) /\
  child_ok (ds_data vals) (ChildDataset raw).
Proof.
  intros Hpos Hspec Hn Hm Hraw.
  destruct pos as [pi pv], spec as [si sv].
  apply build_ind_val_dsets_names in Hpos, Hspec. cbn [fst snd].
  destruct Hpos as (Hpi & Hpv & _), Hspec as (Hsi & _).
  unfold child_ok. rewrite Hpi, Hpv, Hsi, Hn, Hraw. cbn.
  repeat split; try lia; try discriminate.
  intros _. now apply materialize_data.
Qed.

End CommitFacts.

(* --------------------------------------------------------------------- *)
(** *** The Spectroscopic_Values dataset of the three translators *)
(* --------------------------------------------------------------------- *)

Module SpecValuesFacts.
Import Str MicroData Fs IO IOFacts FsFacts CommitFacts.

Lemma read_then_inv {A : Type} (path : string) (k : file -> IO.M world A)
    (w w' : world) (r : outcome A) :
  (forall f w1, k f w1 = (r, w') -> w' = w1) ->
  IO.bind (read path) k w = (r, w') -> w' = w.
Proof.
  intros Hk H. apply bind_inv in H.
  destruct H as [(f & w1 & E1 & E2)|(e & E1 & _)].
  - apply read_inv in E1. subst w1. now apply Hk in E2.
  - now apply read_inv in E1.
Qed.

Lemma open_parms_inv (path : string) (w w' : world) (r : outcome giv_parm_file) :
  GIV.open_parms path w = (r, w') -> w' = w.
Proof.
  apply read_then_inv. intros f w1.
  destruct (fdata f); cbn; intros H; now injection H.
Qed.

Lemma open_line_inv (path : string) (w w' : world) (r : outcome (Z * list (list Q))) :
  GIV.open_line path w = (r, w') -> w' = w.
Proof.
  apply read_then_inv. intros f w1.
  destruct (fdata f); cbn; intros H; now injection H.
Qed.

Lemma in_enumerate {X : Type} (l : list X) (i : Z) (x : X) :
  In (i, x) (enumerate l) -> In x l.
Proof.
  intros H. apply (in_map snd) in H. unfold enumerate in H.
  now rewrite ReorderFacts.map_snd_enumerate_from in H.
Qed.

Lemma warn_inv (n : string) (wfm : list (list Q)) (paths : list string) (msg : string) :
  triple (out_inv n wfm paths) (warn msg) (fun _ => out_inv n wfm paths).
Proof. apply triple_modify. intros w (f & Hf & Hv). now exists f. Qed.

Section GIV.

Import GIV.

Variable float32 : Q -> Q.
Variable float16 : Q -> Q.

Lemma giv_read_line_inv (n : string) (wfm : list (list Q)) (paths : list string)
    (parm_dict : parms) (folder : string) (raw_datasets : list string) (line_ind : Z) :
  Forall (fun p => is_spec_values p = false) raw_datasets ->
  triple (out_inv n wfm paths)
         (read_line float16 parm_dict folder n raw_datasets line_ind)
         (fun _ => out_inv n wfm paths).
Proof.
  intros Hraw. unfold read_line.
  apply triple_bind with (R := fun _ => out_inv n wfm paths);
    [apply triple_get; auto|intros w0].
  destruct (path_exists w0 _); [|apply warn_inv].
  eapply triple_bind; [apply GIVRowFacts.open_line_keeps|].
  intros [shape1 data]. destruct (_ && _); [|apply warn_inv].
  apply GIVRowFacts.for_each_keeps_in. intros [i p] Hin.
  apply in_enumerate in Hin. rewrite Forall_forall in Hraw.
  apply triple_bind with (R := fun _ => out_inv n wfm paths);
    [apply triple_lift; auto|intros column].
  apply write_row_inv. now apply Hraw.
Qed.

(** G-mode IV: in the file of a run that returns, the Spectroscopic_Values
    dataset of every channel holds the trimmed excitation waveform that
    [_read_parms] returned. *)
Lemma giv_spectroscopic_values (parm_name : string) (w w' : world) (p : string) :
  translate float32 float16 parm_name w = (Ok p, w') ->
  exists h5_f parm_dict excit_wfm num_ai_chans line_data,
    open_parms (join (folder_path w) parm_name) w = (Ok h5_f, w) /\
    _read_parms float32 h5_f = Ok (parm_dict, excit_wfm) /\
    open_line (join (folder_path w) "line_1.mat") (without_output w)
    = (Ok (num_ai_chans, line_data), without_output w) /\
    forall chan, 0 <= chan < num_ai_chans ->
      data_at w' (folder_name w ++ ".h5") (channel_path chan "Spectroscopic_Values")
      = Some [excit_wfm].
Proof.
  intros H. unfold translate in H.
  apply bind_ok in H. destruct H as (w0 & w1 & E & H).
  cbn in E. injection E as <- <-.
  apply bind_ok in H. destruct H as (h5_f & w1 & E & H).
  pose proof (open_parms_inv _ _ _ _ E). subst w1.
  exists h5_f. apply bind_ok in H. destruct H as ([parm_dict excit_wfm] & w1 & E1 & H).
  apply lift_inv in E1. destruct E1 as [E1 ->]. symmetry in E1.
  exists parm_dict, excit_wfm.
  apply bind_ok in H. destruct H as (u & w1 & E2 & H).
  rewrite remove_output in E2. injection E2 as <- <-.
  apply bind_ok in H. destruct H as (spec & w1 & E2 & H).
  apply lift_inv in E2. destruct E2 as [Hspec ->]. symmetry in Hspec.
  apply bind_ok in H. destruct H as (pos & w1 & E2 & H).
  apply lift_inv in E2. destruct E2 as [Hpos ->]. symmetry in Hpos.
  apply bind_ok in H. destruct H as ([num_ai_chans line_data] & w1 & E2 & H).
  pose proof (open_line_inv _ _ _ _ E2). subst w1.
  exists num_ai_chans, line_data.
  split; [exact E|]. split; [exact E1|]. split; [exact E2|].
  set (h5_name := (folder_name w ++ ".h5")%string) in *.
  set (ds_spec_vals := with_data (snd spec) [excit_wfm]) in *.
  destruct (build_ind_val_dsets_names _ _ _ _ _ _ (fst spec) (snd spec)
              ltac:(rewrite Hspec; now destruct spec)) as (_ & Hname & _ & Hmax).
  match type of H with
  | IO.bind _ (fun _ => IO.bind _ (fun _ => IO.bind (IO.map_each _ ?body) _)) _ = _ =>
      assert (Hbody : forall done x,
                 triple (out_inv h5_name [excit_wfm]
                           (map (fun i => channel_path i "Spectroscopic_Values") done))
                        (body x)
                        (fun y w2 =>
                           out_inv h5_name [excit_wfm]
                             (map (fun i => channel_path i "Spectroscopic_Values")
                                  (done ++ [x])) w2 /\
                           is_spec_values y = false))
  end.
  { intros done x. rewrite map_app. cbn [map].
    eapply triple_weaken;
      [apply (commit_channel_inv h5_name [excit_wfm]
                (map (fun i => channel_path i "Spectroscopic_Values") done)
                _ ds_spec_vals)
      |auto
      |intros y w2 [Hw Hy]; split; [|exact Hy];
       cbn [grp_parent grp_name] in Hw;
       change (ds_name ds_spec_vals) with (ds_name (snd spec)) in Hw;
       rewrite Hname in Hw; exact Hw].
    - destruct (channel_children_ok pos spec ds_spec_vals
                  (with_attr
                     (with_attr
                        (mk_dataset "Raw_Data" []
                           (Some (grid_num_rows parm_dict, Z.of_nat (length excit_wfm)))
                           (FloatT 16) [])
                        "quantity" (VStrs ["Current"%string]))
                     "units" (VStrs [("1E-" ++ of_Z (IO_amplifier_gain parm_dict) ++ " A")%string]))
                  _ _ _ _ _ _ _ _ _ _ Hpos Hspec Hname Hmax eq_refl)
        as (C1 & C2 & C3 & C4 & C5).
      cbn [grp_children].
      apply Forall_cons; [exact C1|]. apply Forall_cons; [exact C2|].
      apply Forall_cons; [exact C3|]. apply Forall_cons; [exact C4|].
      apply Forall_cons; [exact C5|]. apply Forall_nil.
    - cbn. discriminate.
    - cbn. tauto. }
  apply bind_ok in H. destruct H as (u1 & w1 & E3 & H).
  pose proof (triple_run _ _ _ _ _ _
                (create_h5_inv h5_name [excit_wfm] (fun _ => True)) I E3) as Hw1.
  apply bind_ok in H. destruct H as (u2 & w2 & E4 & H).
  pose proof (triple_run _ _ _ _ _ _ (root_commit_inv h5_name [excit_wfm] _ _) Hw1 E4)
    as Hw2.
  apply bind_ok in H. destruct H as (raw_datasets & w3 & E5 & H).
  pose proof (triple_run _ _ _ _ _ _
                (triple_map_each _ _ _ (range 0 num_ai_chans) Hbody []) Hw2 E5)
    as [Hw3 Hraw].
  apply bind_ok in H. destruct H as (u3 & w4 & E6 & H).
  cbn in H. injection H as _ <-.
  assert (Hw4 : out_inv h5_name [excit_wfm]
                  (map (fun i => channel_path i "Spectroscopic_Values")
                       (range 0 num_ai_chans)) w4).
  { apply (triple_run
             (out_inv h5_name [excit_wfm]
                (map (fun i => channel_path i "Spectroscopic_Values")
                     (range 0 num_ai_chans)))
             (_read_data float16 parm_dict (folder_path w) h5_name raw_datasets)
             (fun _ => out_inv h5_name [excit_wfm]
                           (map (fun i => channel_path i "Spectroscopic_Values")
                                (range 0 num_ai_chans))) w3 w4 u3);
      [|exact Hw3|exact E6].
    unfold _read_data. apply for_each_keeps. intros line.
    now apply giv_read_line_inv. }
  intros chan Hchan. apply (out_inv_data _ _ _ _ _ Hw4).
  apply (in_map (fun i => channel_path i "Spectroscopic_Values")).
  apply in_range. lia.
Qed.

End GIV.

Section GLine.

Import GLine.

Variable float32 : Q -> Q.
Variable float16 : Q -> Q.

Lemma loadmat_inv (path : string) (w w' : world) (r : outcome (list Q * Z * Z)) :
  loadmat path w = (r, w') -> w' = w.
Proof.
  apply read_then_inv. intros f w1.
  destruct (fdata f); cbn; intros H; now injection H.
Qed.

Lemma parmsToDict_inv (path : string) (w w' : world) (r : outcome attrs_t) :
  parmsToDict path w = (r, w') -> w' = w.
Proof.
  apply read_then_inv. intros f w1.
  destruct (fdata f); cbn; intros H; now injection H.
Qed.

Lemma getsize_inv (path : string) (w w' : world) (r : outcome Z) :
  getsize path w = (r, w') -> w' = w.
Proof. apply read_then_inv. intros f w1. cbn. intros H. now injection H. Qed.

Lemma gline_read_data_inv (n : string) (wfm : list (list Q)) (paths : list string)
    (num_rows bpr : Z) (filepath h5_dset : string) :
  is_spec_values h5_dset = false ->
  triple (out_inv n wfm paths)
         (_read_data float16 n num_rows bpr filepath h5_dset)
         (fun _ => out_inv n wfm paths).
Proof.
  intros Hs. unfold _read_data. apply read_keeps. intros f.
  apply for_each_keeps. intros row.
  apply triple_bind with (R := fun _ => out_inv n wfm paths);
    [apply triple_lift; auto|intros vec].
  now apply write_row_inv.
Qed.

(** The file that [write_file] leaves when it returns. *)
Lemma write_file_spec_values (folder h5_name h5_path : string) (be_wave : list Q)
    (num_cols expected_rows ppp file_size num_rows : Z) (parm_dict : attrs_t)
    (data_paths : list (Z * string)) (w w' : world) (r : option string) :
  write_file float32 float16 folder h5_name h5_path be_wave num_cols
             expected_rows ppp file_size num_rows parm_dict data_paths w
  = (Ok r, w') ->
  exists tiled,
    tile (map float32 be_wave) num_cols = Ok tiled /\
    out_inv h5_name [tiled]
      (map (fun i => channel_path i "Spectroscopic_Values") (Dict.keys data_paths)) w'.
Proof.
  intros H. unfold write_file in H.
  apply bind_ok in H. destruct H as (samp_rate & w1 & E & H).
  apply lift_inv in E. destruct E as [_ ->].
  apply bind_ok in H. destruct H as (ex_freq & w1 & E & H).
  apply lift_inv in E. destruct E as [_ ->].
  apply bind_ok in H. destruct H as (u & w1 & E & H).
  destruct (Qeq_bool samp_rate (inject_Z 0)); cbn in E; [discriminate|].
  injection E as _ <-. clear u.
  apply bind_ok in H. destruct H as (u & w1 & E & H).
  destruct (num_rows =? 0); cbn in E; [discriminate|].
  injection E as _ <-. clear u.
  apply bind_ok in H. destruct H as (u1 & w1 & E3 & H).
  apply bind_ok in H. destruct H as (u2 & w2 & E4 & H).
  apply bind_ok in H. destruct H as (pos & w3 & E & H).
  apply lift_inv in E. destruct E as [Hpos ->]. symmetry in Hpos.
  apply bind_ok in H. destruct H as (spec & w3 & E & H).
  apply lift_inv in E. destruct E as [Hspec ->]. symmetry in Hspec.
  apply bind_ok in H. destruct H as (tiled & w3 & E & H).
  apply lift_inv in E. destruct E as [Htile ->]. symmetry in Htile.
  exists tiled. split; [exact Htile|].
  pose proof (triple_run _ _ _ _ _ _
                (create_h5_inv h5_name [tiled] (fun _ => True)) I E3) as Hw1.
  pose proof (triple_run _ _ _ _ _ _ (root_commit_inv h5_name [tiled] _ _) Hw1 E4)
    as Hw2.
  cbv beta in Hw1, Hw2.
  apply bind_ok in H. destruct H as (u3 & w3 & E5 & H).
  cbn in H. injection H as _ <-.
  set (ds_spec_vals := with_data (snd spec) [tiled]) in *.
  destruct (build_ind_val_dsets_names _ _ _ _ _ _ (fst spec) (snd spec)
              ltac:(rewrite Hspec; now destruct spec)) as (_ & Hname & _ & Hmax).
  match type of E5 with
  | IO.for_each ?l ?body _ = _ =>
      apply (triple_run
               (out_inv h5_name [tiled]
                  (map (fun i => channel_path i "Spectroscopic_Values") []))
               (IO.for_each l body)
               (fun _ => out_inv h5_name [tiled]
                  (map (fun i => channel_path i "Spectroscopic_Values") ([] ++ l)))
               w2 w3 u3);
        [apply (triple_for_each
                  (fun done => out_inv h5_name [tiled]
                     (map (fun i => channel_path i "Spectroscopic_Values") done)))
        |exact Hw2|exact E5]
  end.
  intros done x. rewrite map_app. cbn [map].
  apply triple_bind with
    (R := fun h5_main w0 =>
            out_inv h5_name [tiled]
              (map (fun i => channel_path i "Spectroscopic_Values") done
               ++ [channel_path x "Spectroscopic_Values"]) w0 /\
            is_spec_values h5_main = false).
  - eapply triple_weaken;
      [apply (commit_channel_inv h5_name [tiled]
                (map (fun i => channel_path i "Spectroscopic_Values") done)
                _ ds_spec_vals)
      |auto
      |intros y w0 [Hw Hy]; split; [|exact Hy];
       cbn [grp_parent grp_name] in Hw;
       change (ds_name ds_spec_vals) with (ds_name (snd spec)) in Hw;
       rewrite Hname in Hw; exact Hw].
    + destruct (channel_children_ok pos spec ds_spec_vals
                  (with_attr
                     (with_attr
                        (mk_dataset "Raw_Data" [] (Some (num_rows, ppp * num_cols))
                                    (FloatT 16) [])
                        "quantity" (VStrs ["Deflection"%string]))
                     "units" (VStrs ["V"%string]))
                  _ _ _ _ _ _ _ _ _ _ Hpos Hspec Hname Hmax eq_refl)
        as (C1 & C2 & C3 & C4 & C5).
      cbn [grp_children].
      apply Forall_cons; [exact C5|]. apply Forall_cons; [exact C1|].
      apply Forall_cons; [exact C2|]. apply Forall_cons; [exact C3|].
      apply Forall_cons; [exact C4|]. apply Forall_nil.
    + cbn. discriminate.
    + cbn. tauto.
  - intros h5_main.
    destruct (Dict.get Z.eqb x data_paths) as [filepath|].
    + intros w0 [Hw Hs].
      apply (gline_read_data_inv h5_name [tiled] _ num_rows (file_size / num_rows)
               filepath h5_main Hs w0 Hw).
    + apply triple_raise.
Qed.

(** G-line: in the file of a run that returns a path, the
    Spectroscopic_Values dataset of every channel holds one row, the
    float32 excitation wave of the [.mat] file tiled [num_cols] times. *)
Lemma gline_spectroscopic_values (w w' : world) (p : string) :
  translate float32 float16 w = (Ok (Some p), w') ->
  exists basename parm_paths data_paths mat_path BE_wave num_cols expected_rows tiled,
    _parse_file_path w = Ok (basename, parm_paths, data_paths) /\
    lookup "parm_mat" parm_paths = Ok mat_path /\
    loadmat mat_path (without_output w)
    = (Ok (BE_wave, num_cols, expected_rows), without_output w) /\
    tile (map float32 (map float32 BE_wave)) num_cols = Ok tiled /\
    forall f_index, In f_index (Dict.keys data_paths) ->
      data_at w' (folder_name w ++ ".h5") (channel_path f_index "Spectroscopic_Values")
      = Some [tiled].
Proof.
  intros H. unfold translate in H.
  apply bind_ok in H. destruct H as (w0 & w1 & E & H).
  cbn in E. injection E as <- <-.
  apply bind_ok in H. destruct H as ([[basename parm_paths] data_paths] & w1 & E & H).
  apply lift_inv in E. destruct E as [Hparse ->]. symmetry in Hparse.
  assert (Hb : basename = folder_name w).
  { unfold _parse_file_path in Hparse.
    destruct (foldM _ _ _); [|discriminate]. cbn in Hparse. congruence. }
  exists basename, parm_paths, data_paths. subst basename.
  apply bind_ok in H. destruct H as (u & w1 & E & H).
  rewrite remove_output in E. injection E as _ <-.
  apply bind_ok in H. destruct H as (mat_path & w1 & E & H).
  apply lift_inv in E. destruct E as [Hmat ->]. symmetry in Hmat.
  apply bind_ok in H. destruct H as ([[BE_wave num_cols] expected_rows] & w1 & Eload & H).
  pose proof (loadmat_inv _ _ _ _ Eload). subst w1.
  apply bind_ok in H. destruct H as (txt_path & w1 & E & H).
  apply lift_inv in E. destruct E as [_ ->].
  apply bind_ok in H. destruct H as (parm_dict & w1 & E & H).
  pose proof (parmsToDict_inv _ _ _ _ E). subst w1. clear E.
  apply bind_ok in H. destruct H as (path0 & w1 & E & H).
  apply lift_inv in E. destruct E as [_ ->].
  apply bind_ok in H. destruct H as (file_size & w1 & E & H).
  pose proof (getsize_inv _ _ _ _ E). subst w1. clear E.
  destruct (_ =? 0); [discriminate|].
  destruct (negb _); [discriminate|].
  apply write_file_spec_values in H. destruct H as (tiled & Htile & Hout).
  exists mat_path, BE_wave, num_cols, expected_rows, tiled.
  repeat (split; [assumption|]).
  intros f_index Hin. apply (out_inv_data _ _ _ _ _ Hout).
  now apply (in_map (fun i => channel_path i "Spectroscopic_Values")).
Qed.

End GLine.

Section Igor.

Import Igor.

Variable float32 : Q -> Q.

Lemma load_inv (path : string) (w w' : world) (r : outcome ibw_wave) :
  load path w = (r, w') -> w' = w.
Proof.
  apply read_then_inv. intros f w1.
  destruct (fdata f); cbn; intros H; now injection H.
Qed.

Lemma raw_datasets_names (images : list (list (list Q))) (labels units : list string)
    (d : MicroDataset) :
  In d (raw_datasets images labels units) -> ds_name d = "Raw_Data"%string.
Proof.
  unfold raw_datasets. rewrite in_map_iff. intros (icu & <- & _). reflexivity.
Qed.

Lemma sensor_override_data (labels : list string) (images : list (list (list Q)))
    (d vals : MicroDataset) (chan_ind : Z) :
  sensor_override float32 labels images d = Ok vals ->
  index_of "ZSnsr" labels = Some chan_ind \/
  (index_of "ZSnsr" labels = None /\ index_of "Raw" labels = Some chan_ind) ->
  exists img, getrow images chan_ind = Ok img /\
              vals = with_data d (map (map float32) img).
Proof.
  unfold sensor_override. intros H [E|[E1 E2]].
  - rewrite E in H. destruct (getrow images chan_ind) as [img|e]; [|discriminate].
    cbn in H. injection H as <-. now exists img.
  - rewrite E1, E2 in H. destruct (getrow images chan_ind) as [img|e]; [|discriminate].
    cbn in H. injection H as <-. now exists img.
Qed.

(** The commits of the channels of a translated wave. *)
Lemma igor_channels_inv (h5_name : string) (pos spec : MicroDataset * MicroDataset)
    (dsets : list MicroDataset)
    (dims dims' : list Z) (steps steps' inits inits' : option (list Q))
    (labels labels' units units' : list string) (vals : MicroDataset) :
  build_ind_val_dsets dims false steps inits labels units = Ok pos ->
  build_ind_val_dsets dims' true steps' inits' labels' units' = Ok (fst spec, vals) ->
  ds_name (snd spec) = "Spectroscopic_Values"%string ->
  ds_maxshape (snd spec) = None ->
  Forall (fun d => ds_name d = "Raw_Data"%string) dsets ->
  triple (out_inv h5_name (ds_data (snd spec)) [])
    (IO.for_each (enumerate dsets)
       (fun ch =>
          IO.bind
            (commit_channel h5_name
               (mk_group ("Channel_" ++ format_03d (fst ch)) "/Measurement_000/"
                  [("name"%string,
                    match Dict.get String.eqb "quantity"%string (ds_attrs (snd ch)) with
                    | Some v => v
                    | None => VStr ""
                    end)]
                  [ChildDataset (fst pos); ChildDataset (snd pos);
                   ChildDataset (fst spec); ChildDataset (snd spec);
                   ChildDataset (snd ch)]))
            (fun _ => IO.ret tt)))
    (fun _ => out_inv h5_name (ds_data (snd spec))
                (map (fun ch => channel_path (fst ch) "Spectroscopic_Values")
                     (enumerate dsets))).
Proof.
  intros Hpos Hspec Hname Hmax Hraw.
  assert (Hin : forall ch, In ch (enumerate dsets) -> ds_name (snd ch) = "Raw_Data"%string).
  { intros [i d] H. apply in_enumerate in H. rewrite Forall_forall in Hraw.
    now apply Hraw. }
  clear Hraw. revert Hin. generalize (enumerate dsets). intros l Hin.
  change l with ([] ++ l) at 2.
  change (out_inv h5_name (ds_data (snd spec)) [])
    with (out_inv h5_name (ds_data (snd spec))
            (map (fun ch : Z * MicroDataset =>
                    channel_path (fst ch) "Spectroscopic_Values") [])).
  generalize (@nil (Z * MicroDataset)).
  induction l as [|ch l IH]; intros done.
  - apply triple_ret. intros w Hw. now rewrite app_nil_r.
  - cbn [IO.for_each].
    apply triple_bind with
      (R := fun _ => out_inv h5_name (ds_data (snd spec))
                       (map (fun ch => channel_path (fst ch) "Spectroscopic_Values")
                            (done ++ [ch]))).
    + apply triple_bind with
        (R := fun _ => out_inv h5_name (ds_data (snd spec))
                         (map (fun ch => channel_path (fst ch) "Spectroscopic_Values")
                              (done ++ [ch]))); [|intros ?; apply triple_ret; auto].
      rewrite map_app. cbn [map].
      eapply triple_weaken;
        [apply (commit_channel_inv h5_name (ds_data (snd spec))
                  (map (fun ch => channel_path (fst ch) "Spectroscopic_Values") done)
                  _ (snd spec))
        |auto
        |intros y w0 [Hw _]; cbn [grp_parent grp_name] in Hw;
         rewrite Hname in Hw; exact Hw].
      * destruct (channel_children_ok pos (fst spec, vals) (snd spec) (snd ch)
                    _ _ _ _ _ _ _ _ _ _ Hpos Hspec Hname Hmax
                    (Hin ch (or_introl eq_refl)))
          as (C1 & C2 & C3 & C4 & C5).
        cbn [grp_children].
        apply Forall_cons; [exact C1|]. apply Forall_cons; [exact C2|].
        apply Forall_cons; [exact C3|]. apply Forall_cons; [exact C4|].
        apply Forall_cons; [exact C5|]. apply Forall_nil.
      * cbn. discriminate.
      * cbn. tauto.
    + intros ?. eapply triple_weaken;
        [apply (IH (fun c H => Hin c (or_intror H)) (done ++ [ch]))|auto|].
      intros ? w Hw. now rewrite <- app_assoc in Hw.
Qed.

(** Igor: in the file of a translated force curve with a channel labelled
    ZSnsr, or else Raw, the Spectroscopic_Values dataset of every channel
    holds the float32 data of that channel. *)
Lemma igor_spectroscopic_values (file_name : string) (w w' : world) (p : string) :
  translate float32 file_name w = (Ok p, w') ->
  exists ibw_wave,
    load (join (folder_path w) file_name) w = (Ok ibw_wave, w) /\
    ((forall t, wData ibw_wave <> W3 t) ->
     let chan_labels := fst (_get_chan_labels ibw_wave) in
     let chan_units := snd (_get_chan_labels ibw_wave) in
     let images := curve_channels (wData ibw_wave) in
     let h5_name :=
       (upto file_name (Z.of_nat (String.length file_name) - 4) ++ ".h5")%string in
     forall chan_ind,
       index_of "ZSnsr" chan_labels = Some chan_ind \/
       (index_of "ZSnsr" chan_labels = None /\
        index_of "Raw" chan_labels = Some chan_ind) ->
       exists img,
         getrow images chan_ind = Ok img /\
         forall ch, In ch (enumerate (raw_datasets images chan_labels chan_units)) ->
           data_at w' h5_name (channel_path (fst ch) "Spectroscopic_Values")
           = Some (map (map float32) img)).
Proof.
  intros H. unfold translate in H.
  apply bind_ok in H. destruct H as (w0 & w1 & E & H).
  cbn in E. injection E as <- <-.
  apply bind_ok in H. destruct H as (ibw_wave & w1 & Eload & H).
  pose proof (load_inv _ _ _ _ Eload). subst w1.
  exists ibw_wave. split; [exact Eload|].
  intros Hcurve chan_labels chan_units images h5_name chan_ind Hind.
  subst chan_labels chan_units.
  destruct (_get_chan_labels ibw_wave) as [chan_labels chan_units].
  cbn [fst snd] in *.
  apply bind_ok in H. destruct H as ([[[type_suffix images'] pos] spec] & w1 & Eb & H).
  assert (Hb : w1 = w /\ images' = images /\
               exists img pos_args spec0,
                 getrow images chan_ind = Ok img /\
                 build_ind_val_dsets [1] false (Some [25 # 1000000000]) None
                                     ["X"%string] ["m"%string] = Ok pos /\
                 build_ind_val_dsets [pos_args] true None None
                                     ["Z"%string] ["m"%string] = Ok (fst spec, spec0) /\
                 snd spec = with_data spec0 (map (map float32) img)).
  { subst images.
    destruct (wData ibw_wave) as [v|m|t] eqn:Ed; [| |exfalso; now apply (Hcurve t)].
    all: apply bind_ok in Eb; destruct Eb as (pos0 & w2 & E & Eb);
      apply lift_inv in E; destruct E as [Hpos ->]; symmetry in Hpos;
      apply bind_ok in Eb; destruct Eb as ([si sv] & w2 & E & Eb);
      apply lift_inv in E; destruct E as [Hspec ->]; symmetry in Hspec;
      apply bind_ok in Eb; destruct Eb as (vals & w2 & E & Eb);
      apply lift_inv in E; destruct E as [Hov ->]; symmetry in Hov;
      cbn in Eb; injection Eb as <- <- <- <- <-;
      destruct (sensor_override_data _ _ _ _ _ Hov Hind) as (img & Hrow & ->);
      split; [reflexivity|]; split; [reflexivity|];
      eexists img, _, sv; repeat split; eassumption. }
  destruct Hb as (-> & -> & img & pos_args & spec0 & Hrow & Hpos & Hspec & Hvals).
  exists img. split; [exact Hrow|].
  apply bind_ok in H. destruct H as (w1 & w2 & E & H).
  cbn in E. injection E as <- <-.
  apply bind_ok in H. destruct H as (u & w1 & _ & H).
  apply bind_ok in H. destruct H as (u1 & w2 & E3 & H).
  apply bind_ok in H. destruct H as (u2 & w3 & E4 & H).
  apply bind_ok in H. destruct H as (u3 & w4 & E5 & H).
  cbn in H. injection H as _ <-.
  assert (Hname : ds_name (snd spec) = "Spectroscopic_Values"%string /\
                  ds_maxshape (snd spec) = None /\
                  ds_data (snd spec) = map (map float32) img).
  { rewrite Hvals. cbn.
    destruct (build_ind_val_dsets_names _ _ _ _ _ _ _ _ Hspec) as (_ & Hn & _ & Hm).
    now repeat split. }
  destruct Hname as (Hname & Hmax & Hdata).
  pose proof (triple_run _ _ _ _ _ _
                (create_h5_inv h5_name (ds_data (snd spec)) (fun _ => True)) I E3) as Hw1.
  pose proof (triple_run _ _ _ _ _ _ (root_commit_inv h5_name _ _ _) Hw1 E4) as Hw2.
  cbv beta in Hw1, Hw2.
  pose proof (triple_run _ _ _ _ _ _
                (igor_channels_inv h5_name pos spec
                   (raw_datasets images chan_labels chan_units)
                   _ _ _ _ _ _ _ _ _ _ spec0 Hpos Hspec Hname Hmax
                   ltac:(apply Forall_forall; intros d Hd;
                         now apply raw_datasets_names in Hd))
                Hw2 E5) as Hw4.
  cbv beta in Hw4. rewrite Hdata in Hw4.
  intros ch Hin. apply (out_inv_data _ _ _ _ _ Hw4).
  now apply (in_map (fun ch => channel_path (fst ch) "Spectroscopic_Values")).
Qed.

End Igor.

(** C10: in the translated file of a run that returns, the persisted
    Spectroscopic_Values dataset of every channel holds the measured
    waveform that replaced the data of the descriptor before the commit.
    G-line: one row, the float32 excitation wave of the [.mat] file tiled
    [num_cols] times.  G-mode IV: one row, the trimmed excitation waveform
    returned by [_read_parms].  Igor, for a force curve with a channel
    labelled ZSnsr, or else Raw: the float32 data of that channel. *)
Theorem spectroscopic_values_overridden (float32 float16 : Q -> Q) :
  (forall (w w' : world) (p : string),
     GLine.translate float32 float16 w = (Ok (Some p), w') ->
     exists basename parm_paths data_paths mat_path BE_wave num_cols expected_rows tiled,
       GLine._parse_file_path w = Ok (basename, parm_paths, data_paths) /\
       lookup "parm_mat" parm_paths = Ok mat_path /\
       GLine.loadmat mat_path (without_output w)
       = (Ok (BE_wave, num_cols, expected_rows), without_output w) /\
       tile (map float32 (map float32 BE_wave)) num_cols = Ok tiled /\
       forall f_index, In f_index (Dict.keys data_paths) ->
         data_at w' (folder_name w ++ ".h5")
                 (channel_path f_index "Spectroscopic_Values")
         = Some [tiled]) /\
  (forall (parm_name : string) (w w' : world) (p : string),
     GIV.translate float32 float16 parm_name w = (Ok p, w') ->
     exists h5_f parm_dict excit_wfm num_ai_chans line_data,
       GIV.open_parms (join (folder_path w) parm_name) w = (Ok h5_f, w) /\
       GIV._read_parms float32 h5_f = Ok (parm_dict, excit_wfm) /\
       GIV.open_line (join (folder_path w) "line_1.mat") (without_output w)
       = (Ok (num_ai_chans, line_data), without_output w) /\
       forall chan, 0 <= chan < num_ai_chans ->
         data_at w' (folder_name w ++ ".h5") (channel_path chan "Spectroscopic_Values")
         = Some [excit_wfm]) /\
  (forall (file_name : string) (w w' : world) (p : string),
     Igor.translate float32 file_name w = (Ok p, w') ->
     exists ibw_wave,
       Igor.load (join (folder_path w) file_name) w = (Ok ibw_wave, w) /\
       ((forall t, wData ibw_wave <> W3 t) ->
        let chan_labels := fst (Igor._get_chan_labels ibw_wave) in
        let chan_units := snd (Igor._get_chan_labels ibw_wave) in
        let images := Igor.curve_channels (wData ibw_wave) in
        let h5_name :=
          (upto file_name (Z.of_nat (String.length file_name) - 4) ++ ".h5")%string in
        forall chan_ind,
          Igor.index_of "ZSnsr" chan_labels = Some chan_ind \/
          (Igor.index_of "ZSnsr" chan_labels = None /\
           Igor.index_of "Raw" chan_labels = Some chan_ind) ->
          exists img,
            getrow images chan_ind = Ok img /\
            forall ch,
              In ch (enumerate (Igor.raw_datasets images chan_labels chan_units)) ->
              data_at w' h5_name (channel_path (fst ch) "Spectroscopic_Values")
              = Some (map (map float32) img))).
Proof.
  split; [|split].
  - apply gline_spectroscopic_values.
  - apply giv_spectroscopic_values.
  - apply igor_spectroscopic_values.
Qed.

Lemma spectroscopic_values_overridden_witness :
  data_at (snd (GLine.translate exact exact GLine.example_world)) "exp.h5"
          (channel_path 0 "Spectroscopic_Values")
  = Some [map inject_Z [7; 9; 7; 9]] /\
  data_at (snd (GIV.translate exact exact "parms.mat" GIV.example_world)) "giv.h5"
          (channel_path 0 "Spectroscopic_Values")
  = Some [map inject_Z [0; 1; 2; 3; 4; 5; 6; 7; 8; 9]] /\
  data_at (snd (Igor.translate exact "curve0001.ibw" Igor.example_world))
          "curve0001.h5" (channel_path 1 "Spectroscopic_Values")
  = Some [map inject_Z [100; 104; 109]].
Proof.
  destruct (spectroscopic_values_overridden exact exact) as (HL & HV & HI).
  split; [|split].
  - destruct (HL GLine.example_world
                 (snd (GLine.translate exact exact GLine.example_world))
                 "/data/exp/exp.h5"%string)
      as (b & pp & dp & mp & BE & nc & er & tiled & Hparse & Hmat & Hload & Htile & Hdata).
    { run_to_pair. }
    vm_compute in Hparse. injection Hparse as <- <- <-.
    vm_compute in Hmat. injection Hmat as <-.
    vm_compute in Hload. injection Hload as <- <- <-.
    vm_compute in Htile. injection Htile as <-.
    exact (Hdata 0 (or_introl eq_refl)).
  - destruct (HV "parms.mat"%string GIV.example_world
                 (snd (GIV.translate exact exact "parms.mat" GIV.example_world))
                 "/data/giv/giv.h5"%string)
      as (h5_f & pd & wfm & nchan & ld & Hopen & Hparms & Hline & Hdata).
    { run_to_pair. }
    vm_compute in Hopen. injection Hopen as <-.
    vm_compute in Hparms. injection Hparms as <- <-.
    vm_compute in Hline. injection Hline as <- <-.
    exact (Hdata 0 ltac:(lia)).
  - destruct (HI "curve0001.ibw"%string Igor.example_world
                 (snd (Igor.translate exact "curve0001.ibw" Igor.example_world))
                 "/data/afm/curve0001.h5"%string)
      as (wave & Hload & Hdata).
    { run_to_pair. }
    vm_compute in Hload. injection Hload as <-.
    destruct (Hdata ltac:(discriminate) 1 (or_introl eq_refl)) as (img & Hrow & Hch).
    vm_compute in Hrow. injection Hrow as <-.
    exact (Hch (1, _) (or_intror (or_introl eq_refl))).
Defined.

End SpecValuesFacts.

(* --------------------------------------------------------------------- *)
(** *** Cluster: more of the constructor, the write and the reordering *)
(* --------------------------------------------------------------------- *)

Module ClusterMoreFacts.
Import ComponentSlice Cluster Reorder ClusterFacts.

Lemma skipn_range (a b : Z) (n : nat) :
  Z.of_nat n <= b - a -> skipn n (range a b) = range (a + Z.of_nat n) b.
Proof.
  intros H.
  rewrite (GIVRowFacts.range_app a (a + Z.of_nat n) b) by lia.
  rewrite skipn_app, skipn_all2 by (rewrite length_range; lia).
  rewrite length_range.
  replace (n - Z.to_nat (a + Z.of_nat n - a))%nat with 0%nat by lia.
  reflexivity.
Qed.

(** [range(a, b)[a:b]]: the positions, not the values, are cut at [a]. *)
Lemma range_sliced_by_itself (a b : Z) :
  0 <= a <= b ->
  getslice (range a b) (mkslice (Some a) (Some b)) = range (2 * a) b.
Proof.
  intros H. unfold getslice, slice_indices, adjust_index. cbn [start stop].
  rewrite length_range, Z2Nat.id by lia.
  destruct (Z.ltb_spec a 0), (Z.ltb_spec b 0); try lia.
  rewrite (Z.min_r b) by lia.
  destruct (Z.le_gt_cases a (b - a)) as [Hle|Hgt].
  - rewrite Z.min_l by lia. rewrite skipn_range by lia.
    rewrite Z2Nat.id by lia. replace (a + a) with (2 * a) by lia.
    apply firstn_all2. rewrite length_range. lia.
  - rewrite Z.min_r by lia. rewrite Z.sub_diag. cbn [Z.to_nat firstn].
    symmetry. apply range_empty. lia.
Qed.

Section Facts.

Context {src real estimator : Type}.
Variable zero : src.
Variable checkIfMain : matrix src -> bool.
Variable instantiate : string -> list Z -> kwargs_t -> outcome estimator.
Variable cpu_count : Z.
Variable check_dtype : matrix src -> outcome (bool * bool * Z * Z * Z).
Variable data_transform_func : list (list src) -> list (list real).
Variable np_mean : list (list real) -> list real.
Variable transformToTargetType : list real -> list src.
Variable fit : estimator -> list (list real) -> outcome int_array.
Variable spectroscopic_values : matrix src -> list (list Q).
Variable linkage : matrix src -> outcome (list (Z * Z)).

(** X1: a negative integer is accepted by the constructor as the number of
    components.  The object then holds a negative [num_comps]; the mean
    response cannot be allocated for any labels, and [do_cluster] raises
    once the fit has returned. *)
Theorem negative_count_fails_after_fit (h5 : matrix src) (method : string) (n : Z)
    (args : list Z) (kwargs : kwargs_t) (self : cluster src estimator) :
  __init__ src estimator checkIfMain instantiate cpu_count check_dtype
           h5 method (CInt n) args kwargs = Ok self ->
  n < 0 -> 0 <= ncols h5 ->
  num_comps self = n /\
  (forall labels,
     _get_mean_response src real zero estimator data_transform_func np_mean
                        transformToTargetType self labels
     = Raise (ValueError "negative dimensions are not allowed")) /\
  (forall labels rearrange,
     _fit src real estimator data_transform_func fit self = Ok labels ->
     do_cluster src real zero estimator data_transform_func np_mean
                transformToTargetType fit spectroscopic_values linkage self
                rearrange
     = Raise (ValueError "negative dimensions are not allowed")).
Proof.
  intros Hinit Hn Hc. apply init_selection in Hinit. destruct Hinit as [_ Hsel].
  cbn in Hsel. injection Hsel as _ Hnum. rewrite Z.min_l in Hnum by lia.
  assert (Hmr : forall labels,
             _get_mean_response src real zero estimator data_transform_func np_mean
                                transformToTargetType self labels
             = Raise (ValueError "negative dimensions are not allowed")).
  { intros labels. unfold _get_mean_response. rewrite <- Hnum.
    destruct (Z.ltb_spec n 0); [reflexivity|lia]. }
  split; [now symmetry|]. split; [exact Hmr|].
  intros labels rearrange Hfit. unfold do_cluster. rewrite Hfit. cbn [Py.bind].
  now rewrite Hmr.
Qed.

(** X2: for a selection [[a, b]] of a strict subset, the attribute
    [components_used] is [range(a, b)[a:b]]: the components from [2a] on.
    It lists the selected components only when [a] is 0. *)
Theorem components_used_of_pair (h5 : matrix src) (method : string) (a b : Z)
    (args : list Z) (kwargs : kwargs_t) (self : cluster src estimator)
    (labels : int_array) (mean_response : matrix src) :
  __init__ src estimator checkIfMain instantiate cpu_count check_dtype
           h5 method (CIter [a; b]) args kwargs = Ok self ->
  0 <= a <= b -> b - a <> ncols h5 ->
  exists grp,
    _write_to_hdf5 src estimator spectroscopic_values self labels mean_response
    = Ok grp /\
    components_used grp = Some (range (2 * a) b) /\
    (0 < a < b -> components_used grp <> Some (range a b)).
Proof.
  intros Hinit Hab Hne. apply init_selection in Hinit. destruct Hinit as [Hm Hsel].
  cbn in Hsel. injection Hsel as Hs Hnum.
  unfold _write_to_hdf5. rewrite <- Hs, <- Hnum, Hm.
  rewrite Z.abs_eq by lia.
  destruct (Z.eqb_spec (b - a) (ncols h5)) as [E|_]; [contradiction|].
  cbn [negb read_rows]. unfold slice_components. cbn [start stop Py.bind].
  rewrite range_sliced_by_itself by exact Hab.
  eexists. split; [reflexivity|]. cbn [components_used fst].
  split; [reflexivity|].
  intros Hpos H0.
  assert (H : range (2 * a) b = range a b) by congruence. clear H0.
  rewrite (range_cons a b) in H by lia.
  destruct (Z.le_gt_cases b (2 * a)).
  - rewrite (range_empty (2 * a) b) in H by lia. discriminate.
  - rewrite (range_cons (2 * a) b) in H by lia.
    assert (2 * a = a) by congruence. lia.
Qed.

End Facts.

Lemma negative_count_fails_after_fit_witness :
  exists self,
    example_init "KMeans" (CInt (-1)) = Ok self /\
    num_comps self = -1 /\
    _get_mean_response Z Q 0 string int_to_real column_mean real_to_int self [0; 1; 0]
    = Raise (ValueError "negative dimensions are not allowed").
Proof.
  eexists. split; [reflexivity|].
  destruct (negative_count_fails_after_fit 0 (fun _ => true) sklearn_instantiate 4
              example_check_dtype int_to_real column_mean real_to_int
              (fun (_ : string) (_ : list (list Q)) => Ok (mk_int_array (IntT 32) [0; 1; 0]))
              example_spec_vals chain_linkage example_main "KMeans" (-1) [] [] _ eq_refl)
    as (Hn & Hmr & _); [lia|cbn; lia|].
  split; [exact Hn|apply Hmr].
Defined.

Lemma components_used_of_pair_witness :
  exists self grp,
    example_init "KMeans" (CIter [2; 4]) = Ok self /\
    _write_to_hdf5 Z string example_spec_vals self
                   (mk_int_array (IntT 32) [0; 1; 0])
                   (mk_matrix (IntT 32) 2 [[3; 4]; [30; 40]]) = Ok grp /\
    components_used grp = Some [].
Proof.
  eexists.
  destruct (components_used_of_pair (fun _ => true) sklearn_instantiate 4
              example_check_dtype example_spec_vals example_main "KMeans" 2 4 [] [] _
              (mk_int_array (IntT 32) [0; 1; 0])
              (mk_matrix (IntT 32) 2 [[3; 4]; [30; 40]]) eq_refl)
    as (grp & Hw & Hu & _); [lia|cbn; lia|].
  exists grp. split; [reflexivity|]. split; [exact Hw|exact Hu].
Defined.

Lemma write_to_hdf5_links_witness :
  exists self grp,
    example_init "KMeans" (CIter [0]) = Ok self /\
    _write_to_hdf5 Z string example_spec_vals self
                   (mk_int_array (IntT 32) [0; 1; 0])
                   (mk_matrix (IntT 32) 1 [[2]; [10]]) = Ok grp /\
    In "Mean_Response_Indices"%string (children grp) /\
    linked_to_reduced_pair (centroid_spec_links grp) /\
    centroid_values grp = Some [map inject_Z [0; 1; 2; 3]].
Proof.
  eexists. eexists. split; [reflexivity|]. split; [reflexivity|].
  match goal with
  | |- In _ (children ?g) /\ _ =>
      destruct (ClusterRunFacts.write_to_hdf5_links example_spec_vals
                  (mk_cluster example_main "KMeans"%string "KMeans"%string 1
                     (ArraySel [0]) (false, false, 4, 3, 1))
                  (mk_int_array (IntT 32) [0; 1; 0])
                  (mk_matrix (IntT 32) 1 [[2]; [10]]) g eq_refl)
        as [Hc Hl]
  end.
  cbn [data_slice1] in Hl. destruct Hl as (Hne & Hl & _ & _).
  split; [apply Hc; exact Hne|]. split; [exact Hl|reflexivity].
Defined.

(** The usual case of one spectroscopic dimension: an index array that
    names a feature other than the first is no row of Spectroscopic_Values,
    and the write raises before the group is committed. *)
Lemma write_to_hdf5_index_array_rows :
  exists self e,
    example_init "KMeans" (CIter [0; 2; 3]) = Ok self /\
    _write_to_hdf5 Z string example_spec_vals self
                   (mk_int_array (IntT 32) [0; 1; 0])
                   (mk_matrix (IntT 32) 3 [[2; 4; 5]; [10; 30; 40]]) = Raise e.
Proof.
  eexists. eexists. split; reflexivity.
Qed.

Lemma init_gate_witness :
  (exists self, example_init "SpectralClustering" (CInt 3) = Ok self /\
                num_comps self = 3) /\
  example_init "DBSCAN" CNone = Raise (TypeError "Cannot work with DBSCAN just yet") /\
  __init__ Z string (fun _ => false) sklearn_instantiate 4 example_check_dtype
           example_main "DBSCAN" CNone [] []
  = Raise (TypeError "Supplied dataset is not a pycroscopy main dataset").
Proof.
  split; [|split].
  - destruct (ClusterRunFacts.init_gate (fun _ => true) sklearn_instantiate 4
                example_check_dtype example_main "SpectralClustering" (CInt 3) [] [])
      as (_ & _ & Hok).
    eexists. split.
    + eapply (Hok eq_refl); [simpl; tauto|reflexivity|reflexivity|reflexivity|reflexivity].
    + reflexivity.
  - destruct (ClusterRunFacts.init_gate (fun _ => true) sklearn_instantiate 4
                example_check_dtype example_main "DBSCAN" CNone [] [])
      as (_ & Hbad & _).
    apply (Hbad eq_refl). simpl. intuition discriminate.
  - destruct (ClusterRunFacts.init_gate (fun _ => false) sklearn_instantiate 4
                example_check_dtype example_main "DBSCAN" CNone [] [])
      as (Hmain & _).
    apply (Hmain eq_refl).
Defined.

Section Stray.

Context {A : Type} (zero : A).
Variable linkage : matrix A -> outcome (list (Z * Z)).

(** X3: labels that are not the index of a row of the mean response are
    not matched by any iteration of the loop: their slots keep the 0 that
    [np.zeros] put there, so they end up in the first cluster. *)
Theorem reorder_clusters_stray_labels (labels : int_array) (mr : matrix A)
    (lp : list (Z * Z)) :
  linkage mr = Ok lp ->
  is_linkage (nrows mr) lp ->
  2 <= nrows mr ->
  exists nl nm,
    reorder_clusters A zero linkage labels mr = Ok (nl, nm) /\
    length (ivals nl) = length (ivals labels) /\
    forall i lab,
      nth_error (ivals labels) i = Some lab ->
      lab < 0 \/ nrows mr <= lab ->
      nth_error (ivals nl) i = Some 0.
Proof.
  intros Hl Hlink Hk.
  pose (k := nrows mr). pose (order := new_cluster_order k lp).
  assert (Hperm : Permutation order (range 0 k))
    by now apply ReorderFacts.new_cluster_order_perm.
  assert (Hin : forall x, In x order <-> 0 <= x < k).
  { intros x. rewrite <- in_range. split; apply Permutation_in;
      [exact Hperm|symmetry; exact Hperm]. }
  assert (Hlen : length order = Z.to_nat k).
  { rewrite (Permutation_length Hperm), length_range. f_equal. lia. }
  assert (Hall : Forall (fun x => 0 <= x < nrows mr) order).
  { apply Forall_forall. intros x Hx. now apply Hin. }
  unfold reorder_clusters. rewrite Hl. cbn [Py.bind].
  fold k. fold order. unfold enumerate. change 0 with (Z.of_nat 0) at 1.
  rewrite (ReorderFacts.foldM_reorder_step labels mr order 0%nat);
    [|exact Hall| |].
  2:{ unfold zeros. rewrite repeat_length. fold k. unfold k, nrows in *. lia. }
  2:{ now rewrite repeat_length. }
  cbn [Py.bind fst snd]. eexists _, _. split; [reflexivity|].
  cbn [ivals]. split.
  { rewrite length_map, length_combine, repeat_length. lia. }
  intros i lab Hi Hout.
  rewrite nth_error_map, ReorderFacts.nth_error_combine_repeat, Hi.
  cbn [option_map fst snd]. f_equal.
  apply ReorderFacts.relabel1_notin.
  rewrite ReorderFacts.map_snd_enumerate_from. intros Hx. apply Hin in Hx.
  fold k in Hout. lia.
Qed.

End Stray.

Lemma reorder_clusters_stray_labels_witness :
  exists nl nm,
    reorder_clusters Z 0 chain_linkage (mk_int_array (IntT 64) [1; 5; 0; -1])
                     (mk_matrix (FloatT 64) 1 [[10]; [20]]) = Ok (nl, nm) /\
    nth_error (ivals nl) 1 = Some 0 /\ nth_error (ivals nl) 3 = Some 0.
Proof.
  destruct (reorder_clusters_stray_labels 0 chain_linkage
              (mk_int_array (IntT 64) [1; 5; 0; -1])
              (mk_matrix (FloatT 64) 1 [[10]; [20]]) [(0, 1)] eq_refl)
    as (nl & nm & Hr & _ & Hs).
  - split; [reflexivity|]. vm_compute. apply Permutation_refl.
  - vm_compute. discriminate.
  - exists nl, nm. split; [exact Hr|]. split.
    + apply (Hs 1%nat 5 eq_refl). right. vm_compute. discriminate.
    + apply (Hs 3%nat (-1) eq_refl). left. lia.
Defined.

End ClusterMoreFacts.

(* --------------------------------------------------------------------- *)
(** *** Igor: channel labels, default axes and the output file *)
(* --------------------------------------------------------------------- *)

Module IgorMoreFacts.
Import Str MicroData Fs IO IOFacts FsFacts CommitFacts SpecValuesFacts Igor.

Lemma remove_first_absent (pre suf : list string) :
  Forall (fun s => s <> ""%string) pre ->
  remove_first "" (pre ++ ""%string :: suf) = pre ++ suf.
Proof.
  induction 1 as [|x pre Hx _ IH]; cbn; [reflexivity|].
  destruct (String.eqb_spec x "") as [E|_]; [contradiction|]. now rewrite IH.
Qed.

Lemma filter_nonempty_id (l : list string) :
  Forall (fun s => s <> ""%string) l ->
  filter (fun s => negb (String.eqb s "")) l = l.
Proof.
  induction 1 as [|x l Hx _ IH]; cbn; [reflexivity|].
  destruct (String.eqb_spec x "") as [E|_]; [contradiction|]. cbn. now rewrite IH.
Qed.

(** The loop that removes while it iterates: after a removal the iterator
    steps over the label that moved into the freed position. *)
Lemma drop_empty_spaced (suf : list string) :
  forall (fuel : nat) (pre : list string),
    (length suf <= fuel)%nat ->
    Forall (fun s => s <> ""%string) pre ->
    (forall i, nth_error suf i = Some ""%string ->
               nth_error suf (S i) <> Some ""%string) ->
    drop_empty fuel (length pre) (pre ++ suf)
    = pre ++ filter (fun s => negb (String.eqb s "")) suf.
Proof.
  induction suf as [suf IH] using (induction_ltof1 _ (@length string)).
  unfold ltof in IH. intros fuel pre Hfuel Hpre Hsp.
  destruct suf as [|x suf].
  - cbn [filter]. rewrite !app_nil_r. destruct fuel; [reflexivity|]. cbn [drop_empty].
    now rewrite (proj2 (nth_error_None pre (length pre)) (Nat.le_refl _)).
  - destruct fuel as [|fuel]; [cbn in Hfuel; lia|]. cbn [drop_empty].
    rewrite nth_error_app2, Nat.sub_diag by lia. cbn [nth_error].
    destruct (String.eqb_spec x "") as [->|Hx].
    + rewrite remove_first_absent by exact Hpre. cbn [filter String.eqb negb].
      destruct suf as [|y suf].
      * cbn [filter]. rewrite !app_nil_r. destruct fuel; [reflexivity|]. cbn [drop_empty].
        now rewrite (proj2 (nth_error_None pre (S (length pre))) (Nat.le_succ_diag_r _)).
      * assert (Hy : y <> ""%string).
        { intros ->. now apply (Hsp 0%nat eq_refl). }
        replace (pre ++ y :: suf) with ((pre ++ [y]) ++ suf)
          by now rewrite <- app_assoc.
        replace (S (length pre)) with (length (pre ++ [y]))
          by (rewrite length_app; cbn; lia).
        rewrite IH.
        -- cbn [filter]. destruct (String.eqb_spec y "") as [E|_]; [contradiction|].
           cbn [negb]. now rewrite <- app_assoc.
        -- cbn. lia.
        -- cbn in Hfuel. lia.
        -- apply Forall_app. split; [exact Hpre|]. now constructor.
        -- intros i Hi. apply (Hsp (S (S i))). exact Hi.
    + replace (pre ++ x :: suf) with ((pre ++ [x]) ++ suf)
        by now rewrite <- app_assoc.
      replace (S (length pre)) with (length (pre ++ [x]))
        by (rewrite length_app; cbn; lia).
      rewrite IH.
      * cbn [filter]. destruct (String.eqb_spec x "") as [E|_]; [contradiction|].
        cbn [negb]. now rewrite <- app_assoc.
      * cbn. lia.
      * cbn in Hfuel. lia.
      * apply Forall_app. split; [exact Hpre|]. now constructor.
      * intros i Hi. apply (Hsp (S i)). exact Hi.
Qed.

Lemma drop_empty_none_left (suf : list string) :
  forall (fuel : nat) (pre : list string),
    Forall (fun s => s <> ""%string) suf ->
    drop_empty fuel (length pre) (pre ++ suf) = pre ++ suf.
Proof.
  induction suf as [|x suf IH]; intros fuel pre Hsuf.
  - rewrite app_nil_r. destruct fuel; [reflexivity|]. cbn [drop_empty].
    now rewrite (proj2 (nth_error_None pre (length pre)) (Nat.le_refl _)).
  - inversion Hsuf as [|? ? Hx Ht]; subst.
    destruct fuel as [|fuel]; [reflexivity|]. cbn [drop_empty].
    rewrite nth_error_app2, Nat.sub_diag by lia. cbn [nth_error].
    destruct (String.eqb_spec x "") as [E|_]; [contradiction|].
    replace (pre ++ x :: suf) with ((pre ++ [x]) ++ suf)
      by now rewrite <- app_assoc.
    replace (S (length pre)) with (length (pre ++ [x]))
      by (rewrite length_app; cbn; lia).
    now apply IH.
Qed.

(** X4: [_get_chan_labels] removes every empty label when no two empty
    labels are neighbours; the names are then cleaned and the units chosen
    label by label.  Of two neighbouring empty labels the second one is
    stepped over and stays, with the default unit. *)
Theorem get_chan_labels_empty_labels (ibw_wave : ibw_wave) :
  let raw := concat (wave_labels ibw_wave) in
  let kept := filter (fun s => negb (String.eqb s "")) raw in
  ((forall i, nth_error raw i = Some ""%string ->
              nth_error raw (S i) <> Some ""%string) ->
   _get_chan_labels ibw_wave = (map clean_label kept, map default_unit kept)) /\
  (forall rest,
     raw = ""%string :: ""%string :: rest ->
     Forall (fun s => s <> ""%string) rest ->
     _get_chan_labels ibw_wave
     = (map clean_label (""%string :: rest), map default_unit (""%string :: rest))).
Proof.
  intros raw kept. unfold _get_chan_labels. fold raw. split.
  - intros Hsp.
    pose proof (drop_empty_spaced raw (length raw) [] (Nat.le_refl _)
                  (Forall_nil _) Hsp) as H.
    cbn [length app] in H. rewrite H. reflexivity.
  - intros rest Hraw Hrest. rewrite Hraw.
    change (drop_empty (length (""%string :: ""%string :: rest)) 0
                       (""%string :: ""%string :: rest))
      with (drop_empty (S (length rest)) 1 (""%string :: rest)).
    pose proof (drop_empty_none_left rest (S (length rest)) [""%string] Hrest) as H.
    cbn [length app] in H. rewrite H. reflexivity.
Qed.

Lemma get_chan_labels_empty_labels_witness :
  _get_chan_labels (mk_ibw_wave [[]; [""; "HeightRetrace"; ""; "PhaseRetrace"]%string] []
                                (W1 []))
  = (["HeightRetrace"; "PhaseRetrace"]%string, ["m"; "deg"]%string) /\
  _get_chan_labels (mk_ibw_wave [[""; ""; "Defl"]%string] [] (W1 []))
  = ([""; "Defl"]%string, ["m"; "m"]%string).
Proof.
  split.
  - destruct (get_chan_labels_empty_labels
                (mk_ibw_wave [[]; [""; "HeightRetrace"; ""; "PhaseRetrace"]%string] []
                             (W1 []))) as [H _].
    rewrite H; [reflexivity|].
    intros [|[|[|[|[|i]]]]]; cbn; intros E; discriminate.
  - destruct (get_chan_labels_empty_labels
                (mk_ibw_wave [[""; ""; "Defl"]%string] [] (W1 []))) as [_ H].
    rewrite (H ["Defl"%string]); [reflexivity|reflexivity|].
    constructor; [discriminate|constructor].
Defined.

Section Translate.

Variable float32 : Q -> Q.

Lemma remove_keeps_folder (path : string) (w w' : world) (r : outcome unit) :
  (if path_exists w path then remove path else IO.ret tt) w = (r, w') ->
  folder_path w' = folder_path w.
Proof.
  destruct (path_exists w path).
  - unfold remove. destruct (name_of_path w path); intros H; now injection H as _ <-.
  - intros H. now injection H as _ <-.
Qed.

Lemma sensor_override_shape (labels : list string) (images : list (list (list Q)))
    (d v : MicroDataset) :
  sensor_override float32 labels images d = Ok v ->
  ds_name v = ds_name d /\ ds_maxshape v = ds_maxshape d.
Proof.
  unfold sensor_override.
  destruct (index_of "ZSnsr" labels) as [k|].
  - destruct (getrow images k) as [img|e]; [|discriminate].
    cbn. intros H. injection H as <-. now split.
  - destruct (index_of "Raw" labels) as [k|].
    + destruct (getrow images k) as [img|e]; [|discriminate].
      cbn. intros H. injection H as <-. now split.
    + intros H. injection H as <-. now split.
Qed.

(** What a returning run of the Igor translator has read and written: the
    path it returns, the axes it built for the kind of wave, and the
    Spectroscopic_Values dataset of every channel. *)
Lemma igor_translate_written (file_name : string) (w w' : world) (p : string) :
  translate float32 file_name w = (Ok p, w') ->
  let h5_name :=
    (upto file_name (Z.of_nat (String.length file_name) - 4) ++ ".h5")%string in
  exists ibw_wave images spec_vals,
    load (join (folder_path w) file_name) w = (Ok ibw_wave, w) /\
    p = join (folder_path w) h5_name /\
    has_output (folder_path w) h5_name w' /\
    match wData ibw_wave with
    | W3 t =>
        images = image_channels t /\
        exists ind,
          build_ind_val_dsets [1] true (Some [inject_Z 1]) None
                              ["arb"%string] ["a.u."%string] = Ok (ind, spec_vals)
    | d =>
        images = curve_channels d /\
        exists ind v0,
          build_ind_val_dsets [curve_length d] true None None
                              ["Z"%string] ["m"%string] = Ok (ind, v0) /\
          sensor_override float32 (fst (_get_chan_labels ibw_wave)) images v0
          = Ok spec_vals
    end /\
    forall ch,
      In ch (enumerate (raw_datasets images (fst (_get_chan_labels ibw_wave))
                                     (snd (_get_chan_labels ibw_wave)))) ->
      data_at w' h5_name (channel_path (fst ch) "Spectroscopic_Values")
      = Some (ds_data spec_vals).
Proof.
  intros H h5_name. unfold translate in H.
  apply bind_ok in H. destruct H as (w0 & w1 & E & H).
  cbn in E. injection E as <- <-.
  apply bind_ok in H. destruct H as (ibw_wave & w1 & Eload & H).
  pose proof (load_inv _ _ _ _ Eload). subst w1.
  exists ibw_wave.
  destruct (_get_chan_labels ibw_wave) as [chan_labels chan_units].
  cbn [fst snd].
  apply bind_ok in H. destruct H as ([[[type_suffix images] pos] spec] & w1 & Eb & H).
  exists images, (snd spec).
  assert (Hb : w1 = w /\
               (exists dims steps labels units,
                  build_ind_val_dsets dims false steps None labels units = Ok pos) /\
               (exists dims steps labels units v0,
                  build_ind_val_dsets dims true steps None labels units
                  = Ok (fst spec, v0) /\
                  ds_name (snd spec) = ds_name v0 /\
                  ds_maxshape (snd spec) = ds_maxshape v0) /\
               match wData ibw_wave with
               | W3 t =>
                   images = image_channels t /\
                   exists ind,
                     build_ind_val_dsets [1] true (Some [inject_Z 1]) None
                                         ["arb"%string] ["a.u."%string]
                     = Ok (ind, snd spec)
               | d =>
                   images = curve_channels d /\
                   exists ind v0,
                     build_ind_val_dsets [curve_length d] true None None
                                         ["Z"%string] ["m"%string] = Ok (ind, v0) /\
                     sensor_override float32 chan_labels images v0 = Ok (snd spec)
               end).
  { destruct (wData ibw_wave) as [v|m|t] eqn:Ed.
    1, 2: apply bind_ok in Eb; destruct Eb as (pos0 & w2 & E & Eb);
      apply lift_inv in E; destruct E as [Hpos ->]; symmetry in Hpos;
      apply bind_ok in Eb; destruct Eb as ([si sv] & w2 & E & Eb);
      apply lift_inv in E; destruct E as [Hspec ->]; symmetry in Hspec;
      apply bind_ok in Eb; destruct Eb as (vals & w2 & E & Eb);
      apply lift_inv in E; destruct E as [Hov ->]; symmetry in Hov;
      cbn in Eb; injection Eb as <- <- <- <- <-;
      (split; [reflexivity|]); (split; [eauto 6|]);
      (split;
       [do 4 eexists; exists sv; cbn [fst snd];
        split; [exact Hspec|];
        exact (sensor_override_shape _ _ _ _ Hov)
       |]);
      (split; [reflexivity|]); exists si, sv; split; assumption.
    apply bind_ok in Eb. destruct Eb as (num_rows & w2 & E & Eb).
    apply lift_inv in E. destruct E as [_ ->].
    apply bind_ok in Eb. destruct Eb as (num_cols & w2 & E & Eb).
    apply lift_inv in E. destruct E as [_ ->].
    apply bind_ok in Eb. destruct Eb as (fast & w2 & E & Eb).
    apply lift_inv in E. destruct E as [_ ->].
    apply bind_ok in Eb. destruct Eb as (slow & w2 & E & Eb).
    apply lift_inv in E. destruct E as [_ ->].
    apply bind_ok in Eb. destruct Eb as (u & w2 & E & Eb).
    destruct (_ || _); cbn in E; [discriminate|]. injection E as _ <-.
    apply bind_ok in Eb. destruct Eb as (pos0 & w2 & E & Eb).
    apply lift_inv in E. destruct E as [Hpos ->]. symmetry in Hpos.
    apply bind_ok in Eb. destruct Eb as ([si sv] & w2 & E & Eb).
    apply lift_inv in E. destruct E as [Hspec ->]. symmetry in Hspec.
    cbn in Eb. injection Eb as <- <- <- <- <-.
    split; [reflexivity|]. split; [eauto 6|].
    split; [exists [1], (Some [inject_Z 1]), ["arb"%string], ["a.u."%string], sv;
            now repeat split|].
    split; [reflexivity|]. now exists si. }
  destruct Hb as (-> & (pd & ps & pl & pu & Hpos)
                  & (sd & ss & sl & su & v0 & Hspec & Hn & Hm) & Hax).
  split; [exact Eload|].
  destruct (build_ind_val_dsets_names _ _ _ _ _ _ _ _ Hspec) as (_ & Hn0 & _ & Hm0).
  assert (Hname : ds_name (snd spec) = "Spectroscopic_Values"%string)
    by (rewrite Hn; exact Hn0).
  assert (Hmax : ds_maxshape (snd spec) = None) by (rewrite Hm; exact Hm0).
  apply bind_ok in H. destruct H as (w1 & w2 & E & H).
  cbn in E. injection E as <- <-.
  apply bind_ok in H. destruct H as (u & w1 & E2 & H).
  apply remove_keeps_folder in E2.
  apply bind_ok in H. destruct H as (u1 & w2 & E3 & H).
  apply bind_ok in H. destruct H as (u2 & w3 & E4 & H).
  apply bind_ok in H. destruct H as (u3 & w4 & E5 & H).
  cbn in H. injection H as <- <-.
  fold h5_name in E3, E4, E5 |- *.
  split; [reflexivity|].
  split.
  { assert (Hc : has_output (folder_path w) h5_name w2).
    { cbn in E3. injection E3 as _ <-. split; [exact E2|]. cbn.
      apply dict_keys_set_in. }
    pose proof (triple_run _ _ _ _ _ _
                  (with_h5_keeps_output (folder_path w) h5_name h5_name _) Hc E4) as Hr.
    cbv beta in Hr.
    refine (triple_run (has_output (folder_path w) h5_name) _
              (fun _ => has_output (folder_path w) h5_name) w3 w4 u3 _ Hr E5).
    apply for_each_keeps. intros ch.
    eapply triple_bind; [apply commit_channel_keeps_output|].
    intros ?. apply triple_ret. auto. }
  split; [exact Hax|].
  pose proof (triple_run _ _ _ _ _ _
                (create_h5_inv h5_name (ds_data (snd spec)) (fun _ => True)) I E3) as Hw1.
  pose proof (triple_run _ _ _ _ _ _ (root_commit_inv h5_name _ _ _) Hw1 E4) as Hw2.
  cbv beta in Hw1, Hw2.
  pose proof (triple_run _ _ _ _ _ _
                (igor_channels_inv h5_name pos spec
                   (raw_datasets images chan_labels chan_units)
                   _ _ _ _ _ _ _ _ _ _ v0 Hpos Hspec Hname Hmax
                   ltac:(apply Forall_forall; intros d Hd;
                         now apply raw_datasets_names in Hd))
                Hw2 E5) as Hw4.
  cbv beta in Hw4.
  intros ch Hin. apply (out_inv_data _ _ _ _ _ Hw4).
  now apply (in_map (fun ch => channel_path (fst ch) "Spectroscopic_Values")).
Qed.

(** X5: a returning run of the Igor translator returns the path of the
    translated file, which is the path of the wave file with its last four
    characters replaced by [.h5], and the file exists. *)
Theorem igor_translate_output (file_name : string) (w w' : world) (p : string) :
  translate float32 file_name w = (Ok p, w') ->
  p = join (folder_path w)
           (upto file_name (Z.of_nat (String.length file_name) - 4) ++ ".h5") /\
  path_exists w' p = true.
Proof.
  intros H. destruct (igor_translate_written _ _ _ _ H)
    as (wave & images & sv & _ & Hp & Hout & _).
  split; [exact Hp|]. rewrite Hp. now apply has_output_exists.
Qed.

(** X6: the Spectroscopic_Values dataset that the Igor translator persists
    is the one [build_ind_val_dsets] returned, with its default data, for
    an image stack (one point of an arbitrary axis) and for a force curve
    with no channel labelled ZSnsr or Raw (the points of the Z axis). *)
Theorem igor_default_spectroscopic_values (file_name : string) (w w' : world)
    (p : string) :
  translate float32 file_name w = (Ok p, w') ->
  exists ibw_wave,
    load (join (folder_path w) file_name) w = (Ok ibw_wave, w) /\
    let chan_labels := fst (_get_chan_labels ibw_wave) in
    let chan_units := snd (_get_chan_labels ibw_wave) in
    let h5_name :=
      (upto file_name (Z.of_nat (String.length file_name) - 4) ++ ".h5")%string in
    (forall t, wData ibw_wave = W3 t ->
       exists ind vals,
         build_ind_val_dsets [1] true (Some [inject_Z 1]) None
                             ["arb"%string] ["a.u."%string] = Ok (ind, vals) /\
         forall ch,
           In ch (enumerate (raw_datasets (image_channels t) chan_labels chan_units)) ->
           data_at w' h5_name (channel_path (fst ch) "Spectroscopic_Values")
           = Some (ds_data vals)) /\
    ((forall t, wData ibw_wave <> W3 t) ->
     index_of "ZSnsr" chan_labels = None -> index_of "Raw" chan_labels = None ->
     exists ind vals,
       build_ind_val_dsets [curve_length (wData ibw_wave)] true None None
                           ["Z"%string] ["m"%string] = Ok (ind, vals) /\
       forall ch,
         In ch (enumerate (raw_datasets (curve_channels (wData ibw_wave))
                                        chan_labels chan_units)) ->
         data_at w' h5_name (channel_path (fst ch) "Spectroscopic_Values")
         = Some (ds_data vals)).
Proof.
  intros H. destruct (igor_translate_written _ _ _ _ H)
    as (wave & images & sv & Hload & _ & _ & Hax & Hdata).
  exists wave. split; [exact Hload|]. cbv zeta. split.
  - intros t Ht. rewrite Ht in Hax. destruct Hax as (-> & ind & Hb).
    exists ind, sv. split; [exact Hb|exact Hdata].
  - intros Hcurve Hz Hr.
    assert (Hax' : images = curve_channels (wData wave) /\
                   exists ind v0,
                     build_ind_val_dsets [curve_length (wData wave)] true None None
                                         ["Z"%string] ["m"%string] = Ok (ind, v0) /\
                     sensor_override float32 (fst (_get_chan_labels wave)) images v0
                     = Ok sv).
    { destruct (wData wave) as [v|m|t]; [exact Hax|exact Hax|].
      exfalso. now apply (Hcurve t). }
    destruct Hax' as (-> & ind & v0 & Hb & Hov).
    unfold sensor_override in Hov. rewrite Hz, Hr in Hov. injection Hov as <-.
    exists ind, v0. split; [exact Hb|exact Hdata].
Qed.


End Translate.

Lemma igor_translate_output_witness :
  fst (translate exact "curve0001.ibw" example_world)
  = Ok "/data/afm/curve0001.h5"%string /\
  path_exists (snd (translate exact "curve0001.ibw" example_world))
              "/data/afm/curve0001.h5" = true.
Proof.
  destruct (igor_translate_output exact "curve0001.ibw" example_world
              (snd (translate exact "curve0001.ibw" example_world))
              "/data/afm/curve0001.h5"%string) as [_ Hex].
  { run_to_pair. }
  split; [vm_compute; reflexivity|exact Hex].
Defined.

Lemma igor_default_spectroscopic_values_witness :
  data_at (snd (translate exact "image0001.ibw" Examples.igor_world)) "image0001.h5"
          (channel_path 0 "Spectroscopic_Values")
  = Some [[inject_Z 0]] /\
  data_at (snd (translate exact "curve0002.ibw" Examples.igor_world)) "curve0002.h5"
          (channel_path 1 "Spectroscopic_Values")
  = Some [map inject_Z [0; 1; 2]].
Proof.
  split.
  - destruct (igor_default_spectroscopic_values exact "image0001.ibw"
                Examples.igor_world
                (snd (translate exact "image0001.ibw" Examples.igor_world))
                "/data/afm/image0001.h5"%string) as (wave & Hload & Himg & _).
    { run_to_pair. }
    vm_compute in Hload. injection Hload as <-.
    destruct (Himg _ eq_refl) as (ind & vals & Hb & Hdata).
    vm_compute in Hb. injection Hb as _ <-.
    exact (Hdata (0, _) (or_introl eq_refl)).
  - destruct (igor_default_spectroscopic_values exact "curve0002.ibw"
                Examples.igor_world
                (snd (translate exact "curve0002.ibw" Examples.igor_world))
                "/data/afm/curve0002.h5"%string) as (wave & Hload & _ & Hcurve).
    { run_to_pair. }
    vm_compute in Hload. injection Hload as <-.
    destruct (Hcurve ltac:(discriminate) eq_refl eq_refl)
      as (ind & vals & Hb & Hdata).
    vm_compute in Hb. injection Hb as _ <-.
    exact (Hdata (1, _) (or_intror (or_introl eq_refl))).
Defined.

End IgorMoreFacts.

(* --------------------------------------------------------------------- *)
(** *** G-mode IV: the pulse, the kept samples and the rows that are read *)
(* --------------------------------------------------------------------- *)

Module GIVMoreFacts.
Import Str MicroData Fs IO IOFacts FsFacts CommitFacts SpecValuesFacts GIV.

Lemma length_getslice_eq {A B : Type} (l : list A) (l' : list B) (s : slice) :
  length l = length l' -> length (getslice l s) = length (getslice l' s).
Proof.
  intros H. unfold getslice. rewrite H.
  destruct (slice_indices s (Z.of_nat (length l'))) as [a b].
  rewrite !length_firstn, !length_skipn. lia.
Qed.

Section Facts.

Variable float32 : Q -> Q.

(** What a returning [_read_parms] has computed. *)
Lemma read_parms_inv (h5_f : giv_parm_file) (pd : parms) (wfm : list Q) :
  _read_parms float32 h5_f = Ok (pd, wfm) ->
  exists sr fr wfm_raw ppc,
    samp_rate h5_f = Some sr /\ frequency h5_f = Some fr /\
    excit_wfm h5_f = Some wfm_raw /\
    points_per_cycle (np_uint32 (int_of_float sr)) (float32 fr) = Ok ppc /\
    ppc <> 0 /\
    let S := np_uint32 (int_of_float sr) in
    let L := Z.of_nat (length wfm_raw) in
    let pulse_points := np_round (Qmult (fst (pulse_of float32 h5_f)) (inject_Z S)) in
    excitation_extra_pts pd = L mod ppc /\
    excitation_pulse_time pd = float32 (fst (pulse_of float32 h5_f)) /\
    excitation_pulse_height pd = float32 (snd (pulse_of float32 h5_f)) /\
    excitation_pulse_points pd = np_uint32 pulse_points /\
    excitation_length pd = Z.of_nat (length wfm) /\
    wfm = (if 0 <? L mod ppc
           then getslice (map float32 wfm_raw)
                         (mkslice (Some pulse_points) (Some (- (L mod ppc))))
           else getslice (map float32 wfm_raw) (mkslice (Some pulse_points) None)).
Proof.
  unfold _read_parms. intros H.
  destruct (samp_rate h5_f) as [sr|]; [|discriminate].
  destruct (amp_gain h5_f) as [ag|]; [|discriminate].
  destruct (frequency h5_f) as [fr|]; [|discriminate].
  destruct (amplitude h5_f) as [am|]; [|discriminate].
  destruct (offset h5_f) as [off|]; [|discriminate].
  destruct (excit_wfm h5_f) as [wfm_raw|]; [|discriminate].
  cbn [field Py.bind] in H.
  destruct (points_per_cycle _ _) as [ppc|e] eqn:Epc; [|discriminate].
  cbn [Py.bind] in H.
  destruct (Z.eqb_spec ppc 0) as [E0|Hp]; [discriminate|]. cbn [Py.bind] in H.
  destruct (pulse_of float32 h5_f) as [pdur ph] eqn:Ep.
  destruct (line_time h5_f) as [lt|]; [|discriminate].
  destruct (num_lines h5_f) as [nl|]; [|discriminate].
  destruct (scan_height h5_f) as [sh|]; [|discriminate].
  destruct (scan_width h5_f) as [sw|]; [|discriminate].
  destruct (scan_speed h5_f) as [ss|]; [|discriminate].
  cbn [field Py.bind] in H. injection H as <- <-.
  exists sr, fr, wfm_raw, ppc. rewrite length_map.
  repeat (split; [reflexivity || assumption|]). reflexivity.
Qed.

(** X7: the optional pulse.  When either pulse field is missing from the
    file, the pulse is dropped as a whole: time, height and points are 0,
    also when the duration is there.  A pulse of duration 0 has height 0
    whatever the file says. *)
Theorem read_parms_pulse_defaults (h5_f : giv_parm_file) (pd : parms) (wfm : list Q) :
  _read_parms float32 h5_f = Ok (pd, wfm) ->
  (pulse_duration h5_f = None \/ pulse_height h5_f = None ->
   excitation_pulse_time pd = float32 (inject_Z 0) /\
   excitation_pulse_height pd = float32 (inject_Z 0) /\
   excitation_pulse_points pd = 0) /\
  (forall d, pulse_duration h5_f = Some d ->
             Qeq_bool (float32 d) (inject_Z 0) = true ->
             excitation_pulse_height pd = float32 (inject_Z 0)).
Proof.
  intros H. apply read_parms_inv in H.
  destruct H as (sr & fr & wfm_raw & ppc & _ & _ & _ & _ & _ & H).
  cbv zeta in H. destruct H as (_ & Ht & Hh & Hp & _). split.
  - intros Hnone.
    assert (E : pulse_of float32 h5_f = (inject_Z 0, inject_Z 0)).
    { unfold pulse_of.
      destruct Hnone as [-> | ->]; [reflexivity|].
      now destruct (pulse_duration h5_f). }
    rewrite E in Ht, Hh, Hp. cbn [fst snd] in Ht, Hh, Hp.
    split; [exact Ht|]. split; [exact Hh|]. rewrite Hp.
    unfold np_round, Qmult, inject_Z. cbn. reflexivity.
  - intros d Hd Hz. rewrite Hh. unfold pulse_of. rewrite Hd.
    destruct (pulse_height h5_f) as [h|]; [|reflexivity].
    now rewrite Hz.
Qed.

(** X8: the slice that [_read_data] cuts from every line is the slice that
    [_read_parms] cut from the excitation waveform, provided the pulse
    points are a uint32 and the extra points are not negative: a line with
    as many samples as the stored waveform gives [excitation_length]
    samples, which is the width reserved for a row. *)
Theorem main_data_matches_waveform (h5_f : giv_parm_file) (pd : parms) (wfm : list Q)
    (wfm_raw : list Q) {X : Type} (line : list X) :
  _read_parms float32 h5_f = Ok (pd, wfm) ->
  excit_wfm h5_f = Some wfm_raw ->
  0 <= np_round (Qmult (fst (pulse_of float32 h5_f))
                       (inject_Z (np_uint32 (int_of_float
                          (match samp_rate h5_f with Some s => s | None => 0 end)))))
    < 2 ^ 32 ->
  0 <= excitation_extra_pts pd ->
  getslice (map float32 wfm_raw) (main_data pd) = wfm /\
  (length line = length wfm_raw ->
   Z.of_nat (length (getslice line (main_data pd))) = excitation_length pd).
Proof.
  intros H Hw Hpp He. apply read_parms_inv in H.
  destruct H as (sr & fr & wfm_raw' & ppc & Hsr & _ & Hw' & _ & _ & H).
  rewrite Hw in Hw'. injection Hw' as <-. rewrite Hsr in Hpp.
  cbv zeta in H. destruct H as (Hex & _ & _ & Hp & Hlen & Hwfm).
  assert (Hs : getslice (map float32 wfm_raw) (main_data pd) = wfm).
  { set (pp := np_round _) in Hpp, Hp, Hwfm.
    assert (Epp : excitation_pulse_points pd = pp).
    { rewrite Hp. unfold np_uint32 at 1. apply Z.mod_small. exact Hpp. }
    unfold main_data. rewrite Epp, Hwfm. rewrite Hex in He |- *.
    destruct (Z.eqb_spec (Z.of_nat (length wfm_raw) mod ppc) 0) as [E|E].
    - rewrite E. reflexivity.
    - destruct (Z.ltb_spec 0 (Z.of_nat (length wfm_raw) mod ppc)); [|lia].
      do 3 f_equal; try lia. }
  split; [exact Hs|].
  intros Hl. rewrite Hlen, <- Hs. f_equal.
  apply length_getslice_eq. now rewrite length_map.
Qed.

End Facts.

Lemma read_parms_pulse_defaults_witness :
  exists pd wfm,
    _read_parms exact Examples.giv_pulse_without_height = Ok (pd, wfm) /\
    excitation_pulse_time pd = inject_Z 0 /\
    excitation_pulse_height pd = inject_Z 0 /\
    excitation_pulse_points pd = 0 /\
    excitation_length pd = 10.
Proof.
  eexists. eexists. split; [vm_compute; reflexivity|].
  match goal with
  | |- excitation_pulse_time ?pd = _ /\ _ =>
      destruct (read_parms_pulse_defaults exact Examples.giv_pulse_without_height
                  pd (map inject_Z [0; 1; 2; 3; 4; 5; 6; 7; 8; 9]) eq_refl)
        as [Hnone _]
  end.
  destruct (Hnone (or_intror eq_refl)) as (Ht & Hh & Hp).
  split; [exact Ht|]. split; [exact Hh|]. split; [exact Hp|reflexivity].
Defined.

Lemma main_data_matches_waveform_witness :
  exists pd wfm,
    _read_parms exact example_parm_file = Ok (pd, wfm) /\
    main_data pd = mkslice (Some 0) (Some (-1)) /\
    Z.of_nat (length (getslice [10; 11; 12; 13; 14; 15; 16; 17; 18; 19; 20]
                               (main_data pd))) = 10.
Proof.
  eexists. eexists. split; [vm_compute; reflexivity|]. split; [reflexivity|].
  match goal with
  | |- Z.of_nat (length (getslice _ (main_data ?pd))) = _ =>
      destruct (main_data_matches_waveform exact example_parm_file pd
                  (map inject_Z [0; 1; 2; 3; 4; 5; 6; 7; 8; 9])
                  (map inject_Z [0; 1; 2; 3; 4; 5; 6; 7; 8; 9; 10])
                  [10; 11; 12; 13; 14; 15; 16; 17; 18; 19; 20]
                  eq_refl eq_refl) as [_ Hlen]
  end.
  - vm_compute. split; [discriminate|reflexivity].
  - vm_compute. discriminate.
  - rewrite Hlen; reflexivity.
Defined.

Lemma translate_missing_parms_witness :
  translate exact exact "missing.mat" example_world
  = (Raise (IOError "/data/giv/missing.mat"), example_world).
Proof.
  apply (GIVRowFacts.translate_missing_parms exact exact "missing.mat" example_world).
  reflexivity.
Defined.

End GIVMoreFacts.

(* --------------------------------------------------------------------- *)
(** *** Rows written into the main datasets *)
(* --------------------------------------------------------------------- *)

Module RowFacts.
Import Str MicroData Fs IO IOFacts FsFacts Rows GIV.

Lemma nth_error_update_eq {A : Type} (l : list A) (i : nat) (r : A) :
  (i < length l)%nat -> nth_error (firstn i l ++ r :: skipn (S i) l) i = Some r.
Proof.
  intros H. rewrite nth_error_app2 by (rewrite length_firstn; lia).
  rewrite length_firstn, Nat.min_l by lia. now rewrite Nat.sub_diag.
Qed.

Lemma Forall_update {A : Type} (P : A -> Prop) (l : list A) (i : nat) (r : A) :
  Forall P l -> P r -> Forall P (firstn i l ++ r :: skipn (S i) l).
Proof.
  intros Hl Hr. revert i. induction Hl as [|x l Hx Hl IH]; intros [|i]; cbn.
  - now constructor.
  - now constructor.
  - constructor; [exact Hr|exact Hl].
  - constructor; [exact Hx|apply IH].
Qed.

(** [h5_dset[i] = vec] on a dataset of [wd] columns. *)
Lemma h5_set_row_spec (f : h5file) (p : string) (i : Z) (vec : list Q)
    (d : h5dataset) (wd : Z) :
  Dict.get String.eqb p (h5_datasets f) = Some d ->
  0 <= i < Z.of_nat (length (h5_data d)) ->
  Forall (fun r => Z.of_nat (length r) = wd) (h5_data d) ->
  Z.of_nat (length vec) = wd ->
  exists f',
    h5_set_row f p i vec = Ok f' /\
    persisted f' p
    = Some (firstn (Z.to_nat i) (h5_data d) ++ vec :: skipn (S (Z.to_nat i)) (h5_data d)) /\
    forall q, q <> p -> persisted f' q = persisted f q.
Proof.
  intros Hd Hi Hw Hv. unfold h5_set_row. rewrite Hd.
  assert (Hwidth : match h5_data d with
                   | r :: _ => Z.of_nat (length r)
                   | [] => 0
                   end = wd).
  { destruct (h5_data d) as [|r rows]; [cbn in Hi; lia|]. now inversion Hw. }
  rewrite Hwidth. destruct (Z.eqb_spec (Z.of_nat (length vec)) wd) as [_|E];
    [|contradiction].
  cbn [Py.bind].
  pose proof (setrow_ok (h5_data d) (Z.to_nat i) vec ltac:(lia)) as Hs.
  rewrite Z2Nat.id in Hs by lia. rewrite Hs. cbn [Py.bind].
  eexists. split; [reflexivity|]. unfold persisted. cbn [h5_datasets]. split.
  - now rewrite dict_get_set_eq.
  - intros q Hq. now rewrite dict_get_set_ne.
Qed.

(** Whatever a successful row assignment writes, every dataset keeps its
    shape. *)
Lemma h5_set_row_shape (f f' : h5file) (p : string) (i : Z) (vec : list Q)
    (q : string) (rows : list (list Q)) (wd : Z) :
  h5_set_row f p i vec = Ok f' ->
  persisted f q = Some rows ->
  Forall (fun r => Z.of_nat (length r) = wd) rows ->
  exists rows',
    persisted f' q = Some rows' /\ length rows' = length rows /\
    Forall (fun r => Z.of_nat (length r) = wd) rows'.
Proof.
  unfold h5_set_row, persisted. intros H Hq Hw.
  destruct (Dict.get String.eqb p (h5_datasets f)) as [d|] eqn:Ed; [|discriminate].
  destruct (String.eqb_spec q p) as [->|Hne].
  - rewrite Ed in Hq. cbn in Hq. injection Hq as Hq.
    set (width := match h5_data d with r :: _ => Z.of_nat (length r) | [] => 0 end) in H.
    assert (Hvec : forall vec', (if Z.of_nat (length vec) =? width then Ok vec
                                 else match vec with
                                      | [x] => Ok (repeat x (Z.to_nat width))
                                      | _ => Raise (TypeError "Can't broadcast")
                                      end) = Ok vec' ->
                                Z.of_nat (length vec') = width).
    { intros vec'. destruct (Z.eqb_spec (Z.of_nat (length vec)) width) as [E|E].
      - intros H0. now injection H0 as <-.
      - destruct vec as [|x [|y t]]; try discriminate.
        intros H0. injection H0 as <-. rewrite repeat_length.
        unfold width. destruct (h5_data d); lia. }
    match type of H with
    | Py.bind ?m _ = _ => destruct m as [vec'|e] eqn:Ev; [|discriminate]
    end.
    specialize (Hvec vec' eq_refl). cbn [Py.bind] in H.
    unfold setrow in H.
    destruct (norm_index (Z.of_nat (length (h5_data d))) i) as [j|e] eqn:En;
      [|discriminate].
    cbn [Py.bind] in H. injection H as <-. cbn [h5_datasets].
    rewrite dict_get_set_eq. cbn [option_map h5_data]. eexists. split; [reflexivity|].
    assert (Hj : (j < length (h5_data d))%nat).
    { unfold norm_index in En.
      destruct ((0 <=? (if i <? 0 then i + Z.of_nat (length (h5_data d)) else i)) &&
                ((if i <? 0 then i + Z.of_nat (length (h5_data d)) else i)
                 <? Z.of_nat (length (h5_data d)))) eqn:Eb; [|discriminate].
      injection En as <-. lia. }
    rewrite Hq in *. split; [now apply length_update|].
    apply Forall_update; [exact Hw|].
    rewrite Hvec. unfold width. rewrite Hq.
    destruct rows as [|r rows]; [cbn in Hj; lia|]. now inversion Hw.
  - match type of H with
    | Py.bind ?m _ = _ => destruct m as [vec'|e]; [|discriminate]
    end.
    cbn [Py.bind] in H. destruct (setrow _ _ _) as [rows1|e]; [|discriminate].
    cbn [Py.bind] in H. injection H as <-. cbn [h5_datasets].
    rewrite dict_get_set_ne by exact Hne. rewrite Hq. now exists rows.
Qed.

Lemma data_at_set (w : world) (n : string) (sz : Z) (f : h5file) (q : string) :
  data_at (set_entries w (Dict.set String.eqb n (mk_file sz (H5 f)) (entries w))) n q
  = persisted f q.
Proof. unfold data_at. now rewrite CommitFacts.h5_of_set. Qed.

Lemma same_sources_set (w : world) (n : string) (sz : Z) (f f' : h5file) :
  Dict.get String.eqb n (entries w) = Some (mk_file sz (H5 f)) ->
  same_sources w (set_entries w (Dict.set String.eqb n (mk_file sz (H5 f')) (entries w))).
Proof.
  intros Hget. split; [reflexivity|]. split.
  - cbn [entries set_entries]. now rewrite (dict_keys_set_present _ _ _ _ Hget).
  - intros name. cbn [entries set_entries].
    destruct (String.eqb_spec name n) as [->|Hn].
    + rewrite dict_get_set_eq. right. now exists sz, f, f'.
    + rewrite dict_get_set_ne by exact Hn. now left.
Qed.

(** A row written into a dataset of the right shape. *)
Lemma write_row_spec (h5_name p : string) (i : Z) (vec : list Q) (w : world)
    (n wd : Z) :
  dset_rows w h5_name p n wd -> 0 <= i < n -> Z.of_nat (length vec) = wd ->
  exists w',
    write_row h5_name p i vec w = (Ok tt, w') /\
    data_row w' h5_name p i = Some vec /\
    (forall q j, q <> p \/ j <> i -> 0 <= j ->
                 data_row w' h5_name q j = data_row w h5_name q j) /\
    same_sources w w' /\ warnings w' = warnings w.
Proof.
  intros (rows & Hdata & Hn & Hw) Hi Hv.
  unfold data_at, h5_of in Hdata.
  destruct (Dict.get String.eqb h5_name (entries w)) as [[sz c]|] eqn:Hget;
    [|discriminate].
  destruct c as [| | | | | |f|]; try discriminate.
  unfold persisted in Hdata.
  destruct (Dict.get String.eqb p (h5_datasets f)) as [d|] eqn:Hd; [|discriminate].
  cbn in Hdata. injection Hdata as Hrows.
  destruct (h5_set_row_spec f p i vec d wd Hd) as (f' & Hset & Hp & Hother);
    [rewrite Hrows; lia|now rewrite Hrows|exact Hv|].
  unfold write_row, with_h5. rewrite Hget, Hset. cbn [Py.bind].
  eexists. split; [reflexivity|]. split; [|split; [|split]].
  - unfold data_row. rewrite data_at_set, Hp.
    apply nth_error_update_eq. rewrite Hrows. lia.
  - intros q j Hne Hj. unfold data_row. rewrite data_at_set.
    unfold data_at, h5_of. rewrite Hget.
    destruct (String.eqb_spec q p) as [->|Hq].
    + rewrite Hp. unfold persisted. rewrite Hd. cbn [option_map].
      apply GIVRowFacts.nth_error_update_ne; [|rewrite Hrows; lia].
      destruct Hne as [Hne|Hne]; [contradiction|lia].
    + now rewrite Hother.
  - exact (same_sources_set w h5_name sz f f' Hget).
  - reflexivity.
Qed.

(** A successful row assignment keeps the shape of every dataset. *)
Lemma write_row_shape (h5_name p : string) (i : Z) (vec : list Q) (w w' : world)
    (q : string) (n wd : Z) :
  write_row h5_name p i vec w = (Ok tt, w') ->
  dset_rows w h5_name q n wd -> dset_rows w' h5_name q n wd.
Proof.
  intros H (rows & Hdata & Hn & Hw).
  apply with_h5_inv in H. destruct H as (sz & f & f' & Hget & Hop & ->).
  destruct (h5_set_row f p i vec) as [f1|e] eqn:Eset; [|discriminate].
  cbn in Hop. injection Hop as <-.
  unfold data_at, h5_of in Hdata. rewrite Hget in Hdata.
  destruct (h5_set_row_shape f f1 p i vec q rows wd Eset Hdata Hw)
    as (rows' & Hp & Hl & Hw').
  exists rows'. rewrite data_at_set. split; [exact Hp|]. split; [lia|exact Hw'].
Qed.

Section GLineRows.

Import GLine.

Variable float16 : Q -> Q.

(** The samples of row [i] of a data file with rows of [wd] samples. *)
Lemma read_row_whole (f : file) (samples : list Q) (wd i : Z) :
  fdata f = BigTime samples ->
  fsize f = 4 * Z.of_nat (length samples) ->
  0 <= wd -> 0 <= i -> (i + 1) * wd <= Z.of_nat (length samples) ->
  read_row f (4 * wd) i
  = Ok (getslice samples (mkslice (Some (i * wd)) (Some ((i + 1) * wd)))).
Proof.
  intros Hd Hs Hw Hi Hlen. unfold read_row. rewrite Hd, Hs.
  assert (E1 : i * (4 * wd) = 4 * (i * wd)) by ring.
  assert (E2 : (i + 1) * (4 * wd) = 4 * ((i + 1) * wd)) by ring.
  assert (Hle : i * wd <= (i + 1) * wd) by nia.
  assert (Hge : 0 <= i * wd) by nia.
  rewrite E1, E2. set (a := i * wd) in *. set (b := (i + 1) * wd) in *.
  clearbody a b.
  rewrite !Z.min_r by lia.
  replace (4 * b - 4 * a) with ((b - a) * 4) by ring.
  rewrite Z.mod_mul by lia. cbn [Z.eqb negb].
  rewrite Z.div_mul by lia.
  replace (4 * a) with (a * 4) by ring. rewrite Z.div_mul by lia.
  do 4 f_equal. lia.
Qed.

Lemma gline_rows_from (h5_name p : string) (f : file) (samples : list Q)
    (num_rows wd n : Z) :
  fdata f = BigTime samples ->
  fsize f = 4 * Z.of_nat (length samples) ->
  0 <= wd -> num_rows * wd <= Z.of_nat (length samples) -> num_rows <= n ->
  forall (m : nat) (k : Z) (w : world),
    m = Z.to_nat (num_rows - k) -> 0 <= k <= num_rows ->
    dset_rows w h5_name p n wd ->
    exists w',
      IO.for_each (range k num_rows)
        (fun row_indx =>
           IO.bind (IO.lift (read_row f (4 * wd) row_indx))
                   (fun data_vec =>
                      write_row h5_name p row_indx (map float16 data_vec))) w
      = (Ok tt, w') /\
      (forall i, k <= i < num_rows ->
         data_row w' h5_name p i
         = Some (map float16
                     (getslice samples (mkslice (Some (i * wd)) (Some ((i + 1) * wd)))))) /\
      (forall q j, q <> p \/ j < k -> 0 <= j ->
                   data_row w' h5_name q j = data_row w h5_name q j) /\
      same_sources w w' /\ warnings w' = warnings w.
Proof.
  intros Hd Hs Hw Hlen Hn. induction m as [|m IH]; intros k w Hm Hk Hrows.
  - rewrite range_empty by lia. exists w. split; [reflexivity|].
    split; [intros i Hi; lia|]. split; [reflexivity|].
    split; [apply GIVRowFacts.same_sources_refl|reflexivity].
  - rewrite range_cons by lia. cbn [IO.for_each].
    assert (Hfit : (k + 1) * wd <= Z.of_nat (length samples)) by nia.
    unfold IO.bind at 1. unfold IO.bind at 1. unfold IO.lift at 1.
    rewrite (read_row_whole f samples wd k Hd Hs Hw) by lia.
    assert (Hvl : Z.of_nat (length (map float16
                    (getslice samples (mkslice (Some (k * wd)) (Some ((k + 1) * wd))))))
                  = wd).
    { rewrite length_map, GIVParmsFacts.length_getslice by nia. ring. }
    destruct (write_row_spec h5_name p k _ w n wd Hrows ltac:(lia) Hvl)
      as (w1 & Hwr & Hrow & Hoth & Hsrc & Hwarn).
    rewrite Hwr.
    destruct (IH (k + 1) w1 ltac:(lia) ltac:(lia)
                 (write_row_shape _ _ _ _ _ _ _ _ _ Hwr Hrows))
      as (w' & Hrun & Hnew & Hold & Hsrc' & Hwarn').
    exists w'. split; [exact Hrun|]. split; [|split; [|split]].
    + intros i Hi. destruct (Z.eq_dec i k) as [->|Hne].
      * rewrite Hold; [exact Hrow|right; lia|lia].
      * apply Hnew. lia.
    + intros q j Hq Hj.
      rewrite Hold; [|destruct Hq; [now left|right; lia]|exact Hj].
      apply Hoth; [|exact Hj]. destruct Hq; [now left|right; lia].
    + destruct Hsrc as (A1 & A2 & A3), Hsrc' as (B1 & B2 & B3).
      split; [congruence|]. split; [congruence|].
      intros name. destruct (A3 name) as [E|(sz & f0 & f1 & E0 & E1)],
        (B3 name) as [E'|(sz' & g0 & g1 & E0' & E1')].
      * left. congruence.
      * right. exists sz', g0, g1. split; congruence.
      * right. exists sz, f0, f1. split; congruence.
      * right. exists sz, f0, g1. split; [exact E0|]. rewrite E1'. congruence.
    + congruence.
Qed.

(** X9: [_read_data] of the G-line translator on a data file of 4-byte
    floats that holds at least [num_rows] rows of [wd] samples, and a main
    dataset with room for them: the call returns, and row [i] of the
    dataset holds the float16 of the samples [i * wd .. (i + 1) * wd - 1]
    of the file; other datasets, the files of the folder and the warnings
    are as before. *)
Theorem gline_read_data_rows (h5_name filepath h5_dset : string) (w : world)
    (f : file) (samples : list Q) (num_rows wd n : Z) :
  read filepath w = (Ok f, w) ->
  fdata f = BigTime samples ->
  fsize f = 4 * Z.of_nat (length samples) ->
  0 <= wd -> 0 <= num_rows -> num_rows * wd <= Z.of_nat (length samples) ->
  num_rows <= n ->
  dset_rows w h5_name h5_dset n wd ->
  exists w',
    _read_data float16 h5_name num_rows (4 * wd) filepath h5_dset w = (Ok tt, w') /\
    (forall i, 0 <= i < num_rows ->
       data_row w' h5_name h5_dset i
       = Some (map float16
                   (getslice samples (mkslice (Some (i * wd)) (Some ((i + 1) * wd)))))) /\
    (forall q j, q <> h5_dset -> 0 <= j ->
                 data_row w' h5_name q j = data_row w h5_name q j) /\
    same_sources w w' /\ warnings w' = warnings w.
Proof.
  intros Hread Hd Hs Hw Hr Hlen Hn Hrows.
  destruct (gline_rows_from h5_name h5_dset f samples num_rows wd n Hd Hs Hw Hlen Hn
              (Z.to_nat (num_rows - 0)) 0 w eq_refl ltac:(lia) Hrows)
    as (w' & Hrun & Hnew & Hold & Hsrc & Hwarn).
  exists w'. unfold _read_data, IO.bind at 1. rewrite Hread.
  split; [exact Hrun|]. split; [exact Hnew|]. split; [|now split].
  intros q j Hq Hj. apply Hold; [now left|exact Hj].
Qed.

End GLineRows.

Lemma gline_read_data_rows_witness :
  exists w',
    GLine._read_data exact "exp.h5" 2 16 "/data/exp/exp_bigtime_00.dat"
                     "/Measurement_000/Channel_000/Raw_Data" Examples.gline_reserved
    = (Ok tt, w') /\
    data_row w' "exp.h5" "/Measurement_000/Channel_000/Raw_Data" 0
    = Some (map inject_Z [1; 2; 3; 4]) /\
    data_row w' "exp.h5" "/Measurement_000/Channel_000/Raw_Data" 1
    = Some (map inject_Z [5; 6; 7; 8]).
Proof.
  destruct (gline_read_data_rows exact "exp.h5" "/data/exp/exp_bigtime_00.dat"
              "/Measurement_000/Channel_000/Raw_Data" Examples.gline_reserved
              (mk_file 32 (BigTime (map inject_Z [1; 2; 3; 4; 5; 6; 7; 8])))
              (map inject_Z [1; 2; 3; 4; 5; 6; 7; 8]) 2 4 2
              eq_refl eq_refl eq_refl)
    as (w' & Hrun & Hrows & _); try (cbn; lia).
  - eexists. split; [reflexivity|]. split; [reflexivity|]. repeat constructor.
  - exists w'. split; [exact Hrun|]. split.
    + exact (Hrows 0 ltac:(lia)).
    + exact (Hrows 1 ltac:(lia)).
Defined.

Section GIVRows.

Variable float16 : Q -> Q.

Lemma same_sources_trans (w1 w2 w3 : world) :
  same_sources w1 w2 -> same_sources w2 w3 -> same_sources w1 w3.
Proof.
  intros (A1 & A2 & A3) (B1 & B2 & B3).
  split; [congruence|]. split; [congruence|].
  intros name. destruct (A3 name) as [E|(sz & f0 & f1 & E0 & E1)],
    (B3 name) as [E'|(sz' & g0 & g1 & E0' & E1')].
  - left. congruence.
  - right. exists sz', g0, g1. split; congruence.
  - right. exists sz, f0, f1. split; congruence.
  - right. exists sz, f0, g1. split; [exact E0|]. rewrite E1'. congruence.
Qed.

Lemma same_sources_open_line (w w' : world) (path : string) (shape1 : Z)
    (data : list (list Q)) :
  same_sources w w' ->
  open_line path w = (Ok (shape1, data), w) ->
  open_line path w' = (Ok (shape1, data), w').
Proof.
  intros (Hfp & Hk & Hget) Hopen.
  apply GIVRowFacts.open_line_ok in Hopen. destruct Hopen as (name & sz & Hn & Hg).
  unfold open_line, IO.bind, read.
  rewrite (GIVRowFacts.name_of_path_keys w w' _ Hfp Hk), Hn.
  destruct (Hget name) as [E|(sz0 & f & f' & E & _)]; [|congruence].
  rewrite E, Hg. reflexivity.
Qed.

Lemma column_ok (chan : Z) (rows : list (list Q)) :
  Forall (fun row => 0 <= chan < Z.of_nat (length row)) rows ->
  mapM (fun row => getrow row chan) rows = Ok (column chan rows).
Proof.
  intros H. apply mapM_ok. eapply Forall_impl; [|exact H].
  intros row Hrow. now apply getrow_ok.
Qed.

(** The loop over the channels of one line. *)
Lemma giv_channels_from (h5_name : string) (i n wd : Z) (kept_rows : list (list Q)) :
  0 <= i < n -> Z.of_nat (length kept_rows) = wd ->
  forall (chans : list string) (c : Z) (w : world),
    0 <= c -> NoDup chans ->
    Forall (fun p => dset_rows w h5_name p n wd) chans ->
    Forall (fun row => c + Z.of_nat (length chans) <= Z.of_nat (length row)) kept_rows ->
    exists w',
      IO.for_each (enumerate_from c chans)
        (fun ch =>
           IO.bind (IO.lift (mapM (fun row => getrow row (fst ch)) kept_rows))
                   (fun col => write_row h5_name (snd ch) i (map float16 col))) w
      = (Ok tt, w') /\
      (forall k p, nth_error chans k = Some p ->
         data_row w' h5_name p i
         = Some (map float16 (column (c + Z.of_nat k) kept_rows))) /\
      (forall q j, ~ In q chans \/ j <> i -> 0 <= j ->
                   data_row w' h5_name q j = data_row w h5_name q j) /\
      same_sources w w' /\ warnings w' = warnings w.
Proof.
  intros Hi Hlen. induction chans as [|p chans IH]; intros c w Hc Hnd Hall Hrows.
  - exists w. split; [reflexivity|]. split; [intros [|k] p H; discriminate|].
    split; [reflexivity|]. split; [apply GIVRowFacts.same_sources_refl|reflexivity].
  - inversion Hnd as [|? ? Hnotin Hnd']; subst.
    inversion Hall as [|? ? Hp Hall']; subst.
    cbn [enumerate_from IO.for_each fst snd].
    unfold IO.bind at 1. unfold IO.bind at 1. unfold IO.lift at 1.
    rewrite (column_ok c kept_rows).
    2:{ eapply Forall_impl; [|exact Hrows]. cbn [length]. intros row Hr. lia. }
    assert (Hvl : Z.of_nat (length (map float16 (column c kept_rows)))
                  = Z.of_nat (length kept_rows)).
    { unfold column. now rewrite !length_map. }
    destruct (write_row_spec h5_name p i _ w n _ Hp Hi Hvl)
      as (w1 & Hwr & Hrow & Hoth & Hsrc & Hwarn).
    rewrite Hwr.
    destruct (IH (c + 1) w1 ltac:(lia) Hnd') as (w' & Hrun & Hnew & Hold & Hsrc' & Hwarn').
    { eapply Forall_impl; [|exact Hall']. intros q Hq.
      exact (write_row_shape _ _ _ _ _ _ _ _ _ Hwr Hq). }
    { eapply Forall_impl; [|exact Hrows]. cbn [length]. intros row Hr. lia. }
    exists w'. split; [exact Hrun|]. split; [|split; [|split]].
    + intros [|k] q Hq; cbn [nth_error] in Hq.
      * injection Hq as <-. rewrite Hold; [|now left|lia].
        rewrite Hrow. do 3 f_equal. lia.
      * rewrite (Hnew k q Hq). do 3 f_equal. lia.
    + intros q j Hq Hj.
      rewrite Hold; [|destruct Hq as [Hq|Hq]; [left; intros H; apply Hq; now right
                                               |now right]|exact Hj].
      apply Hoth; [|exact Hj].
      destruct Hq as [Hq|Hq]; [left; intros ->; apply Hq; now left|now right].
    + exact (same_sources_trans _ _ _ Hsrc Hsrc').
    + congruence.
Qed.

(** One iteration of [_read_data] on a line that can be read. *)
Lemma read_line_good (parm_dict : parms) (folder h5_name : string)
    (raw_datasets : list string) (i n : Z) (w : world) (shape1 : Z)
    (data : list (list Q)) :
  0 <= i < n ->
  open_line (line_file folder i) w = (Ok (shape1, data), w) ->
  excitation_length parm_dict <= Z.of_nat (length data) ->
  shape1 = Z.of_nat (length raw_datasets) ->
  NoDup raw_datasets ->
  Forall (fun p => dset_rows w h5_name p n
                     (Z.of_nat (length (getslice data (main_data parm_dict)))))
         raw_datasets ->
  Forall (fun row => shape1 <= Z.of_nat (length row)) data ->
  exists w',
    read_line float16 parm_dict folder h5_name raw_datasets i w = (Ok tt, w') /\
    (forall chan p, nth_error raw_datasets chan = Some p ->
       data_row w' h5_name p i
       = Some (map float16 (column (Z.of_nat chan)
                                   (getslice data (main_data parm_dict))))) /\
    (forall q j, ~ In q raw_datasets \/ j <> i -> 0 <= j ->
                 data_row w' h5_name q j = data_row w h5_name q j) /\
    same_sources w w' /\ warnings w' = warnings w.
Proof.
  intros Hi Hopen Hlen Hshape Hnd Hall Hrows.
  assert (Hex : path_exists w (line_file folder i) = true).
  { apply GIVRowFacts.open_line_ok in Hopen. destruct Hopen as (name & sz & Hn & _).
    unfold path_exists. now rewrite Hn. }
  destruct (giv_channels_from h5_name i n _ (getslice data (main_data parm_dict))
              Hi eq_refl raw_datasets 0 w ltac:(lia) Hnd Hall)
    as (w' & Hrun & Hnew & Hold & Hsrc & Hwarn).
  { unfold getslice. destruct (slice_indices _ _) as [a b].
    apply Forall_forall. intros row Hin.
    apply (In_nth_error _ _) in Hin. destruct Hin as [k Hk].
    rewrite nth_error_firstn in Hk.
    destruct (Nat.ltb k (Z.to_nat (b - a))); [|discriminate].
    rewrite nth_error_skipn in Hk. apply nth_error_In in Hk.
    rewrite Forall_forall in Hrows. specialize (Hrows row Hk). lia. }
  exists w'. unfold read_line, IO.bind at 1. cbn [IO.get]. rewrite Hex.
  unfold IO.bind at 1. rewrite Hopen.
  replace ((excitation_length parm_dict <=? Z.of_nat (length data)) &&
           (shape1 =? Z.of_nat (length raw_datasets))) with true
    by (symmetry; apply andb_true_iff; split; lia).
  split; [exact Hrun|]. split; [|now split].
  intros chan p Hp. now rewrite (Hnew chan p Hp).
Qed.

(** A successful iteration keeps the shape of every dataset. *)
Lemma read_line_shape (parm_dict : parms) (folder h5_name : string)
    (raw_datasets : list string) (j : Z) (q : string) (n wd : Z) :
  triple (fun w => dset_rows w h5_name q n wd)
         (read_line float16 parm_dict folder h5_name raw_datasets j)
         (fun _ w => dset_rows w h5_name q n wd).
Proof.
  unfold read_line.
  apply triple_bind with (R := fun _ w => dset_rows w h5_name q n wd);
    [apply triple_get; auto|intros w1].
  assert (Hwarn : forall msg,
             triple (fun w => dset_rows w h5_name q n wd) (warn msg)
                    (fun _ w => dset_rows w h5_name q n wd)).
  { intros msg. apply triple_modify. intros w H. exact H. }
  destruct (path_exists w1 _); [|apply Hwarn].
  eapply triple_bind; [apply GIVRowFacts.open_line_keeps|]. intros [shape1 data].
  destruct (_ && _); [|apply Hwarn].
  apply for_each_keeps. intros ch.
  apply triple_bind with (R := fun _ w => dset_rows w h5_name q n wd);
    [apply triple_lift; auto|intros col].
  intros w H. destruct (write_row _ _ _ _ w) as [[[]|e] w'] eqn:E; [|exact I].
  exact (write_row_shape _ _ _ _ _ _ _ _ _ E H).
Qed.

(** X10: a line that can be read.  When the line file of row [i] holds at
    least [excitation_length] samples for as many channels as there are
    main datasets, and its kept samples fill a row of the datasets, then at
    the end of a returning [_read_data] row [i] of the dataset of channel
    [chan] holds the float16 of column [chan] of the kept samples. *)
Theorem read_data_good_row (parm_dict : parms) (folder h5_name : string)
    (raw_datasets : list string) (w w' : world) (i : Z) (shape1 : Z)
    (data : list (list Q)) :
  0 <= i < grid_num_rows parm_dict ->
  open_line (line_file folder i) w = (Ok (shape1, data), w) ->
  excitation_length parm_dict <= Z.of_nat (length data) ->
  shape1 = Z.of_nat (length raw_datasets) ->
  Forall (fun row => shape1 <= Z.of_nat (length row)) data ->
  NoDup raw_datasets ->
  Forall (fun p => dset_rows w h5_name p (grid_num_rows parm_dict)
                     (Z.of_nat (length (getslice data (main_data parm_dict)))))
         raw_datasets ->
  _read_data float16 parm_dict folder h5_name raw_datasets w = (Ok tt, w') ->
  forall chan p, nth_error raw_datasets chan = Some p ->
    data_row w' h5_name p i
    = Some (map float16 (column (Z.of_nat chan)
                                (getslice data (main_data parm_dict)))).
Proof.
  intros Hi Hopen Hlen Hshape Hrows Hnd Hall Hrun chan p Hp.
  unfold _read_data in Hrun.
  rewrite (GIVRowFacts.range_app 0 i) in Hrun by lia.
  rewrite GIVRowFacts.for_each_app in Hrun.
  apply bind_ok in Hrun. destruct Hrun as (u & w1 & E1 & Hrun).
  assert (K1 : GIV.kept h5_name i w w1).
  { refine (triple_run _ _ (fun _ => GIV.kept h5_name i w) _ _ _ _ _ E1).
    - apply GIVRowFacts.for_each_keeps_in. intros j Hj. apply in_range in Hj.
      apply GIVRowFacts.read_line_kept; lia.
    - apply GIVRowFacts.kept_refl. }
  destruct K1 as (Hs1 & _ & _).
  assert (Hall1 : Forall (fun p => dset_rows w1 h5_name p (grid_num_rows parm_dict)
                     (Z.of_nat (length (getslice data (main_data parm_dict)))))
                         raw_datasets).
  { apply Forall_forall. intros q Hq. rewrite Forall_forall in Hall.
    refine (triple_run (fun w => dset_rows w h5_name q _ _) _
              (fun _ w => dset_rows w h5_name q _ _) _ _ _ _ (Hall q Hq) E1).
    apply for_each_keeps. intros j. apply read_line_shape. }
  rewrite (range_cons i) in Hrun by lia. cbn [IO.for_each] in Hrun.
  destruct (read_line_good parm_dict folder h5_name raw_datasets i _ w1 shape1 data
              Hi (same_sources_open_line _ _ _ _ _ Hs1 Hopen) Hlen Hshape Hnd Hall1 Hrows)
    as (w2 & Hstep & Hnew & _).
  unfold IO.bind at 1 in Hrun. rewrite Hstep in Hrun.
  assert (K2 : GIV.kept h5_name i w2 w').
  { refine (triple_run _ _ (fun _ => GIV.kept h5_name i w2) _ _ _ _ _ Hrun).
    - apply GIVRowFacts.for_each_keeps_in. intros j Hj. apply in_range in Hj.
      apply GIVRowFacts.read_line_kept; lia.
    - apply GIVRowFacts.kept_refl. }
  destruct K2 as (_ & Hd2 & _). rewrite Hd2. exact (Hnew chan p Hp).
Qed.

End GIVRows.

Lemma read_data_good_row_witness :
  let r := _read_data exact Examples.giv_parms "/data/giv" "giv.h5"
                      ["/Measurement_000/Channel_000/Raw_Data"%string]
                      Examples.giv_reserved in
  fst r = Ok tt /\
  data_row (snd r) "giv.h5" "/Measurement_000/Channel_000/Raw_Data" 0
  = Some (map inject_Z [10; 11; 12; 13; 14; 15; 16; 17; 18; 19]).
Proof.
  intros r. subst r. split; [vm_compute; reflexivity|].
  refine (read_data_good_row exact Examples.giv_parms "/data/giv" "giv.h5"
            ["/Measurement_000/Channel_000/Raw_Data"%string]
            Examples.giv_reserved _ 0 1
            (map (fun x => [inject_Z x]) [10; 11; 12; 13; 14; 15; 16; 17; 18; 19; 20])
            _ eq_refl _ eq_refl _ _ _ _ 0%nat _ eq_refl).
  - cbn. lia.
  - cbn. lia.
  - repeat constructor; cbn; lia.
  - repeat constructor. intros [].
  - constructor; [|constructor].
    eexists. split; [reflexivity|]. split; [reflexivity|]. repeat constructor.
  - run_to_pair.
Defined.

End RowFacts.

(* --------------------------------------------------------------------- *)
(** *** G-line: the names that [_parse_file_path] accepts *)
(* --------------------------------------------------------------------- *)

Module GLineMoreFacts.
Import Str MicroData Fs IO IOFacts FsFacts GLine.

(** A name that starts with the searched string has it at position 0. *)
Lemma find_leading (n target : string) :
  target <> ""%string -> startswith n target = true -> find n target = 0.
Proof.
  intros Ht H. unfold startswith in H. unfold find.
  destruct n as [|b n'].
  - destruct target; [contradiction|discriminate].
  - cbn [String.index]. now rewrite H.
Qed.

(** One file name whose searched string is missing or leading: the data
    paths stay as they are, and the step does not raise. *)
Lemma parse_step_no_data (folder : string) (pp : list (string * string))
    (dp : list (Z * string)) (n : string) :
  find n "bigtime_0" <= 0 ->
  exists pp', parse_step folder (pp, dp) n = Ok (pp', dp).
Proof.
  intros H. unfold parse_step.
  destruct (Z.ltb_spec 0 (find n "bigtime_0")); [lia|].
  cbn [andb Py.bind]. eexists. reflexivity.
Qed.

(** X11: the data files are found by [find(...) > 0]: a file whose name
    starts with [bigtime_0] is passed over like a file that does not have
    it.  In a folder with only such names the parse returns no data path
    at all. *)
Theorem parse_passes_over_leading_names (w : world) :
  Forall (fun n => startswith n "bigtime_0" = true \/ find n "bigtime_0" = -1)
         (listdir w) ->
  exists parm_paths, _parse_file_path w = Ok (folder_name w, parm_paths, []).
Proof.
  intros H. unfold _parse_file_path.
  assert (Hfold : forall names pp,
             Forall (fun n => find n "bigtime_0" <= 0) names ->
             exists pp', foldM (parse_step (folder_path w)) names (pp, [])
                         = Ok (pp', [])).
  { induction names as [|n names IH]; intros pp Hn.
    - exists pp. reflexivity.
    - inversion Hn as [|? ? Hx Ht]; subst. cbn [foldM].
      destruct (parse_step_no_data (folder_path w) pp [] n Hx) as (pp1 & ->).
      cbn [Py.bind]. now apply IH. }
  destruct (Hfold (listdir w) []) as (pp' & ->).
  - eapply Forall_impl; [|exact H]. intros n [Hs|Hm]; [|lia].
    rewrite (find_leading n "bigtime_0"); [lia|discriminate|exact Hs].
  - exists pp'. reflexivity.
Qed.

Lemma parse_passes_over_leading_names_witness :
  _parse_file_path Examples.gline_leading_name
  = Ok ("exp"%string, [("parm_mat"%string, "/data/exp/exp_all.mat"%string)], []).
Proof.
  destruct (parse_passes_over_leading_names Examples.gline_leading_name) as (pp & H).
  - apply Forall_cons; [now left|]. apply Forall_cons; [now right|].
    apply Forall_cons; [now right|]. apply Forall_nil.
  - rewrite H. vm_compute in H. now injection H as <-.
Defined.

Section Facts.

Variable float32 : Q -> Q.
Variable float16 : Q -> Q.

(** A data file name whose character after [bigtime_0] is not a digit. *)
Lemma parse_step_unnumbered (folder : string) (st : list (string * string) * list (Z * string))
    (n : string) :
  0 < find n "bigtime_0" -> endswith n ".dat" = true ->
  (forall c, String.get (Z.to_nat (find n "bigtime_0" + 9)) n = Some c ->
             exists e, int_of_char c = Raise e) ->
  exists e, parse_step folder st n = Raise e.
Proof.
  intros Hind Hdat Hc. destruct st as [pp dp]. unfold parse_step.
  destruct (Z.ltb_spec 0 (find n "bigtime_0")); [|lia]. rewrite Hdat.
  cbn [andb String.length Z.of_nat Pos.of_succ_nat Pos.succ].
  destruct (String.get _ n) as [c|] eqn:Eg.
  - destruct (Hc c eq_refl) as (e & ->). exists e. reflexivity.
  - eexists. reflexivity.
Qed.

(** X12: a [.dat] file that has [bigtime_0] inside its name, followed by
    something that is not a digit, makes [_parse_file_path] raise; the
    translation then stops before the folder is touched. *)
Theorem translate_rejects_unnumbered_data_file (w : world) (n : string) :
  In n (listdir w) ->
  0 < find n "bigtime_0" -> endswith n ".dat" = true ->
  (forall c, String.get (Z.to_nat (find n "bigtime_0" + 9)) n = Some c ->
             exists e, int_of_char c = Raise e) ->
  exists e,
    _parse_file_path w = Raise e /\
    translate float32 float16 w = (Raise e, w).
Proof.
  intros Hin Hind Hdat Hc.
  assert (Hfold : forall names st,
             In n names ->
             exists e, foldM (parse_step (folder_path w)) names st = Raise e).
  { induction names as [|m names IH]; intros st Hn; [destruct Hn|].
    destruct Hn as [->|Hrest]; cbn [foldM].
    - destruct (parse_step_unnumbered (folder_path w) st n Hind Hdat Hc) as (e & ->).
      exists e. reflexivity.
    - destruct (parse_step (folder_path w) st m) as [st1|e]; [|now exists e].
      cbn [Py.bind]. now apply IH. }
  destruct (Hfold (listdir w) ([], []) Hin) as (e & He).
  exists e.
  assert (Hp : _parse_file_path w = Raise e).
  { unfold _parse_file_path. now rewrite He. }
  split; [exact Hp|].
  unfold translate, IO.bind at 1. cbn [IO.get].
  unfold IO.bind at 1, IO.lift at 1. now rewrite Hp.
Qed.

End Facts.

Lemma translate_rejects_unnumbered_data_file_witness :
  translate exact exact Examples.gline_unnumbered
  = (Raise (ValueError "invalid literal for int() with base 10"),
     Examples.gline_unnumbered) /\
  path_exists Examples.gline_unnumbered "/data/exp/exp.h5" = true.
Proof.
  destruct (translate_rejects_unnumbered_data_file exact exact
              Examples.gline_unnumbered "exp_bigtime_0.dat")
    as (e & Hp & Ht).
  - right. now left.
  - reflexivity.
  - reflexivity.
  - intros c Hc. vm_compute in Hc. injection Hc as <-. eexists. reflexivity.
  - vm_compute in Hp. injection Hp as <-. split; [exact Ht|reflexivity].
Defined.

End GLineMoreFacts.

(* --------------------------------------------------------------------- *)
(** *** G-mode IV: the output file of a run *)
(* --------------------------------------------------------------------- *)

Module GIVRunFacts.
Import Str MicroData Fs IO IOFacts FsFacts CommitFacts SpecValuesFacts GIV.

Lemma build_one_dimension (x : Z) (is_spectral : bool) (steps : option (list Q))
    (label unit : string) :
  steps = None \/ (exists s, steps = Some [s]) ->
  exists r, build_ind_val_dsets [x] is_spectral steps None [label] [unit] = Ok r.
Proof.
  intros [->|(s & ->)]; eexists; reflexivity.
Qed.

Lemma without_output_folder (w : world) :
  folder_path (without_output w) = folder_path w.
Proof. unfold without_output. now destruct (path_exists w _). Qed.

Section Facts.

Variable float32 : Q -> Q.
Variable float16 : Q -> Q.

Lemma read_line_keeps_output (folder0 h5_name0 : string) (parm_dict : parms)
    (folder h5_name : string) (raw_datasets : list string) (j : Z) :
  triple (has_output folder0 h5_name0)
         (read_line float16 parm_dict folder h5_name raw_datasets j)
         (fun _ => has_output folder0 h5_name0).
Proof.
  unfold read_line.
  apply triple_bind with (R := fun _ => has_output folder0 h5_name0);
    [apply triple_get; auto|intros w1].
  destruct (path_exists w1 _); [|apply warn_keeps_output].
  eapply triple_bind; [apply GIVRowFacts.open_line_keeps|]. intros [shape1 data].
  destruct (_ && _); [|apply warn_keeps_output].
  apply for_each_keeps. intros ch.
  apply triple_bind with (R := fun _ => has_output folder0 h5_name0);
    [apply triple_lift; auto|intros col].
  apply write_row_keeps_output.
Qed.

(** X13: a returning run of the G-mode IV translator returns the path of
    the translated file, named after the folder of the parameter file, and
    the file exists. *)
Theorem giv_translate_output (parm_name : string) (w w' : world) (p : string) :
  translate float32 float16 parm_name w = (Ok p, w') ->
  p = join (folder_path w) (folder_name w ++ ".h5") /\
  path_exists w' p = true.
Proof.
  intros H. unfold translate in H.
  apply bind_ok in H. destruct H as (w0 & w1 & E & H).
  cbn in E. injection E as <- <-.
  apply bind_ok in H. destruct H as (h5_f & w1 & E & H).
  pose proof (open_parms_inv _ _ _ _ E). subst w1. clear E.
  apply bind_ok in H. destruct H as ([parm_dict excit_wfm] & w1 & E1 & H).
  apply lift_inv in E1. destruct E1 as [_ ->].
  apply bind_ok in H. destruct H as (u & w1 & E2 & H).
  rewrite remove_output in E2. injection E2 as _ <-.
  apply bind_ok in H. destruct H as (spec & w1 & E2 & H).
  apply lift_inv in E2. destruct E2 as [_ ->].
  apply bind_ok in H. destruct H as (pos & w1 & E2 & H).
  apply lift_inv in E2. destruct E2 as [_ ->].
  apply bind_ok in H. destruct H as (line1 & w1 & E2 & H).
  pose proof (open_line_inv _ _ _ _ E2). subst w1. clear E2.
  set (h5_name := (folder_name w ++ ".h5")%string) in *.
  apply bind_ok in H. destruct H as (u1 & w1 & E3 & H).
  assert (Hc : has_output (folder_path w) h5_name w1).
  { cbn in E3. injection E3 as _ <-. split; [apply without_output_folder|].
    cbn. apply dict_keys_set_in. }
  apply bind_ok in H. destruct H as (u2 & w2 & E4 & H).
  pose proof (triple_run _ _ _ _ _ _
                (with_h5_keeps_output (folder_path w) h5_name h5_name _) Hc E4) as Hw2.
  cbv beta in Hw2.
  apply bind_ok in H. destruct H as (raw_datasets & w3 & E5 & H).
  assert (Hw3 : has_output (folder_path w) h5_name w3).
  { match type of E5 with
    | IO.map_each ?l ?body _ = _ =>
        pose proof (triple_run _ _ _ _ _ _
                      (triple_map_each (fun _ => has_output (folder_path w) h5_name)
                         (fun _ => True) body l
                         (fun done x =>
                            triple_weaken _ _ _ _ _
                              (commit_channel_keeps_output (folder_path w) h5_name
                                 h5_name _)
                              (fun w0 Hw0 => Hw0)
                              (fun a w0 Hw0 => conj Hw0 I))
                         [])
                      Hw2 E5) as [Hr _]
    end.
    exact Hr. }
  apply bind_ok in H. destruct H as (u3 & w4 & E6 & H).
  cbn in H. injection H as <- <-. split; [reflexivity|].
  apply has_output_exists.
  refine (triple_run (has_output (folder_path w) h5_name) _
            (fun _ => has_output (folder_path w) h5_name) w3 w4 u3 _ Hw3 E6).
  unfold _read_data. apply for_each_keeps. intros j. apply read_line_keeps_output.
Qed.

(** X14: the number of channels is read from [line_1.mat].  When the
    parameter file is read but that line file is missing, the run raises
    at its opening: by then an earlier output has been removed, and no new
    file has been created. *)
Theorem giv_translate_missing_first_line (parm_name : string) (w : world)
    (h5_f : giv_parm_file) (parm_dict : parms) (excit_wfm : list Q) :
  open_parms (join (folder_path w) parm_name) w = (Ok h5_f, w) ->
  _read_parms float32 h5_f = Ok (parm_dict, excit_wfm) ->
  path_exists (without_output w) (join (folder_path w) "line_1.mat") = false ->
  translate float32 float16 parm_name w
  = (Raise (IOError (join (folder_path w) "line_1.mat")), without_output w) /\
  path_exists (without_output w) (join (folder_path w) (folder_name w ++ ".h5"))
  = false.
Proof.
  intros Hopen Hparms Hline. split; [|apply without_output_gone].
  unfold translate, IO.bind at 1. cbn [IO.get].
  unfold IO.bind at 1. rewrite Hopen.
  unfold IO.bind at 1, IO.lift at 1. rewrite Hparms.
  unfold IO.bind at 1. rewrite remove_output.
  destruct (build_one_dimension (Z.of_nat (length excit_wfm)) true None "Bias" "V"
              (or_introl eq_refl)) as (spec & Hspec).
  unfold IO.bind at 1, IO.lift at 1. rewrite Hspec.
  destruct (build_one_dimension (grid_num_rows parm_dict) false
              (Some [Qdiv (grid_scan_height parm_dict)
                          (inject_Z (grid_num_rows parm_dict))]) "Y" "m"
              (or_intror (ex_intro _ _ eq_refl))) as (pos & Hpos).
  unfold IO.bind at 1, IO.lift at 1. rewrite Hpos.
  unfold IO.bind at 1, open_line, IO.bind at 1.
  now rewrite (read_missing _ _ Hline).
Qed.

End Facts.

Lemma giv_translate_output_witness :
  fst (translate exact exact "parms.mat" example_world)
  = Ok "/data/giv/giv.h5"%string /\
  path_exists (snd (translate exact exact "parms.mat" example_world))
              "/data/giv/giv.h5" = true.
Proof.
  destruct (giv_translate_output exact exact "parms.mat" example_world
              (snd (translate exact exact "parms.mat" example_world))
              "/data/giv/giv.h5"%string) as [_ Hex].
  { run_to_pair. }
  split; [vm_compute; reflexivity|exact Hex].
Defined.

Lemma giv_translate_missing_first_line_witness :
  path_exists Examples.giv_no_lines "/data/giv/giv.h5" = true /\
  fst (translate exact exact "parms.mat" Examples.giv_no_lines)
  = Raise (IOError "/data/giv/line_1.mat") /\
  path_exists (snd (translate exact exact "parms.mat" Examples.giv_no_lines))
              "/data/giv/giv.h5" = false.
Proof.
  destruct (giv_translate_missing_first_line exact exact "parms.mat"
              Examples.giv_no_lines example_parm_file
              (fst (match _read_parms exact example_parm_file with
                    | Ok r => r
                    | Raise _ => (Examples.giv_parms, [])
                    end))
              (map inject_Z [0; 1; 2; 3; 4; 5; 6; 7; 8; 9]))
    as [Hrun Hgone].
  - reflexivity.
  - vm_compute. reflexivity.
  - reflexivity.
  - split; [reflexivity|]. rewrite Hrun. split; [reflexivity|exact Hgone].
Defined.

End GIVRunFacts.
